(** * CarMotorControl: the two-motor coordination layer of PWMMotorControl

    A shallow embedding of [src/CarMotorControl.cpp].  The class
    [CarMotorControl] owns two motor objects ([rightCarMotor],
    [leftCarMotor]), a handful of vehicle-level members and, in the IMU
    build, an [IMUData] object.  Its methods mutate these members and call
    methods of the two motors; here every method is a function on the
    record [Car], and every call that leaves the file (a motor method, an
    IMU method, [delay], the loop callback) is also recorded in the
    [Trace] member, so that "issues a brake-stop" or "calls nothing" are
    plain statements about lists.

    The motor class ([PWMDcMotor] / [EncoderMotor]) and the IMU class are
    not part of the file: they enter as the type classes [MotorDriver]
    and [IMUDriver].  The preprocessor switches [USE_MPU6050_IMU] and
    [USE_ENCODER_MOTOR_CONTROL] enter as the class [BuildConfig]. *)

From Stdlib Require Import ZArith List Bool Lia.
Import ListNotations.
Open Scope Z_scope.

Set Implicit Arguments.

(** ** Machine integers

    The library targets 8-bit AVR boards: [int] and [unsigned int] have 16
    bits, [uint8_t] and [int8_t] 8 bits, [millis()] returns a [uint32_t].
    Values are kept in [Z]; every place where the C++ code stores the
    result of arithmetic into a fixed-width variable wraps explicitly. *)

Module CInt.

Definition uint8_t (z : Z) : Z := z mod 256.
Definition int8_t (z : Z) : Z := (z + 128) mod 256 - 128.
Definition unsigned_int (z : Z) : Z := z mod 65536.
Definition int (z : Z) : Z := (z + 32768) mod 65536 - 32768.
Definition uint32_t (z : Z) : Z := z mod 4294967296.

(** [abs] of <stdlib.h> on a 16-bit [int]. *)
Definition abs (z : Z) : Z := int (Z.abs z).

Definition is_uint8_t (z : Z) : Prop := 0 <= z <= 255.
Definition is_int8_t (z : Z) : Prop := -128 <= z <= 127.
Definition is_unsigned_int (z : Z) : Prop := 0 <= z <= 65535.
Definition is_int (z : Z) : Prop := -32768 <= z <= 32767.

End CInt.

(** ** Symbolic constants of the headers *)

(** Modelled from the spec: the macros [DIRECTION_FORWARD],
    [DIRECTION_BACKWARD], [MOTOR_BRAKE], [MOTOR_RELEASE] and
    [STOP_MODE_KEEP] of [PWMDcMotor.h], which is not among the sources.
    The spec gives the commanded mode as the enumeration forward,
    backward, brake, release; [STOP_MODE_KEEP] is the further value that
    [stop] accepts ("take previously defined StopMode").  In the source
    all of them are [uint8_t]. *)
Inductive Mode : Type :=
| DIRECTION_FORWARD
| DIRECTION_BACKWARD
| MOTOR_BRAKE
| MOTOR_RELEASE
| STOP_MODE_KEEP.

(** Modelled from the spec: the macros [TURN_FORWARD], [TURN_BACKWARD] and
    [TURN_IN_PLACE] of [CarMotorControl.h], which is not among the
    sources.  The spec gives the turn mode as forward, backward, in-place;
    [startRotate] treats every value that is neither [TURN_FORWARD] nor
    [TURN_BACKWARD] as in-place. *)
Inductive TurnDirection : Type :=
| TURN_FORWARD
| TURN_BACKWARD
| TURN_IN_PLACE.

(** Modelled from the spec: the macros [MOTOR_STATE_...] of [PWMDcMotor.h],
    which is not among the sources.  The spec gives the ramp state as idle,
    ramp-up, at-drive-speed, ramp-down, stopped. *)
Inductive RampState : Type :=
| MOTOR_STATE_IDLE
| MOTOR_STATE_RAMP_UP
| MOTOR_STATE_DRIVE_SPEED
| MOTOR_STATE_RAMP_DOWN
| MOTOR_STATE_STOPPED.

Definition Mode_eqb (a b : Mode) : bool :=
  match a, b with
  | DIRECTION_FORWARD, DIRECTION_FORWARD
  | DIRECTION_BACKWARD, DIRECTION_BACKWARD
  | MOTOR_BRAKE, MOTOR_BRAKE
  | MOTOR_RELEASE, MOTOR_RELEASE
  | STOP_MODE_KEEP, STOP_MODE_KEEP => true
  | _, _ => false
  end.

Definition RampState_eqb (a b : RampState) : bool :=
  match a, b with
  | MOTOR_STATE_IDLE, MOTOR_STATE_IDLE
  | MOTOR_STATE_RAMP_UP, MOTOR_STATE_RAMP_UP
  | MOTOR_STATE_DRIVE_SPEED, MOTOR_STATE_DRIVE_SPEED
  | MOTOR_STATE_RAMP_DOWN, MOTOR_STATE_RAMP_DOWN
  | MOTOR_STATE_STOPPED, MOTOR_STATE_STOPPED => true
  | _, _ => false
  end.

(** Modelled from the spec: the macro [MAX_SPEED] of [PWMDcMotor.h], the
    fixed maximum of the speed range.  Speeds are [uint8_t] values, whose
    maximum is 255. *)
Definition MAX_SPEED : Z := 255.

(** ** The motor object

    The members of a motor that [CarMotorControl.cpp] reads or writes
    itself.  Everything else a motor does happens behind its methods. *)

Record Motor : Type := mkMotor {
  CurrentSpeed : Z;                 (* uint8_t *)
  StartSpeed : Z;                   (* uint8_t *)
  DriveSpeed : Z;                   (* uint8_t *)
  SpeedCompensation : Z;            (* uint8_t *)
  MotorRampState : RampState;
  CurrentDirectionOrBrakeMode : Mode;
  EncoderCount : Z                  (* unsigned int, written by the encoder interrupt *)
}.

Definition set_StartSpeed (v : Z) (m : Motor) : Motor :=
  mkMotor (CurrentSpeed m) v (DriveSpeed m) (SpeedCompensation m)
          (MotorRampState m) (CurrentDirectionOrBrakeMode m) (EncoderCount m).

Definition set_SpeedCompensation (v : Z) (m : Motor) : Motor :=
  mkMotor (CurrentSpeed m) (StartSpeed m) (DriveSpeed m) v
          (MotorRampState m) (CurrentDirectionOrBrakeMode m) (EncoderCount m).

(** The methods of a motor that the file calls, as a command language. *)
Inductive MotorCmd : Type :=
| setValuesForFixedDistanceDriving_ (aStartSpeed aDriveSpeed aSpeedCompensation : Z)
| setStartSpeed_ (aStartSpeed : Z)
| setSpeed_ (aRequestedSpeed : Z) (aRequestedDirection : Mode)
| setSpeedSigned_ (aRequestedSpeed : Z)
| changeSpeedCompensated_ (aRequestedSpeed : Z)
| setSpeedCompensated_ (aRequestedSpeed : Z) (aRequestedDirection : Mode)
| stop_ (aStopMode : Mode)
| resetEncoderControlValues_
| updateMotor_
| startRampUp_ (aRequestedSpeed : Z) (aRequestedDirection : Mode)
| startRampDown_
| startGoDistanceMillimeter_ (aRequestedSpeed aRequestedDistanceMillimeter : Z)
                             (aRequestedDirection : Mode).

Inductive Side : Type := RightMotor | LeftMotor.

(** The motor class as an interface: what a command does to the motor
    object, what [updateMotor] returns, the braking distance of an encoder
    motor, what the passing of time does to a unit (the encoder interrupt
    counts ticks while the program waits in [delay]), and the deceleration
    constant of [PWMDcMotor.h]. *)
Class MotorDriver : Type := {
  motor_exec : MotorCmd -> Motor -> Motor;
  motor_updateMotor_result : Motor -> bool;
  motor_getBrakingDistanceMillimeter : Motor -> Z;
  motor_elapse : Side -> Z -> Motor -> Motor;
  RAMP_DECELERATION_TIMES_2 : Z
}.

(** The IMU class as an interface. *)
Class IMUDriver : Type := {
  IMU : Type;
  readCarDataFromMPU6050Fifo : IMU -> IMU * bool;
  AcceleratorForwardOffset : IMU -> Z;
  getTurnAngleHalfDegree : IMU -> Z;     (* int *)
  getSpeedCmPerSecond : IMU -> Z;        (* int *)
  getDistanceMillimeter : IMU -> Z;      (* int *)
  resetCarData : IMU -> IMU;
  resetOffsetDataAndWait : IMU -> IMU;
  DELAY_TO_NEXT_IMU_DATA_MILLIS : Z
}.

(** What the build fixes for the file: the two preprocessor switches, and
    the default argument in the declaration of [stop] in
    [CarMotorControl.h], which [stop()] passes. *)
Class BuildConfig : Type := {
  USE_MPU6050_IMU : bool;
  USE_ENCODER_MOTOR_CONTROL : bool;
  stop_default : Mode
}.

(** What leaves the file, in program order. *)
Inductive IMUCmd : Type :=
| readCarDataFromMPU6050Fifo_
| resetCarData_
| resetOffsetDataAndWait_.

Inductive Event : Type :=
| MotorCall (side : Side) (cmd : MotorCmd)
| IMUCall (cmd : IMUCmd)
| DelayCall (aMillis : Z)
| LoopCallbackCall.

(** ** The car object *)

Section CarMotorControl.

Context {drv : MotorDriver} {imu : IMUDriver} {cfg : BuildConfig}.

(** The members of [CarMotorControl], the two static flags of
    [PWMDcMotor] the file sets, the millisecond clock behind [millis()]
    and [delay()] (time passes in [delay] only), and the trace of outgoing
    calls.

    [FactorDegreeToMillimeter] is a [float] in the source and is used once,
    in [(aRotationDegrees * FactorDegreeToMillimeter) + 0.5] converted to
    [unsigned int]; the member is represented by that conversion, a map
    from degrees to millimetres. *)
Record Car : Type := mkCar {
  rightCarMotor : Motor;
  leftCarMotor : Motor;
  CarDirectionOrBrakeMode : Mode;
  CarRequestedRotationDegrees : Z;        (* int *)
  CarRequestedDistanceMillimeter : Z;     (* unsigned int *)
  CarTurnAngleHalfDegreesFromIMU : Z;     (* int *)
  CarSpeedCmPerSecondFromIMU : Z;         (* unsigned int *)
  CarDistanceMillimeterFromIMU : Z;       (* unsigned int *)
  FactorDegreeToMillimeter : Z -> Z;
  IMUData : IMU;
  MotorControlValuesHaveChanged : bool;
  SensorValuesHaveChanged : bool;
  Millis : Z;                             (* uint32_t *)
  Trace : list Event
}.

Definition set_rightCarMotor (v : Motor) (c : Car) : Car :=
  mkCar v (leftCarMotor c) (CarDirectionOrBrakeMode c)
        (CarRequestedRotationDegrees c) (CarRequestedDistanceMillimeter c)
        (CarTurnAngleHalfDegreesFromIMU c) (CarSpeedCmPerSecondFromIMU c)
        (CarDistanceMillimeterFromIMU c) (FactorDegreeToMillimeter c) (IMUData c)
        (MotorControlValuesHaveChanged c) (SensorValuesHaveChanged c)
        (Millis c) (Trace c).

Definition set_leftCarMotor (v : Motor) (c : Car) : Car :=
  mkCar (rightCarMotor c) v (CarDirectionOrBrakeMode c)
        (CarRequestedRotationDegrees c) (CarRequestedDistanceMillimeter c)
        (CarTurnAngleHalfDegreesFromIMU c) (CarSpeedCmPerSecondFromIMU c)
        (CarDistanceMillimeterFromIMU c) (FactorDegreeToMillimeter c) (IMUData c)
        (MotorControlValuesHaveChanged c) (SensorValuesHaveChanged c)
        (Millis c) (Trace c).

Definition set_CarDirectionOrBrakeMode (v : Mode) (c : Car) : Car :=
  mkCar (rightCarMotor c) (leftCarMotor c) v
        (CarRequestedRotationDegrees c) (CarRequestedDistanceMillimeter c)
        (CarTurnAngleHalfDegreesFromIMU c) (CarSpeedCmPerSecondFromIMU c)
        (CarDistanceMillimeterFromIMU c) (FactorDegreeToMillimeter c) (IMUData c)
        (MotorControlValuesHaveChanged c) (SensorValuesHaveChanged c)
        (Millis c) (Trace c).

Definition set_CarRequestedRotationDegrees (v : Z) (c : Car) : Car :=
  mkCar (rightCarMotor c) (leftCarMotor c) (CarDirectionOrBrakeMode c)
        v (CarRequestedDistanceMillimeter c)
        (CarTurnAngleHalfDegreesFromIMU c) (CarSpeedCmPerSecondFromIMU c)
        (CarDistanceMillimeterFromIMU c) (FactorDegreeToMillimeter c) (IMUData c)
        (MotorControlValuesHaveChanged c) (SensorValuesHaveChanged c)
        (Millis c) (Trace c).

Definition set_CarRequestedDistanceMillimeter (v : Z) (c : Car) : Car :=
  mkCar (rightCarMotor c) (leftCarMotor c) (CarDirectionOrBrakeMode c)
        (CarRequestedRotationDegrees c) v
        (CarTurnAngleHalfDegreesFromIMU c) (CarSpeedCmPerSecondFromIMU c)
        (CarDistanceMillimeterFromIMU c) (FactorDegreeToMillimeter c) (IMUData c)
        (MotorControlValuesHaveChanged c) (SensorValuesHaveChanged c)
        (Millis c) (Trace c).

Definition set_CarTurnAngleHalfDegreesFromIMU (v : Z) (c : Car) : Car :=
  mkCar (rightCarMotor c) (leftCarMotor c) (CarDirectionOrBrakeMode c)
        (CarRequestedRotationDegrees c) (CarRequestedDistanceMillimeter c)
        v (CarSpeedCmPerSecondFromIMU c)
        (CarDistanceMillimeterFromIMU c) (FactorDegreeToMillimeter c) (IMUData c)
        (MotorControlValuesHaveChanged c) (SensorValuesHaveChanged c)
        (Millis c) (Trace c).

Definition set_CarSpeedCmPerSecondFromIMU (v : Z) (c : Car) : Car :=
  mkCar (rightCarMotor c) (leftCarMotor c) (CarDirectionOrBrakeMode c)
        (CarRequestedRotationDegrees c) (CarRequestedDistanceMillimeter c)
        (CarTurnAngleHalfDegreesFromIMU c) v
        (CarDistanceMillimeterFromIMU c) (FactorDegreeToMillimeter c) (IMUData c)
        (MotorControlValuesHaveChanged c) (SensorValuesHaveChanged c)
        (Millis c) (Trace c).

Definition set_CarDistanceMillimeterFromIMU (v : Z) (c : Car) : Car :=
  mkCar (rightCarMotor c) (leftCarMotor c) (CarDirectionOrBrakeMode c)
        (CarRequestedRotationDegrees c) (CarRequestedDistanceMillimeter c)
        (CarTurnAngleHalfDegreesFromIMU c) (CarSpeedCmPerSecondFromIMU c)
        v (FactorDegreeToMillimeter c) (IMUData c)
        (MotorControlValuesHaveChanged c) (SensorValuesHaveChanged c)
        (Millis c) (Trace c).

Definition set_IMUData (v : IMU) (c : Car) : Car :=
  mkCar (rightCarMotor c) (leftCarMotor c) (CarDirectionOrBrakeMode c)
        (CarRequestedRotationDegrees c) (CarRequestedDistanceMillimeter c)
        (CarTurnAngleHalfDegreesFromIMU c) (CarSpeedCmPerSecondFromIMU c)
        (CarDistanceMillimeterFromIMU c) (FactorDegreeToMillimeter c) v
        (MotorControlValuesHaveChanged c) (SensorValuesHaveChanged c)
        (Millis c) (Trace c).

Definition set_MotorControlValuesHaveChanged (v : bool) (c : Car) : Car :=
  mkCar (rightCarMotor c) (leftCarMotor c) (CarDirectionOrBrakeMode c)
        (CarRequestedRotationDegrees c) (CarRequestedDistanceMillimeter c)
        (CarTurnAngleHalfDegreesFromIMU c) (CarSpeedCmPerSecondFromIMU c)
        (CarDistanceMillimeterFromIMU c) (FactorDegreeToMillimeter c) (IMUData c)
        v (SensorValuesHaveChanged c)
        (Millis c) (Trace c).

Definition set_SensorValuesHaveChanged (v : bool) (c : Car) : Car :=
  mkCar (rightCarMotor c) (leftCarMotor c) (CarDirectionOrBrakeMode c)
        (CarRequestedRotationDegrees c) (CarRequestedDistanceMillimeter c)
        (CarTurnAngleHalfDegreesFromIMU c) (CarSpeedCmPerSecondFromIMU c)
        (CarDistanceMillimeterFromIMU c) (FactorDegreeToMillimeter c) (IMUData c)
        (MotorControlValuesHaveChanged c) v
        (Millis c) (Trace c).

Definition set_Millis (v : Z) (c : Car) : Car :=
  mkCar (rightCarMotor c) (leftCarMotor c) (CarDirectionOrBrakeMode c)
        (CarRequestedRotationDegrees c) (CarRequestedDistanceMillimeter c)
        (CarTurnAngleHalfDegreesFromIMU c) (CarSpeedCmPerSecondFromIMU c)
        (CarDistanceMillimeterFromIMU c) (FactorDegreeToMillimeter c) (IMUData c)
        (MotorControlValuesHaveChanged c) (SensorValuesHaveChanged c)
        v (Trace c).

Definition set_Trace (v : list Event) (c : Car) : Car :=
  mkCar (rightCarMotor c) (leftCarMotor c) (CarDirectionOrBrakeMode c)
        (CarRequestedRotationDegrees c) (CarRequestedDistanceMillimeter c)
        (CarTurnAngleHalfDegreesFromIMU c) (CarSpeedCmPerSecondFromIMU c)
        (CarDistanceMillimeterFromIMU c) (FactorDegreeToMillimeter c) (IMUData c)
        (MotorControlValuesHaveChanged c) (SensorValuesHaveChanged c)
        (Millis c) v.

(** *** Calls that leave the file *)

Definition motor (s : Side) (c : Car) : Motor :=
  match s with
  | RightMotor => rightCarMotor c
  | LeftMotor => leftCarMotor c
  end.

Definition set_motor (s : Side) (m : Motor) (c : Car) : Car :=
  match s with
  | RightMotor => set_rightCarMotor m c
  | LeftMotor => set_leftCarMotor m c
  end.

Definition other (s : Side) : Side :=
  match s with
  | RightMotor => LeftMotor
  | LeftMotor => RightMotor
  end.

Definition log (e : Event) (c : Car) : Car :=
  set_Trace (Trace c ++ [e]) c.

(** [xCarMotor.cmd(...)]: the motor object changes as the driver says, and
    the call is recorded. *)
Definition call (s : Side) (cmd : MotorCmd) (c : Car) : Car :=
  log (MotorCall s cmd) (set_motor s (motor_exec cmd (motor s c)) c).

(** [delay(aMillis)]: the clock advances, the units live through the
    interval, and the call is recorded. *)
Definition delay (aMillis : Z) (c : Car) : Car :=
  log (DelayCall aMillis)
      (set_Millis (CInt.uint32_t (Millis c + aMillis))
         (set_leftCarMotor (motor_elapse LeftMotor aMillis (leftCarMotor c))
            (set_rightCarMotor (motor_elapse RightMotor aMillis (rightCarMotor c)) c))).

(** [if (aLoopCallback != NULL) aLoopCallback();] The callback is user
    code with access to the whole car. *)
Definition callLoopCallback (aLoopCallback : option (Car -> Car)) (c : Car) : Car :=
  match aLoopCallback with
  | None => c
  | Some f => f (log LoopCallbackCall c)
  end.

(** *** Compensation *)

Definition setValuesForFixedDistanceDriving
    (aStartSpeed aDriveSpeed aSpeedCompensationRight : Z) (c : Car) : Car :=
  if 0 <=? aSpeedCompensationRight then
    let c := call RightMotor
               (setValuesForFixedDistanceDriving_ aStartSpeed aDriveSpeed
                  aSpeedCompensationRight) c in
    call LeftMotor (setValuesForFixedDistanceDriving_ aStartSpeed aDriveSpeed 0) c
  else
    let c := call RightMotor
               (setValuesForFixedDistanceDriving_ aStartSpeed aDriveSpeed 0) c in
    call LeftMotor
      (setValuesForFixedDistanceDriving_ aStartSpeed aDriveSpeed
         (- aSpeedCompensationRight)) c.

Definition changeSpeedCompensation (aSpeedCompensationRight : Z) (c : Car) : Car :=
  let c :=
    if 0 <? aSpeedCompensationRight then
      if aSpeedCompensationRight <=? SpeedCompensation (leftCarMotor c) then
        set_leftCarMotor
          (set_SpeedCompensation
             (CInt.uint8_t (SpeedCompensation (leftCarMotor c) - aSpeedCompensationRight))
             (leftCarMotor c)) c
      else
        set_rightCarMotor
          (set_SpeedCompensation
             (CInt.uint8_t (SpeedCompensation (rightCarMotor c) + aSpeedCompensationRight))
             (rightCarMotor c)) c
    else
      let aSpeedCompensationRight := CInt.int8_t (- aSpeedCompensationRight) in
      if aSpeedCompensationRight <=? SpeedCompensation (rightCarMotor c) then
        set_rightCarMotor
          (set_SpeedCompensation
             (CInt.uint8_t (SpeedCompensation (rightCarMotor c) - aSpeedCompensationRight))
             (rightCarMotor c)) c
      else
        set_leftCarMotor
          (set_SpeedCompensation
             (CInt.uint8_t (SpeedCompensation (leftCarMotor c) + aSpeedCompensationRight))
             (leftCarMotor c)) c
  in
  set_MotorControlValuesHaveChanged true c.

Definition setStartSpeed (aStartSpeed : Z) (c : Car) : Car :=
  let c := call RightMotor (setStartSpeed_ aStartSpeed) c in
  call LeftMotor (setStartSpeed_ aStartSpeed) c.

(** *** Stop and direction *)

Definition stop (aStopMode : Mode) (c : Car) : Car :=
  let c := call RightMotor (stop_ aStopMode) c in
  let c := call LeftMotor (stop_ aStopMode) c in
  set_CarDirectionOrBrakeMode (CurrentDirectionOrBrakeMode (rightCarMotor c)) c.

Definition isStopped (c : Car) : bool :=
  (CurrentSpeed (rightCarMotor c) =? 0) && (CurrentSpeed (leftCarMotor c) =? 0).

Definition checkAndHandleDirectionChange (aRequestedDirection : Mode) (c : Car)
  : bool * Car :=
  if negb (Mode_eqb (CarDirectionOrBrakeMode c) aRequestedDirection) then
    let tMaxSpeed :=
      Z.max (CurrentSpeed (rightCarMotor c)) (CurrentSpeed (leftCarMotor c)) in
    let '(tReturnValue, c) :=
      if 0 <? tMaxSpeed then
        let c := stop MOTOR_BRAKE c in
        let c := delay (tMaxSpeed / 2) c in
        (true, c)
      else (false, c) in
    (tReturnValue, set_CarDirectionOrBrakeMode aRequestedDirection c)
  else (false, c).

(** *** Speed *)

(** [setSpeed(uint8_t, uint8_t)] *)
Definition setSpeed (aRequestedSpeed : Z) (aRequestedDirection : Mode) (c : Car) : Car :=
  let c := snd (checkAndHandleDirectionChange aRequestedDirection c) in
  let c := call RightMotor (setSpeed_ aRequestedSpeed aRequestedDirection) c in
  call LeftMotor (setSpeed_ aRequestedSpeed aRequestedDirection) c.

Definition changeSpeedCompensated (aRequestedSpeed : Z) (c : Car) : Car :=
  let c := call RightMotor (changeSpeedCompensated_ aRequestedSpeed) c in
  call LeftMotor (changeSpeedCompensated_ aRequestedSpeed) c.

(** [setSpeedCompensated(uint8_t, uint8_t)] *)
Definition setSpeedCompensated (aRequestedSpeed : Z) (aRequestedDirection : Mode)
    (c : Car) : Car :=
  let c := snd (checkAndHandleDirectionChange aRequestedDirection c) in
  let c := call RightMotor (setSpeedCompensated_ aRequestedSpeed aRequestedDirection) c in
  call LeftMotor (setSpeedCompensated_ aRequestedSpeed aRequestedDirection) c.

(** [setSpeed(int)] *)
Definition setSpeedSigned (aRequestedSpeed : Z) (c : Car) : Car :=
  let c := call RightMotor (setSpeedSigned_ aRequestedSpeed) c in
  call LeftMotor (setSpeedSigned_ aRequestedSpeed) c.

Definition resetControlValues (c : Car) : Car :=
  if USE_ENCODER_MOTOR_CONTROL then
    let c := call RightMotor resetEncoderControlValues_ c in
    call LeftMotor resetEncoderControlValues_ c
  else c.

Definition startRampUp (aRequestedSpeed : Z) (aRequestedDirection : Mode) (c : Car) : Car :=
  let c := snd (checkAndHandleDirectionChange aRequestedDirection c) in
  let c := call RightMotor (startRampUp_ aRequestedSpeed aRequestedDirection) c in
  call LeftMotor (startRampUp_ aRequestedSpeed aRequestedDirection) c.

Definition startRampDown (c : Car) : Car :=
  if isStopped c then c
  else
    let c := call RightMotor startRampDown_ c in
    call LeftMotor startRampDown_ c.

(** *** The update engine *)

Definition SLOW_DOWN_ANGLE : Z := 10.
Definition TURN_OVERRUN_HALF_ANGLE : Z := 2.

Definition IMUread (c : Car) : bool * Car :=
  let '(i, tNewData) := readCarDataFromMPU6050Fifo (IMUData c) in
  (tNewData, log (IMUCall readCarDataFromMPU6050Fifo_) (set_IMUData i c)).

Definition updateIMUData (c : Car) : Car :=
  let '(tNewData, c) := IMUread c in
  if tNewData then
    if negb (AcceleratorForwardOffset (IMUData c) =? 0) then
      let c :=
        if negb (CarTurnAngleHalfDegreesFromIMU c =? getTurnAngleHalfDegree (IMUData c))
        then set_SensorValuesHaveChanged true
               (set_CarTurnAngleHalfDegreesFromIMU (getTurnAngleHalfDegree (IMUData c)) c)
        else c in
      let c :=
        if negb (CarSpeedCmPerSecondFromIMU c
                 =? CInt.unsigned_int (CInt.abs (getSpeedCmPerSecond (IMUData c))))
        then set_SensorValuesHaveChanged true
               (set_CarSpeedCmPerSecondFromIMU
                  (CInt.unsigned_int (CInt.abs (getSpeedCmPerSecond (IMUData c)))) c)
        else c in
      if negb (CarDistanceMillimeterFromIMU c
               =? CInt.unsigned_int (CInt.abs (getDistanceMillimeter (IMUData c))))
      then set_SensorValuesHaveChanged true
             (set_CarDistanceMillimeterFromIMU
                (CInt.unsigned_int (CInt.abs (getDistanceMillimeter (IMUData c)))) c)
      else c
    else c
  else c.

Definition getBrakingDistanceMillimeter (c : Car) : Z :=
  if USE_ENCODER_MOTOR_CONTROL then
    motor_getBrakingDistanceMillimeter (rightCarMotor c)
  else
    let tCarSpeedCmPerSecond := CarSpeedCmPerSecondFromIMU c in
    CInt.unsigned_int (tCarSpeedCmPerSecond * tCarSpeedCmPerSecond)
    / (RAMP_DECELERATION_TIMES_2 / 100).

(** [tReturnValue = rightCarMotor.updateMotor();
     tReturnValue |= leftCarMotor.updateMotor();] *)
Definition updateBothMotors (c : Car) : bool * Car :=
  let tRight := motor_updateMotor_result (rightCarMotor c) in
  let c := call RightMotor updateMotor_ c in
  let tLeft := motor_updateMotor_result (leftCarMotor c) in
  let c := call LeftMotor updateMotor_ c in
  (tRight || tLeft, c).

Definition isDrivingState (s : RampState) : bool :=
  RampState_eqb s MOTOR_STATE_RAMP_UP
  || RampState_eqb s MOTOR_STATE_DRIVE_SPEED
  || RampState_eqb s MOTOR_STATE_RAMP_DOWN.

(** The body of [if (CarRequestedDistanceMillimeter != 0)] in the IMU
    build without encoder motors. *)
Definition updateDistanceDriving (c : Car) : Car :=
  if isDrivingState (MotorRampState (rightCarMotor c)) then
    let tBrakingDistanceMillimeter := getBrakingDistanceMillimeter c in
    let c :=
      if CarRequestedDistanceMillimeter c <=? CarDistanceMillimeterFromIMU c then
        stop MOTOR_BRAKE (set_CarRequestedDistanceMillimeter 0 c)
      else c in
    if negb (RampState_eqb (MotorRampState (rightCarMotor c)) MOTOR_STATE_RAMP_DOWN)
       && (CarRequestedDistanceMillimeter c
           <=? CInt.unsigned_int (CarDistanceMillimeterFromIMU c + tBrakingDistanceMillimeter))
    then startRampDown c
    else c
  else c.

(** [updateMotors()] *)
Definition updateMotors (c : Car) : bool * Car :=
  if USE_MPU6050_IMU then
    let c := updateIMUData c in
    if negb (CarRequestedRotationDegrees c =? 0) then
      let tRequestedRotationDegreesForCompare :=
        CInt.abs (CInt.int (CarRequestedRotationDegrees c * 2)) in
      let tCarTurnAngleHalfDegreesFromIMUForCompare :=
        CInt.abs (CarTurnAngleHalfDegreesFromIMU c) in
      if tRequestedRotationDegreesForCompare
         <=? CInt.int (tCarTurnAngleHalfDegreesFromIMUForCompare + TURN_OVERRUN_HALF_ANGLE)
      then
        let c := stop MOTOR_BRAKE c in
        (false, set_CarRequestedRotationDegrees 0 c)
      else if tRequestedRotationDegreesForCompare
              <=? CInt.int (tCarTurnAngleHalfDegreesFromIMUForCompare + SLOW_DOWN_ANGLE * 2)
      then (true, changeSpeedCompensated (StartSpeed (rightCarMotor c)) c)
      else (true, c)
    else
      let c :=
        if negb (CarRequestedDistanceMillimeter c =? 0) then
          if negb USE_ENCODER_MOTOR_CONTROL then updateDistanceDriving c else c
        else c in
      updateBothMotors c
  else updateBothMotors c.

(** [updateMotors(aLoopCallback)], the overload with a callback *)
Definition updateMotorsCallback (aLoopCallback : option (Car -> Car)) (c : Car)
  : bool * Car :=
  updateMotors (callLoopCallback aLoopCallback c).

(** [while (updateMotors(aLoopCallback)) ;]  The loop has no bound of its
    own; [fuel] bounds the number of iterations and [None] means the bound
    was hit. *)
Fixpoint waitUntilStopped_loop (fuel : nat) (aLoopCallback : option (Car -> Car))
    (c : Car) : option Car :=
  match fuel with
  | O => None
  | S fuel =>
      let '(tMoving, c) := updateMotorsCallback aLoopCallback c in
      if tMoving then waitUntilStopped_loop fuel aLoopCallback c else Some c
  end.

Definition waitUntilStopped (fuel : nat) (aLoopCallback : option (Car -> Car))
    (c : Car) : option Car :=
  match waitUntilStopped_loop fuel aLoopCallback c with
  | None => None
  | Some c =>
      Some (set_CarDirectionOrBrakeMode (CurrentDirectionOrBrakeMode (rightCarMotor c)) c)
  end.

(** *** Distance and rotation *)

Definition IMUresetCarData (c : Car) : Car :=
  log (IMUCall resetCarData_) (set_IMUData (resetCarData (IMUData c)) c).

(** [startGoDistanceMillimeter(uint8_t, unsigned int, uint8_t)] *)
Definition startGoDistanceMillimeter
    (aRequestedSpeed aRequestedDistanceMillimeter : Z) (aRequestedDirection : Mode)
    (c : Car) : Car :=
  let c := snd (checkAndHandleDirectionChange aRequestedDirection c) in
  let c :=
    if USE_MPU6050_IMU then
      set_CarRequestedDistanceMillimeter aRequestedDistanceMillimeter (IMUresetCarData c)
    else c in
  if USE_MPU6050_IMU && negb USE_ENCODER_MOTOR_CONTROL then
    startRampUp aRequestedSpeed aRequestedDirection c
  else
    let c := call RightMotor
               (startGoDistanceMillimeter_ aRequestedSpeed aRequestedDistanceMillimeter
                  aRequestedDirection) c in
    call LeftMotor
      (startGoDistanceMillimeter_ aRequestedSpeed aRequestedDistanceMillimeter
         aRequestedDirection) c.

(** The locals of [startRotate] after the sign of the angle is handled:
    which motor is [tRightMotorIfPositiveTurn] (the other one is
    [tLeftMotorIfPositiveTurn]) and the angle made non-negative. *)
Definition rotateOuterSide (aRotationDegrees : Z) : Side :=
  if 0 <=? aRotationDegrees then RightMotor else LeftMotor.

Definition rotateMagnitude (aRotationDegrees : Z) : Z :=
  if 0 <=? aRotationDegrees then aRotationDegrees else CInt.int (- aRotationDegrees).

(** [tDistanceMillimeter] *)
Definition rotateDistanceMillimeter (aRotationDegrees : Z) (c : Car) : Z :=
  if USE_MPU6050_IMU then 2000
  else FactorDegreeToMillimeter c (rotateMagnitude aRotationDegrees).

(** [(tDistanceMillimeterRight, tDistanceMillimeterLeft)] *)
Definition rotateDistances (aTurnDirection : TurnDirection) (tDistanceMillimeter : Z)
  : Z * Z :=
  match aTurnDirection with
  | TURN_FORWARD => (tDistanceMillimeter, 0)
  | TURN_BACKWARD => (0, tDistanceMillimeter)
  | TURN_IN_PLACE => (tDistanceMillimeter / 2, tDistanceMillimeter / 2)
  end.

(** [tTurnSpeedRight] / [tTurnSpeedLeft] for one motor *)
Definition rotateTurnSpeed (aUseSlowSpeed : bool) (m : Motor) : Z :=
  if aUseSlowSpeed && (StartSpeed m <? 160) then
    CInt.uint8_t (StartSpeed m + StartSpeed m / 2)
  else DriveSpeed m.

Definition startRotate (aRotationDegrees : Z) (aTurnDirection : TurnDirection)
    (aUseSlowSpeed : bool) (c : Car) : Car :=
  let c :=
    if USE_MPU6050_IMU then
      set_CarRequestedRotationDegrees aRotationDegrees (IMUresetCarData c)
    else c in
  let tRightMotorIfPositiveTurn := rotateOuterSide aRotationDegrees in
  let tLeftMotorIfPositiveTurn := other tRightMotorIfPositiveTurn in
  let tDistanceMillimeter := rotateDistanceMillimeter aRotationDegrees c in
  let '(tDistanceMillimeterRight, tDistanceMillimeterLeft) :=
    rotateDistances aTurnDirection tDistanceMillimeter in
  let tTurnSpeedRight := rotateTurnSpeed aUseSlowSpeed (motor tRightMotorIfPositiveTurn c) in
  let tTurnSpeedLeft := rotateTurnSpeed aUseSlowSpeed (motor tLeftMotorIfPositiveTurn c) in
  if USE_MPU6050_IMU then
    let c :=
      if 0 <? tDistanceMillimeterRight then
        call tRightMotorIfPositiveTurn
          (setSpeedCompensated_ tTurnSpeedRight DIRECTION_FORWARD) c
      else c in
    if 0 <? tDistanceMillimeterLeft then
      call tLeftMotorIfPositiveTurn
        (setSpeedCompensated_ tTurnSpeedLeft DIRECTION_BACKWARD) c
    else c
  else
    let c := call tRightMotorIfPositiveTurn
               (startGoDistanceMillimeter_ tTurnSpeedRight tDistanceMillimeterRight
                  DIRECTION_FORWARD) c in
    call tLeftMotorIfPositiveTurn
      (startGoDistanceMillimeter_ tTurnSpeedLeft tDistanceMillimeterLeft
         DIRECTION_BACKWARD) c.

Definition rotate (fuel : nat) (aRotationDegrees : Z) (aTurnDirection : TurnDirection)
    (aUseSlowSpeed : bool) (aLoopCallback : option (Car -> Car)) (c : Car)
  : option Car :=
  if negb (aRotationDegrees =? 0) then
    waitUntilStopped fuel aLoopCallback
      (startRotate aRotationDegrees aTurnDirection aUseSlowSpeed c)
  else Some c.

(** *** Calibration *)

Definition IMUresetOffsetDataAndWait (c : Car) : Car :=
  log (IMUCall resetOffsetDataAndWait_)
      (set_IMUData (resetOffsetDataAndWait (IMUData c)) c).

(** How control leaves the [for] loop of [calibrate]: by the [return]
    inside the active delay, or by [break] or the end of the range. *)
Inductive LoopExit : Type :=
| ReturnFromCalibrate (c : Car)
| LeaveLoop (c : Car).

(** The active delay
    [do { callback; if (isStopped()) return; delay(..); } while (millis() - tStartMillis <= 200);]
    The result [true] stands for the [return].  [fuel] bounds the number of
    rounds, because the callback is free to set the clock back. *)
Fixpoint calibrate_activeDelay (fuel : nat) (tStartMillis : Z)
    (aLoopCallback : option (Car -> Car)) (c : Car) : option (bool * Car) :=
  match fuel with
  | O => None
  | S fuel =>
      let c := callLoopCallback aLoopCallback c in
      if isStopped c then Some (true, c)
      else
        let c :=
          if USE_ENCODER_MOTOR_CONTROL then delay 10 c
          else updateIMUData (delay DELAY_TO_NEXT_IMU_DATA_MILLIS c) in
        if CInt.uint32_t (Millis c - tStartMillis) <=? 200
        then calibrate_activeDelay fuel tStartMillis aLoopCallback c
        else Some (false, c)
  end.

(** [if (xCarMotor.StartSpeed == 0 && xCarMotor.EncoderCount > 6)
       { xCarMotor.setStartSpeed(tSpeed); tMotorMovingCount++; }] *)
Definition calibrate_checkMoved (s : Side) (tSpeed : Z) (st : Z * Car) : Z * Car :=
  let '(tMotorMovingCount, c) := st in
  if (StartSpeed (motor s c) =? 0) && (6 <? EncoderCount (motor s c)) then
    (CInt.uint8_t (tMotorMovingCount + 1), call s (setStartSpeed_ tSpeed) c)
  else (tMotorMovingCount, c).

(** [if (xCarMotor.StartSpeed == 0) xCarMotor.setSpeed(tSpeed, DIRECTION_FORWARD);] *)
Definition calibrate_applySpeed (s : Side) (tSpeed : Z) (c : Car) : Car :=
  if StartSpeed (motor s c) =? 0 then call s (setSpeed_ tSpeed DIRECTION_FORWARD) c
  else c.

(** [for (uint8_t tSpeed = 20; tSpeed != MAX_SPEED; ++tSpeed)], as a
    recursion over the values [tSpeed] takes. *)
Fixpoint calibrate_loop (fuel : nat) (tSpeeds : list Z) (tMotorMovingCount : Z)
    (aLoopCallback : option (Car -> Car)) (c : Car) : option LoopExit :=
  match tSpeeds with
  | [] => Some (LeaveLoop c)
  | tSpeed :: tSpeeds =>
      let c := calibrate_applySpeed RightMotor tSpeed c in
      let c := calibrate_applySpeed LeftMotor tSpeed c in
      match calibrate_activeDelay fuel (Millis c) aLoopCallback c with
      | None => None
      | Some (true, c) => Some (ReturnFromCalibrate c)
      | Some (false, c) =>
          if USE_ENCODER_MOTOR_CONTROL then
            let '(tMotorMovingCount, c) :=
              calibrate_checkMoved LeftMotor tSpeed
                (calibrate_checkMoved RightMotor tSpeed (tMotorMovingCount, c)) in
            if 2 <=? tMotorMovingCount then Some (LeaveLoop c)
            else calibrate_loop fuel tSpeeds tMotorMovingCount aLoopCallback c
          else
            if 10 <=? CInt.abs (getSpeedCmPerSecond (IMUData c)) then
              Some (LeaveLoop (setStartSpeed tSpeed c))
            else calibrate_loop fuel tSpeeds tMotorMovingCount aLoopCallback c
      end
  end.

(** The values of [tSpeed]: 20, 21, ..., [MAX_SPEED - 1]. *)
Definition calibrate_speeds : list Z :=
  map Z.of_nat (seq 20 (Z.to_nat (MAX_SPEED - 20))).

(** [calibrate(aLoopCallback)], in a build with encoder motors or with IMU
    (there is no [calibrate] in a build with neither). *)
Definition calibrate (fuel : nat) (aLoopCallback : option (Car -> Car)) (c : Car)
  : option Car :=
  let c := stop stop_default c in
  let c := resetControlValues c in
  let c := set_rightCarMotor (set_StartSpeed 0 (rightCarMotor c)) c in
  let c := set_leftCarMotor (set_StartSpeed 0 (leftCarMotor c)) c in
  let c := if USE_ENCODER_MOTOR_CONTROL then c else IMUresetOffsetDataAndWait c in
  match calibrate_loop fuel calibrate_speeds 0 aLoopCallback c with
  | None => None
  | Some (ReturnFromCalibrate c) => Some c
  | Some (LeaveLoop c) => Some (stop stop_default c)
  end.

End CarMotorControl.

(** ** A reference environment

    The theorems below hold for every motor driver and every IMU driver
    (some under a stated contract).  To run the car on concrete inputs an
    environment is needed; this one is used for that and for nothing else. *)

Module Reference.

(** Modelled from the spec: the Actuator Unit (the motor class is not among
    the sources).  A unit accepts speed and direction commands, applies
    requested speed plus its compensation in the compensated variants,
    stores the values it is handed, follows the ramp states idle, ramp-up,
    at-drive-speed, ramp-down, stopped, and a stop brings its speed to
    zero.  [stop(STOP_MODE_KEEP)] brakes. *)
Definition exec (cmd : MotorCmd) (m : Motor) : Motor :=
  match cmd with
  | setValuesForFixedDistanceDriving_ s d k =>
      mkMotor (CurrentSpeed m) s d k (MotorRampState m)
              (CurrentDirectionOrBrakeMode m) (EncoderCount m)
  | setStartSpeed_ s => set_StartSpeed s m
  | setSpeed_ s d =>
      mkMotor s (StartSpeed m) (DriveSpeed m) (SpeedCompensation m)
              (MotorRampState m) d (EncoderCount m)
  | setSpeedSigned_ s =>
      mkMotor (CInt.uint8_t (Z.abs s)) (StartSpeed m) (DriveSpeed m) (SpeedCompensation m)
              (MotorRampState m)
              (if s <? 0 then DIRECTION_BACKWARD else DIRECTION_FORWARD) (EncoderCount m)
  | changeSpeedCompensated_ s =>
      mkMotor (CInt.uint8_t (s + SpeedCompensation m)) (StartSpeed m) (DriveSpeed m)
              (SpeedCompensation m) (MotorRampState m)
              (CurrentDirectionOrBrakeMode m) (EncoderCount m)
  | setSpeedCompensated_ s d =>
      mkMotor (CInt.uint8_t (s + SpeedCompensation m)) (StartSpeed m) (DriveSpeed m)
              (SpeedCompensation m) MOTOR_STATE_DRIVE_SPEED d (EncoderCount m)
  | stop_ a =>
      mkMotor 0 (StartSpeed m) (DriveSpeed m) (SpeedCompensation m) MOTOR_STATE_STOPPED
              (match a with STOP_MODE_KEEP => MOTOR_BRAKE | _ => a end) (EncoderCount m)
  | resetEncoderControlValues_ =>
      mkMotor (CurrentSpeed m) (StartSpeed m) (DriveSpeed m) (SpeedCompensation m)
              (MotorRampState m) (CurrentDirectionOrBrakeMode m) 0
  | updateMotor_ =>
      match MotorRampState m with
      | MOTOR_STATE_RAMP_UP =>
          mkMotor (DriveSpeed m) (StartSpeed m) (DriveSpeed m) (SpeedCompensation m)
                  MOTOR_STATE_DRIVE_SPEED (CurrentDirectionOrBrakeMode m) (EncoderCount m)
      | MOTOR_STATE_RAMP_DOWN =>
          mkMotor 0 (StartSpeed m) (DriveSpeed m) (SpeedCompensation m)
                  MOTOR_STATE_STOPPED (CurrentDirectionOrBrakeMode m) (EncoderCount m)
      | _ => m
      end
  | startRampUp_ s d =>
      mkMotor (StartSpeed m) (StartSpeed m) s (SpeedCompensation m)
              MOTOR_STATE_RAMP_UP d (EncoderCount m)
  | startRampDown_ =>
      mkMotor (CurrentSpeed m) (StartSpeed m) (DriveSpeed m) (SpeedCompensation m)
              MOTOR_STATE_RAMP_DOWN (CurrentDirectionOrBrakeMode m) (EncoderCount m)
  | startGoDistanceMillimeter_ s dist d =>
      if dist =? 0 then m
      else mkMotor (StartSpeed m) (StartSpeed m) s (SpeedCompensation m)
                   MOTOR_STATE_RAMP_UP d (EncoderCount m)
  end.

Definition updateMotor_result (m : Motor) : bool :=
  negb (CurrentSpeed (exec updateMotor_ m) =? 0).

(** A synthetic wheel for the calibration: it stands still below the
    commanded speed [tThreshold s] and gives one encoder tick per
    millisecond at or above it. *)
Definition elapse (tThreshold : Side -> Z) (s : Side) (aMillis : Z) (m : Motor) : Motor :=
  if tThreshold s <=? CurrentSpeed m then
    mkMotor (CurrentSpeed m) (StartSpeed m) (DriveSpeed m) (SpeedCompensation m)
            (MotorRampState m) (CurrentDirectionOrBrakeMode m)
            (EncoderCount m + aMillis)
  else m.

Definition driver (tThreshold : Side -> Z) : MotorDriver :=
  Build_MotorDriver exec updateMotor_result (fun _ => 0) (elapse tThreshold) 3500.

(** Modelled from the spec: the Motion Feedback Source (the IMU class is not
    among the sources).  [readCarDataFromMPU6050Fifo] consumes one pending
    sample (turn angle, speed, distance) and reports whether there was
    one. *)
Record Sensor : Type := mkSensor {
  sOffset : Z;
  sTurnAngleHalfDegree : Z;
  sSpeedCmPerSecond : Z;
  sDistanceMillimeter : Z;
  sFifo : list (Z * Z * Z)
}.

Definition sensorRead (i : Sensor) : Sensor * bool :=
  match sFifo i with
  | [] => (i, false)
  | (a, v, d) :: rest => (mkSensor (sOffset i) a v d rest, true)
  end.

Definition sensorReset (i : Sensor) : Sensor :=
  mkSensor (sOffset i) 0 0 0 (sFifo i).

Definition sensor : IMUDriver :=
  Build_IMUDriver sensorRead sOffset sTurnAngleHalfDegree sSpeedCmPerSecond
                  sDistanceMillimeter sensorReset sensorReset 2.

Definition imuOnly : BuildConfig := Build_BuildConfig true false STOP_MODE_KEEP.
Definition encoderOnly : BuildConfig := Build_BuildConfig false true STOP_MODE_KEEP.
Definition plain : BuildConfig := Build_BuildConfig false false STOP_MODE_KEEP.

Definition motorUnit (tSpeed tStart tDrive tCompensation : Z) (tState : RampState)
    (tMode : Mode) : Motor :=
  mkMotor tSpeed tStart tDrive tCompensation tState tMode 0.

Definition idleSensor (tSamples : list (Z * Z * Z)) : Sensor :=
  mkSensor 1 0 0 0 tSamples.

(** A car with the given units, commanded mode, pending rotation, pending
    distance, cached turn angle and distance, and pending IMU samples. *)
Definition car (tRight tLeft : Motor) (tMode : Mode)
    (tRotation tDistance tAngle tMeasured : Z) (tSamples : list (Z * Z * Z))
  : @Car sensor :=
  @mkCar sensor tRight tLeft tMode tRotation tDistance tAngle 0 tMeasured
         (fun d => d * 2) (idleSensor tSamples) false false 0 [].

Definition standing : Motor :=
  motorUnit 0 40 100 0 MOTOR_STATE_STOPPED MOTOR_BRAKE.

Definition cruising : Motor :=
  motorUnit 100 40 100 0 MOTOR_STATE_DRIVE_SPEED DIRECTION_FORWARD.

Definition compensated (tCompensation : Z) : Motor :=
  motorUnit 0 40 100 tCompensation MOTOR_STATE_STOPPED MOTOR_BRAKE.

(** Wheels that turn at every speed. *)
Definition still : MotorDriver := driver (fun _ => 0).

(** Wheels that start to turn at [tRight] and [tLeft]. *)
Definition thresholds (tRight tLeft : Z) (s : Side) : Z :=
  match s with
  | RightMotor => tRight
  | LeftMotor => tLeft
  end.

End Reference.

(** ** Notions used in the statements *)

Section Statements.

Context {drv : MotorDriver} {imu : IMUDriver} {cfg : BuildConfig}.

(** (left, right) speed compensation *)
Definition compensations (c : Car) : Z * Z :=
  (SpeedCompensation (leftCarMotor c), SpeedCompensation (rightCarMotor c)).

(** At most one side has a nonzero compensation. *)
Definition oneSided (c : Car) : Prop :=
  SpeedCompensation (leftCarMotor c) = 0 \/ SpeedCompensation (rightCarMotor c) = 0.

(** The operations of the file that write a compensation. *)
Inductive CompensationOp : Type :=
| SetValues (aStartSpeed aDriveSpeed aSpeedCompensationRight : Z)
| Change (aSpeedCompensationRight : Z).

Definition runOp (op : CompensationOp) (c : Car) : Car :=
  match op with
  | SetValues s d k => setValuesForFixedDistanceDriving s d k c
  | Change d => changeSpeedCompensation d c
  end.

Definition runOps (ops : list CompensationOp) (c : Car) : Car :=
  fold_left (fun c op => runOp op c) ops c.

(** A change is a whole transfer when the side it takes from holds nothing
    or at least the amount asked for. *)
Definition wholeTransfer (op : CompensationOp) (c : Car) : Prop :=
  match op with
  | SetValues _ _ k => CInt.is_int8_t k
  | Change d =>
      -128 < d <= 127
      /\ (0 < d -> SpeedCompensation (leftCarMotor c) = 0
                   \/ d <= SpeedCompensation (leftCarMotor c))
      /\ (d < 0 -> SpeedCompensation (rightCarMotor c) = 0
                   \/ - d <= SpeedCompensation (rightCarMotor c))
  end.

Fixpoint wholeTransfers (ops : list CompensationOp) (c : Car) : Prop :=
  match ops with
  | [] => True
  | op :: ops => wholeTransfer op c /\ wholeTransfers ops (runOp op c)
  end.

(** A motor that is handed the compensation 0 holds the compensation 0. *)
Definition storesZeroCompensation : Prop :=
  forall s d m,
    SpeedCompensation (motor_exec (setValuesForFixedDistanceDriving_ s d 0) m) = 0.

(** The loop callback leaves the car alone. *)
Definition passive (aLoopCallback : option (Car -> Car)) : Prop :=
  forall f, aLoopCallback = Some f -> forall c, f c = c.

(** Units for the calibration on encoder motors.  The driver stores what
    it is handed: [setSpeed] sets the current speed, [setStartSpeed] the
    start speed, [resetEncoderControlValues] clears the encoder count, and
    none of these, nor [stop], nor the passing of time, touches the start
    speed otherwise.  The wheel of unit [s] stands still while the unit is
    commanded less than [tThreshold s] and gives at least one encoder tick
    in 10 ms from [tThreshold s] on. *)
Record SyntheticUnits (tThreshold : Side -> Z) : Prop := {
  su_setSpeed_speed :
    forall v d m, CurrentSpeed (motor_exec (setSpeed_ v d) m) = v;
  su_setSpeed_start :
    forall v d m, StartSpeed (motor_exec (setSpeed_ v d) m) = StartSpeed m;
  su_setSpeed_count :
    forall v d m, EncoderCount (motor_exec (setSpeed_ v d) m) = EncoderCount m;
  su_setStartSpeed_start :
    forall v m, StartSpeed (motor_exec (setStartSpeed_ v) m) = v;
  su_setStartSpeed_speed :
    forall v m, CurrentSpeed (motor_exec (setStartSpeed_ v) m) = CurrentSpeed m;
  su_setStartSpeed_count :
    forall v m, EncoderCount (motor_exec (setStartSpeed_ v) m) = EncoderCount m;
  su_reset_count :
    forall m, EncoderCount (motor_exec resetEncoderControlValues_ m) = 0;
  su_stop_start :
    forall a m, StartSpeed (motor_exec (stop_ a) m) = StartSpeed m;
  su_elapse_start :
    forall s t m, StartSpeed (motor_elapse s t m) = StartSpeed m;
  su_elapse_speed :
    forall s t m, CurrentSpeed (motor_elapse s t m) = CurrentSpeed m;
  su_elapse_still :
    forall s t m, CurrentSpeed m < tThreshold s ->
                  EncoderCount (motor_elapse s t m) = EncoderCount m;
  su_elapse_moving :
    forall s m, tThreshold s <= CurrentSpeed m ->
                EncoderCount m + 1 <= EncoderCount (motor_elapse s 10 m)
}.

(** [s; s+1; ...], [k] values. *)
Fixpoint upFrom (s : Z) (k : nat) : list Z :=
  match k with
  | O => []
  | S k => s :: upFrom (s + 1) k
  end.

Definition Side_eqb (a b : Side) : bool :=
  match a, b with
  | RightMotor, RightMotor | LeftMotor, LeftMotor => true
  | _, _ => false
  end.

(** The speeds handed to unit [s] by [setSpeed], in program order. *)
Definition speedsOf (s : Side) (evs : list Event) : list Z :=
  flat_map (fun e =>
              match e with
              | MotorCall s' (setSpeed_ v _) => if Side_eqb s s' then [v] else []
              | _ => []
              end) evs.

(** The start speeds handed to unit [s] by [setStartSpeed]. *)
Definition latchesOf (s : Side) (evs : list Event) : list Z :=
  flat_map (fun e =>
              match e with
              | MotorCall s' (setStartSpeed_ v) => if Side_eqb s s' then [v] else []
              | _ => []
              end) evs.

(** The durations of the calls of [delay]. *)
Definition holds (evs : list Event) : list Z :=
  flat_map (fun e => match e with DelayCall t => [t] | _ => [] end) evs.

(** The state of the sweep before the step with speed [tSpeed]: a unit
    with a lower threshold is latched at its threshold and still runs at
    it, any other unit has no start speed and has not ticked;
    [tMotorMovingCount] counts the latched units and is below 2. *)
Definition sweepState (tThreshold : Side -> Z) (tSpeed tMotorMovingCount : Z) (c : Car)
  : Prop :=
  (forall s, tThreshold s < tSpeed ->
             StartSpeed (motor s c) = tThreshold s
             /\ CurrentSpeed (motor s c) = tThreshold s)
  /\ (forall s, tSpeed <= tThreshold s ->
                StartSpeed (motor s c) = 0 /\ EncoderCount (motor s c) = 0)
  /\ tMotorMovingCount
     = (if tThreshold RightMotor <? tSpeed then 1 else 0)
       + (if tThreshold LeftMotor <? tSpeed then 1 else 0)
  /\ tMotorMovingCount < 2.

(** What a hold of [k] rounds of 10 ms does to the car [c], giving [c']:
    speeds and start speeds stay, a unit below its threshold does not tick,
    a unit at or above it ticks at least [k] times, and the trace grows by
    [k] delays of 10 ms and by no motor call. *)
Definition held (tThreshold : Side -> Z) (k : Z) (c c' : Car) : Prop :=
  (forall s, StartSpeed (motor s c') = StartSpeed (motor s c)
             /\ CurrentSpeed (motor s c') = CurrentSpeed (motor s c)
             /\ (CurrentSpeed (motor s c) < tThreshold s ->
                 EncoderCount (motor s c') = EncoderCount (motor s c))
             /\ (tThreshold s <= CurrentSpeed (motor s c) ->
                 EncoderCount (motor s c) + k <= EncoderCount (motor s c')))
  /\ exists evs,
       Trace c' = Trace c ++ evs
       /\ (forall s, speedsOf s evs = [])
       /\ (forall s, latchesOf s evs = [])
       /\ Z.of_nat (length (holds evs)) = k.

(** The part of the trace one statement adds, seen through the three
    views of the calibration. *)
Definition adds (c c' : Car) (tSpeeds tLatches : Side -> list Z) (tHolds : Z) : Prop :=
  exists evs,
    Trace c' = Trace c ++ evs
    /\ (forall s, speedsOf s evs = tSpeeds s)
    /\ (forall s, latchesOf s evs = tLatches s)
    /\ Z.of_nat (length (holds evs)) = tHolds.

End Statements.

(** ** Further operations of the file *)

Section MoreOperations.

Context {drv : MotorDriver} {imu : IMUDriver} {cfg : BuildConfig}.


(** [isStateRamp()] *)
Definition isStateRamp (c : Car) : bool :=
  RampState_eqb (MotorRampState (rightCarMotor c)) MOTOR_STATE_RAMP_DOWN
  || RampState_eqb (MotorRampState (rightCarMotor c)) MOTOR_STATE_RAMP_UP
  || RampState_eqb (MotorRampState (leftCarMotor c)) MOTOR_STATE_RAMP_DOWN
  || RampState_eqb (MotorRampState (leftCarMotor c)) MOTOR_STATE_RAMP_UP.

(** [isState(aState)] *)
Definition isState (aState : RampState) (c : Car) : bool :=
  RampState_eqb (MotorRampState (rightCarMotor c)) aState
  && RampState_eqb (MotorRampState (leftCarMotor c)) aState.

(** [waitForDriveSpeed(aLoopCallback)]:
    [while (updateMotors(aLoopCallback) && (right is not at drive speed || left is not)) ;]
    with [fuel] as the bound on the number of rounds. *)
Fixpoint waitForDriveSpeed (fuel : nat) (aLoopCallback : option (Car -> Car)) (c : Car)
  : option Car :=
  match fuel with
  | O => None
  | S fuel =>
      let '(tMoving, c) := updateMotorsCallback aLoopCallback c in
      if tMoving
         && (negb (RampState_eqb (MotorRampState (rightCarMotor c)) MOTOR_STATE_DRIVE_SPEED)
             || negb (RampState_eqb (MotorRampState (leftCarMotor c))
                        MOTOR_STATE_DRIVE_SPEED))
      then waitForDriveSpeed fuel aLoopCallback c
      else Some c
  end.

(** [startGoDistanceMillimeter(unsigned int, uint8_t)] *)
Definition startGoDistanceMillimeterDrive (aRequestedDistanceMillimeter : Z)
    (aRequestedDirection : Mode) (c : Car) : Car :=
  startGoDistanceMillimeter (DriveSpeed (rightCarMotor c)) aRequestedDistanceMillimeter
    aRequestedDirection c.

(** [startGoDistanceMillimeter(int)]; the negated [int] is passed as
    [unsigned int]. *)
Definition startGoDistanceMillimeterSigned (aRequestedDistanceMillimeter : Z) (c : Car)
  : Car :=
  if aRequestedDistanceMillimeter <? 0 then
    let aRequestedDistanceMillimeter := CInt.int (- aRequestedDistanceMillimeter) in
    startGoDistanceMillimeter (DriveSpeed (rightCarMotor c))
      (CInt.unsigned_int aRequestedDistanceMillimeter) DIRECTION_BACKWARD c
  else
    startGoDistanceMillimeter (DriveSpeed (rightCarMotor c))
      (CInt.unsigned_int aRequestedDistanceMillimeter) DIRECTION_FORWARD c.


(** The three readings [updateIMUData] caches. *)
Definition cachedReadings (c : Car) : Z * Z * Z :=
  (CarTurnAngleHalfDegreesFromIMU c, CarSpeedCmPerSecondFromIMU c,
   CarDistanceMillimeterFromIMU c).

(** The three readings as [updateIMUData] takes them from the IMU. *)
Definition sensorReadings (i : IMU) : Z * Z * Z :=
  (getTurnAngleHalfDegree i,
   CInt.unsigned_int (CInt.abs (getSpeedCmPerSecond i)),
   CInt.unsigned_int (CInt.abs (getDistanceMillimeter i))).

Definition readings_eqb (a b : Z * Z * Z) : bool :=
  let '(a1, a2, a3) := a in
  let '(b1, b2, b3) := b in
  (a1 =? b1) && (a2 =? b2) && (a3 =? b3).

End MoreOperations.

(** ** Facts about machine integers and record updates *)

Lemma uint8_t_id z : CInt.is_uint8_t z -> CInt.uint8_t z = z.
Proof. unfold CInt.is_uint8_t, CInt.uint8_t; intros; apply Z.mod_small; lia. Qed.

Lemma int8_t_id z : CInt.is_int8_t z -> CInt.int8_t z = z.
Proof.
  unfold CInt.is_int8_t, CInt.int8_t; intros.
  rewrite Z.mod_small by lia. lia.
Qed.

Lemma unsigned_int_id z : CInt.is_unsigned_int z -> CInt.unsigned_int z = z.
Proof.
  unfold CInt.is_unsigned_int, CInt.unsigned_int; intros; apply Z.mod_small; lia.
Qed.

Lemma int_id z : CInt.is_int z -> CInt.int z = z.
Proof.
  unfold CInt.is_int, CInt.int; intros.
  rewrite Z.mod_small by lia. lia.
Qed.

Lemma abs_id z : -32767 <= z <= 32767 -> CInt.abs z = Z.abs z.
Proof. intros; unfold CInt.abs; apply int_id; unfold CInt.is_int; lia. Qed.

Lemma Mode_eqb_spec a b : reflect (a = b) (Mode_eqb a b).
Proof. destruct a, b; simpl; constructor; congruence. Qed.

Lemma RampState_eqb_spec a b : reflect (a = b) (RampState_eqb a b).
Proof. destruct a, b; simpl; constructor; congruence. Qed.

Lemma Mode_eqb_refl a : Mode_eqb a a = true.
Proof. destruct a; reflexivity. Qed.

Lemma set_SpeedCompensation_back v m :
  set_SpeedCompensation (SpeedCompensation m) (set_SpeedCompensation v m) = m.
Proof. destruct m; reflexivity. Qed.

Section Properties.

Context {drv : MotorDriver} {imu : IMUDriver} {cfg : BuildConfig}.

(** *** Compensation *)

Lemma changeSpeedCompensation_up (d : Z) (c : Car) :
  0 < d ->
  changeSpeedCompensation d c =
  set_MotorControlValuesHaveChanged true
    (if d <=? SpeedCompensation (leftCarMotor c) then
       set_leftCarMotor
         (set_SpeedCompensation
            (CInt.uint8_t (SpeedCompensation (leftCarMotor c) - d)) (leftCarMotor c)) c
     else
       set_rightCarMotor
         (set_SpeedCompensation
            (CInt.uint8_t (SpeedCompensation (rightCarMotor c) + d)) (rightCarMotor c)) c).
Proof.
  intros Hd. unfold changeSpeedCompensation.
  destruct (Z.ltb_spec 0 d); [reflexivity | lia].
Qed.

Lemma changeSpeedCompensation_down (d : Z) (c : Car) :
  -128 < d <= 0 ->
  changeSpeedCompensation d c =
  set_MotorControlValuesHaveChanged true
    (if - d <=? SpeedCompensation (rightCarMotor c) then
       set_rightCarMotor
         (set_SpeedCompensation
            (CInt.uint8_t (SpeedCompensation (rightCarMotor c) - - d)) (rightCarMotor c)) c
     else
       set_leftCarMotor
         (set_SpeedCompensation
            (CInt.uint8_t (SpeedCompensation (leftCarMotor c) + - d)) (leftCarMotor c)) c).
Proof.
  intros Hd. unfold changeSpeedCompensation.
  destruct (Z.ltb_spec 0 d); [lia |].
  rewrite int8_t_id by (unfold CInt.is_int8_t; lia). reflexivity.
Qed.

(** C6 (as amended).  [changeSpeedCompensation(d)] followed by
    [changeSpeedCompensation(-d)] gives both motors back exactly as they
    were, for every state in which the two compensations are not both at
    least |d| (so in every state with at most one side nonzero) and in
    which adding |d| stays within the 8-bit range.  A positive [d] is taken
    from the left unit when the left unit holds at least [d], and is added
    to the right unit only otherwise; a negative [d] is the mirror image. *)
Theorem changeSpeedCompensation_roundtrip (d : Z) (c : Car) :
  let L := SpeedCompensation (leftCarMotor c) in
  let R := SpeedCompensation (rightCarMotor c) in
  -127 <= d <= 127 ->
  0 <= L -> 0 <= R -> L + Z.abs d <= 255 -> R + Z.abs d <= 255 ->
  ~ (0 < Z.abs d <= L /\ Z.abs d <= R) ->
  (leftCarMotor (changeSpeedCompensation (- d) (changeSpeedCompensation d c))
   = leftCarMotor c
   /\ rightCarMotor (changeSpeedCompensation (- d) (changeSpeedCompensation d c))
      = rightCarMotor c)
  /\ (0 < d -> d <= L -> compensations (changeSpeedCompensation d c) = (L - d, R))
  /\ (0 < d -> L < d -> compensations (changeSpeedCompensation d c) = (L, R + d))
  /\ (d < 0 -> - d <= R -> compensations (changeSpeedCompensation d c) = (L, R + d))
  /\ (d < 0 -> R < - d -> compensations (changeSpeedCompensation d c) = (L - d, R)).
Proof.
  intros L R Hd HL HR HLd HRd Hboth.
  assert (Hu : forall z, 0 <= z <= 255 -> CInt.uint8_t z = z)
    by (intros; apply uint8_t_id; assumption).
  split; [| repeat split; intros].
  - destruct (Z.lt_trichotomy d 0) as [Hneg | [Hzero | Hpos]].
    + (* d < 0 *)
      rewrite (changeSpeedCompensation_down (d := d)) by lia.
      destruct (Z.leb_spec (- d) (SpeedCompensation (rightCarMotor c))) as [Hge | Hlt].
      * rewrite changeSpeedCompensation_up by lia. cbn.
        destruct (Z.leb_spec (- d) (SpeedCompensation (leftCarMotor c))) as [Hge' | Hlt'].
        { exfalso. apply Hboth. fold L R. fold L in Hge'. fold R in Hge. lia. }
        cbn. fold R. rewrite (Hu (R - - d)) by lia.
        replace (R - - d + - d) with R by lia.
        rewrite Hu by lia. unfold R.
        split; [reflexivity | apply set_SpeedCompensation_back].
      * rewrite changeSpeedCompensation_up by lia. cbn. fold L.
        rewrite (Hu (L + - d)) by lia.
        destruct (Z.leb_spec (- d) (L + - d)) as [_ | Hbad]; [| lia].
        cbn. replace (L + - d - - d) with L by lia.
        rewrite Hu by lia. unfold L.
        split; [apply set_SpeedCompensation_back | reflexivity].
    + (* d = 0 *)
      subst d. change (- 0) with 0.
      rewrite !(changeSpeedCompensation_down (d := 0)) by lia. cbn.
      destruct (Z.leb_spec 0 (SpeedCompensation (rightCarMotor c))) as [_ | Hbad];
        [| fold R in Hbad; lia].
      cbn. fold R. rewrite Z.sub_0_r, (Hu R) by lia.
      destruct (Z.leb_spec 0 R) as [_ | Hbad]; [| lia].
      cbn. rewrite Z.sub_0_r, (Hu R) by lia. unfold R.
      split; [reflexivity | apply set_SpeedCompensation_back].
    + (* 0 < d *)
      rewrite (changeSpeedCompensation_up (d := d)) by lia.
      destruct (Z.leb_spec d (SpeedCompensation (leftCarMotor c))) as [Hge | Hlt].
      * rewrite changeSpeedCompensation_down by lia. cbn.
        rewrite !Z.opp_involutive.
        destruct (Z.leb_spec d (SpeedCompensation (rightCarMotor c))) as [Hge' | Hlt'].
        { exfalso. apply Hboth. fold L R. fold R in Hge'. fold L in Hge. lia. }
        cbn. fold L. rewrite (Hu (L - d)) by lia.
        replace (L - d + d) with L by lia.
        rewrite Hu by lia. unfold L.
        split; [apply set_SpeedCompensation_back | reflexivity].
      * rewrite changeSpeedCompensation_down by lia. cbn.
        rewrite !Z.opp_involutive. fold R.
        rewrite (Hu (R + d)) by lia.
        destruct (Z.leb_spec d (R + d)) as [_ | Hbad]; [| lia].
        cbn. replace (R + d - d) with R by lia.
        rewrite Hu by lia. unfold R.
        split; [reflexivity | apply set_SpeedCompensation_back].
  - rewrite changeSpeedCompensation_up by lia.
    destruct (Z.leb_spec d (SpeedCompensation (leftCarMotor c))); [| unfold L, R in *; lia].
    unfold compensations; cbn. fold L R. rewrite Hu by lia. reflexivity.
  - rewrite changeSpeedCompensation_up by lia.
    destruct (Z.leb_spec d (SpeedCompensation (leftCarMotor c))); [unfold L, R in *; lia |].
    unfold compensations; cbn. fold L R. rewrite Hu by lia. reflexivity.
  - rewrite changeSpeedCompensation_down by lia.
    destruct (Z.leb_spec (- d) (SpeedCompensation (rightCarMotor c))); [| unfold L, R in *; lia].
    unfold compensations; cbn. fold L R. rewrite Hu by lia. f_equal; lia.
  - rewrite changeSpeedCompensation_down by lia.
    destruct (Z.leb_spec (- d) (SpeedCompensation (rightCarMotor c))); [unfold L, R in *; lia |].
    unfold compensations; cbn. fold L R. rewrite Hu by lia. f_equal; lia.
Qed.

Lemma oneSided_runOp (op : CompensationOp) (c : Car) :
  storesZeroCompensation -> oneSided c -> wholeTransfer op c -> oneSided (runOp op c).
Proof.
  intros Hstore Hinv Hsafe. destruct op as [s dr k | d]; cbn in *.
  - unfold setValuesForFixedDistanceDriving, oneSided.
    destruct (0 <=? k); cbn; [left | right]; apply Hstore.
  - destruct Hsafe as (Hd & Hup & Hdown). unfold oneSided in *.
    destruct (Z.ltb_spec 0 d) as [Hpos | Hnonpos].
    + rewrite changeSpeedCompensation_up by assumption.
      destruct (Z.leb_spec d (SpeedCompensation (leftCarMotor c))); cbn.
      * right. destruct Hinv; [lia | assumption].
      * left. destruct (Hup Hpos); [assumption | lia].
    + rewrite changeSpeedCompensation_down by lia.
      destruct (Z.leb_spec (- d) (SpeedCompensation (rightCarMotor c))); cbn.
      * destruct (Z.eq_dec d 0) as [-> | Hnz].
        { destruct Hinv as [Hl | Hr]; [left; assumption | right].
          rewrite Hr. reflexivity. }
        left. destruct Hinv; [assumption | lia].
      * destruct (Z.eq_dec d 0) as [-> | Hnz].
        { destruct Hinv as [Hl | Hr]; [| lia].
          left. rewrite Hl. reflexivity. }
        right. destruct Hdown; [lia | assumption | lia].
Qed.

(** C8 (as amended).  [setValuesForFixedDistanceDriving] always leaves at
    most one side with a nonzero compensation, and so does
    [changeSpeedCompensation(d)] whenever the side it takes from holds
    nothing or at least |d|: from a state with at most one side nonzero,
    every sequence of such operations ends in a state with at most one side
    nonzero.  Steps of +1 and -1 are always of this kind.  In every case
    [changeSpeedCompensation(d)] moves the difference right minus left by
    exactly [d], as long as the 8-bit range is not left. *)
Theorem oneSided_preserved (ops : list CompensationOp) (c : Car) :
  storesZeroCompensation ->
  oneSided c ->
  wholeTransfers ops c ->
  oneSided (runOps ops c)
  /\ (forall d c', Z.abs d <= 1 ->
        0 <= SpeedCompensation (leftCarMotor c') ->
        0 <= SpeedCompensation (rightCarMotor c') ->
        wholeTransfer (Change d) c')
  /\ (forall d c',
        -128 < d <= 127 ->
        0 <= SpeedCompensation (leftCarMotor c') ->
        0 <= SpeedCompensation (rightCarMotor c') ->
        SpeedCompensation (leftCarMotor c') + Z.abs d <= 255 ->
        SpeedCompensation (rightCarMotor c') + Z.abs d <= 255 ->
        SpeedCompensation (rightCarMotor (changeSpeedCompensation d c'))
        - SpeedCompensation (leftCarMotor (changeSpeedCompensation d c'))
        = SpeedCompensation (rightCarMotor c') - SpeedCompensation (leftCarMotor c') + d).
Proof.
  intros Hstore Hinv Hsafe. split; [| split].
  - revert c Hinv Hsafe. induction ops as [| op ops IH]; intros c Hinv Hsafe.
    + exact Hinv.
    + destruct Hsafe as [Hop Hrest]. cbn.
      apply IH; [apply oneSided_runOp; assumption | exact Hrest].
  - intros d c' Hd HL HR. cbn. repeat split; intros; lia.
  - intros d c' Hd HL HR HLd HRd.
    assert (Hu : forall z, 0 <= z <= 255 -> CInt.uint8_t z = z)
      by (intros; apply uint8_t_id; assumption).
    destruct (Z.ltb_spec 0 d) as [Hpos | Hnonpos].
    + rewrite changeSpeedCompensation_up by assumption.
      destruct (Z.leb_spec d (SpeedCompensation (leftCarMotor c'))); cbn;
        rewrite Hu by lia; lia.
    + rewrite changeSpeedCompensation_down by lia.
      destruct (Z.leb_spec (- d) (SpeedCompensation (rightCarMotor c'))); cbn;
        rewrite Hu by lia; lia.
Qed.

(** *** What the outgoing calls leave in the trace *)

Lemma Trace_call (s : Side) (cmd : MotorCmd) (c : Car) :
  Trace (call s cmd c) = Trace c ++ [MotorCall s cmd].
Proof. destruct s; reflexivity. Qed.

Lemma Trace_set_CarDirectionOrBrakeMode (v : Mode) (c : Car) :
  Trace (set_CarDirectionOrBrakeMode v c) = Trace c.
Proof. reflexivity. Qed.

Lemma Trace_set_CarRequestedRotationDegrees (v : Z) (c : Car) :
  Trace (set_CarRequestedRotationDegrees v c) = Trace c.
Proof. reflexivity. Qed.

Lemma CarRequestedRotationDegrees_call (s : Side) (cmd : MotorCmd) (c : Car) :
  CarRequestedRotationDegrees (call s cmd c) = CarRequestedRotationDegrees c.
Proof. destruct s; reflexivity. Qed.

Lemma Trace_delay (aMillis : Z) (c : Car) :
  Trace (delay aMillis c) = Trace c ++ [DelayCall aMillis].
Proof. reflexivity. Qed.

Lemma Trace_stop (aStopMode : Mode) (c : Car) :
  Trace (stop aStopMode c)
  = Trace c ++ [MotorCall RightMotor (stop_ aStopMode); MotorCall LeftMotor (stop_ aStopMode)].
Proof. unfold stop. cbn. rewrite <- app_assoc. reflexivity. Qed.

Lemma Trace_changeSpeedCompensated (aRequestedSpeed : Z) (c : Car) :
  Trace (changeSpeedCompensated aRequestedSpeed c)
  = Trace c ++ [MotorCall RightMotor (changeSpeedCompensated_ aRequestedSpeed);
                MotorCall LeftMotor (changeSpeedCompensated_ aRequestedSpeed)].
Proof. unfold changeSpeedCompensated. cbn. rewrite <- app_assoc. reflexivity. Qed.

(** *** Direction arbitration *)

Lemma checkAndHandleDirectionChange_same (aRequestedDirection : Mode) (c : Car) :
  CarDirectionOrBrakeMode c = aRequestedDirection ->
  checkAndHandleDirectionChange aRequestedDirection c = (false, c).
Proof.
  intros <-. unfold checkAndHandleDirectionChange.
  rewrite Mode_eqb_refl. reflexivity.
Qed.

Lemma checkAndHandleDirectionChange_standing (aRequestedDirection : Mode) (c : Car) :
  CarDirectionOrBrakeMode c <> aRequestedDirection ->
  Z.max (CurrentSpeed (rightCarMotor c)) (CurrentSpeed (leftCarMotor c)) <= 0 ->
  checkAndHandleDirectionChange aRequestedDirection c
  = (false, set_CarDirectionOrBrakeMode aRequestedDirection c).
Proof.
  intros Hne Hmax. unfold checkAndHandleDirectionChange.
  destruct (Mode_eqb_spec (CarDirectionOrBrakeMode c) aRequestedDirection);
    [contradiction |].
  cbn. destruct (Z.ltb_spec 0
    (Z.max (CurrentSpeed (rightCarMotor c)) (CurrentSpeed (leftCarMotor c))));
    [lia | reflexivity].
Qed.

Lemma checkAndHandleDirectionChange_moving (aRequestedDirection : Mode) (c : Car) :
  CarDirectionOrBrakeMode c <> aRequestedDirection ->
  0 < Z.max (CurrentSpeed (rightCarMotor c)) (CurrentSpeed (leftCarMotor c)) ->
  checkAndHandleDirectionChange aRequestedDirection c
  = (true,
     set_CarDirectionOrBrakeMode aRequestedDirection
       (delay (Z.max (CurrentSpeed (rightCarMotor c)) (CurrentSpeed (leftCarMotor c)) / 2)
          (stop MOTOR_BRAKE c))).
Proof.
  intros Hne Hmax. unfold checkAndHandleDirectionChange.
  destruct (Mode_eqb_spec (CarDirectionOrBrakeMode c) aRequestedDirection);
    [contradiction |].
  cbn -[stop delay]. destruct (Z.ltb_spec 0
    (Z.max (CurrentSpeed (rightCarMotor c)) (CurrentSpeed (leftCarMotor c))));
    [reflexivity | lia].
Qed.

(** C5.  A request for the mode already commanded changes nothing and
    returns false.  A request for another mode while both units stand
    still sets the commanded mode at once, with no stop and no delay, and
    returns false.  A request for another mode while a unit is turning
    first stops both units with [MOTOR_BRAKE], then waits half the higher
    of the two speeds, then sets the commanded mode, and returns true; the
    wait never gets shorter when the higher speed grows. *)
Theorem checkAndHandleDirectionChange_spec (aRequestedDirection : Mode) (c : Car) :
  let r := CurrentSpeed (rightCarMotor c) in
  let l := CurrentSpeed (leftCarMotor c) in
  CInt.is_uint8_t r -> CInt.is_uint8_t l ->
  (CarDirectionOrBrakeMode c = aRequestedDirection ->
     checkAndHandleDirectionChange aRequestedDirection c = (false, c))
  /\ (CarDirectionOrBrakeMode c <> aRequestedDirection -> r = 0 -> l = 0 ->
        checkAndHandleDirectionChange aRequestedDirection c
        = (false, set_CarDirectionOrBrakeMode aRequestedDirection c))
  /\ (CarDirectionOrBrakeMode c <> aRequestedDirection -> r <> 0 \/ l <> 0 ->
        checkAndHandleDirectionChange aRequestedDirection c
        = (true,
           set_CarDirectionOrBrakeMode aRequestedDirection
             (delay (Z.max r l / 2) (stop MOTOR_BRAKE c)))
        /\ Trace (snd (checkAndHandleDirectionChange aRequestedDirection c))
           = Trace c ++ [MotorCall RightMotor (stop_ MOTOR_BRAKE);
                         MotorCall LeftMotor (stop_ MOTOR_BRAKE);
                         DelayCall (Z.max r l / 2)]
        /\ CarDirectionOrBrakeMode (snd (checkAndHandleDirectionChange aRequestedDirection c))
           = aRequestedDirection
        /\ forall c2 : Car,
             CarDirectionOrBrakeMode c2 <> aRequestedDirection ->
             Z.max r l
             <= Z.max (CurrentSpeed (rightCarMotor c2)) (CurrentSpeed (leftCarMotor c2)) ->
             exists w2,
               Trace (snd (checkAndHandleDirectionChange aRequestedDirection c2))
               = Trace c2 ++ [MotorCall RightMotor (stop_ MOTOR_BRAKE);
                              MotorCall LeftMotor (stop_ MOTOR_BRAKE);
                              DelayCall w2]
               /\ Z.max r l / 2 <= w2).
Proof.
  intros r l Hr Hl. subst r l. unfold CInt.is_uint8_t in *.
  split; [apply checkAndHandleDirectionChange_same |].
  split.
  - intros Hne Hr0 Hl0. apply checkAndHandleDirectionChange_standing; [assumption |].
    lia.
  - intros Hne Hmoving.
    assert (Htrace : forall c',
      Trace (set_CarDirectionOrBrakeMode aRequestedDirection
               (delay (Z.max (CurrentSpeed (rightCarMotor c')) (CurrentSpeed (leftCarMotor c')) / 2)
                  (stop MOTOR_BRAKE c')))
      = Trace c' ++ [MotorCall RightMotor (stop_ MOTOR_BRAKE);
                     MotorCall LeftMotor (stop_ MOTOR_BRAKE);
                     DelayCall (Z.max (CurrentSpeed (rightCarMotor c'))
                                      (CurrentSpeed (leftCarMotor c')) / 2)]).
    { intros c'.
      rewrite Trace_set_CarDirectionOrBrakeMode, Trace_delay, Trace_stop, <- app_assoc.
      f_equal. }
    rewrite checkAndHandleDirectionChange_moving by (try assumption; lia).
    split; [reflexivity |].
    split; [apply Htrace |].
    split; [reflexivity |].
    intros c2 Hne2 Hle.
    rewrite checkAndHandleDirectionChange_moving by (try assumption; lia).
    eexists. split; [apply Htrace |].
    apply Z.div_le_mono; lia.
Qed.

Lemma CarDirectionOrBrakeMode_call (s : Side) (cmd : MotorCmd) (c : Car) :
  CarDirectionOrBrakeMode (call s cmd c) = CarDirectionOrBrakeMode c.
Proof. destruct s; reflexivity. Qed.

Lemma CarDirectionOrBrakeMode_checkAndHandleDirectionChange
    (aRequestedDirection : Mode) (c : Car) :
  CarDirectionOrBrakeMode (snd (checkAndHandleDirectionChange aRequestedDirection c))
  = aRequestedDirection.
Proof.
  unfold checkAndHandleDirectionChange.
  destruct (Mode_eqb_spec (CarDirectionOrBrakeMode c) aRequestedDirection) as [E | E].
  - exact E.
  - cbv [negb].
    destruct (0 <? Z.max (CurrentSpeed (rightCarMotor c)) (CurrentSpeed (leftCarMotor c)));
      reflexivity.
Qed.

(** *** Speed *)

Lemma Trace_setSpeed (aRequestedSpeed : Z) (aRequestedDirection : Mode) (c : Car) :
  Trace (setSpeed aRequestedSpeed aRequestedDirection c)
  = Trace (snd (checkAndHandleDirectionChange aRequestedDirection c))
    ++ [MotorCall RightMotor (setSpeed_ aRequestedSpeed aRequestedDirection);
        MotorCall LeftMotor (setSpeed_ aRequestedSpeed aRequestedDirection)].
Proof. unfold setSpeed. rewrite !Trace_call, <- app_assoc. reflexivity. Qed.

(** The overload [setSpeed(int)] is the one that goes straight to the
    motors. *)
Lemma setSpeedSigned_direct (aRequestedSpeed : Z) (c : Car) :
  Trace (setSpeedSigned aRequestedSpeed c)
  = Trace c ++ [MotorCall RightMotor (setSpeedSigned_ aRequestedSpeed);
                MotorCall LeftMotor (setSpeedSigned_ aRequestedSpeed)]
  /\ CarDirectionOrBrakeMode (setSpeedSigned aRequestedSpeed c) = CarDirectionOrBrakeMode c.
Proof.
  unfold setSpeedSigned. rewrite !Trace_call, <- app_assoc, !CarDirectionOrBrakeMode_call.
  split; reflexivity.
Qed.

(** C7 (as amended).  [setSpeed(aRequestedSpeed, aRequestedDirection)]
    first runs the direction arbitration and then hands the requested speed,
    as it is, to the right and to the left motor.  When the requested
    direction is the commanded mode, or both units stand still, there is no
    stop and no delay; when it differs and a unit is turning, both units
    are stopped with [MOTOR_BRAKE] and half the higher speed is waited
    before the speed is applied.  Afterwards the commanded mode is the
    requested direction. *)
Theorem setSpeed_arbitrates (aRequestedSpeed : Z) (aRequestedDirection : Mode) (c : Car) :
  let r := CurrentSpeed (rightCarMotor c) in
  let l := CurrentSpeed (leftCarMotor c) in
  CInt.is_uint8_t r -> CInt.is_uint8_t l ->
  CarDirectionOrBrakeMode (setSpeed aRequestedSpeed aRequestedDirection c)
  = aRequestedDirection
  /\ (CarDirectionOrBrakeMode c = aRequestedDirection \/ (r = 0 /\ l = 0) ->
        Trace (setSpeed aRequestedSpeed aRequestedDirection c)
        = Trace c ++ [MotorCall RightMotor (setSpeed_ aRequestedSpeed aRequestedDirection);
                      MotorCall LeftMotor (setSpeed_ aRequestedSpeed aRequestedDirection)])
  /\ (CarDirectionOrBrakeMode c <> aRequestedDirection -> r <> 0 \/ l <> 0 ->
        Trace (setSpeed aRequestedSpeed aRequestedDirection c)
        = Trace c ++ [MotorCall RightMotor (stop_ MOTOR_BRAKE);
                      MotorCall LeftMotor (stop_ MOTOR_BRAKE);
                      DelayCall (Z.max r l / 2);
                      MotorCall RightMotor (setSpeed_ aRequestedSpeed aRequestedDirection);
                      MotorCall LeftMotor (setSpeed_ aRequestedSpeed aRequestedDirection)]).
Proof.
  intros r l Hr Hl. subst r l. unfold CInt.is_uint8_t in *.
  split; [| split].
  - unfold setSpeed.
    rewrite !CarDirectionOrBrakeMode_call.
    apply CarDirectionOrBrakeMode_checkAndHandleDirectionChange.
  - intros Hquiet. rewrite Trace_setSpeed.
    destruct (Mode_eqb_spec (CarDirectionOrBrakeMode c) aRequestedDirection) as [E | E].
    + rewrite checkAndHandleDirectionChange_same by assumption. reflexivity.
    + destruct Hquiet as [E' | [Hr0 Hl0]]; [contradiction |].
      rewrite checkAndHandleDirectionChange_standing by (try assumption; lia).
      reflexivity.
  - intros Hne Hmoving. rewrite Trace_setSpeed.
    rewrite checkAndHandleDirectionChange_moving by (try assumption; lia).
    cbv [snd].
    rewrite Trace_set_CarDirectionOrBrakeMode, Trace_delay, Trace_stop, <- !app_assoc.
    reflexivity.
Qed.

(** *** Rotation *)

(** C10.  [rotate] with [aRotationDegrees] equal to 0 returns at once, for
    every turn direction, speed flag and callback, and leaves the whole car
    as it was: no member changes, no motor or IMU method is called, the
    callback is not called and nothing is waited for. *)
Theorem rotate_zero (fuel : nat) (aTurnDirection : TurnDirection) (aUseSlowSpeed : bool)
    (aLoopCallback : option (Car -> Car)) (c : Car) :
  rotate fuel 0 aTurnDirection aUseSlowSpeed aLoopCallback c = Some c.
Proof. reflexivity. Qed.

Lemma Trace_IMUresetCarData (c : Car) :
  Trace (IMUresetCarData c) = Trace c ++ [IMUCall resetCarData_].
Proof. reflexivity. Qed.

Lemma motor_IMUresetCarData (s : Side) (v : Z) (c : Car) :
  motor s (set_CarRequestedRotationDegrees v (IMUresetCarData c)) = motor s c.
Proof. destruct s; reflexivity. Qed.

(** C4.  In [startRotate] the outer motor ([tRightMotorIfPositiveTurn]) is
    the right one for a non-negative angle and the left one for a negative
    angle, the inner motor is the other one, and the distance is computed
    from the magnitude of the angle.  [TURN_FORWARD] gives the whole
    distance to the outer motor and 0 to the inner one, [TURN_BACKWARD] 0 to
    the outer and the whole distance to the inner one, [TURN_IN_PLACE]
    [tDistanceMillimeter / 2] to both; the outer motor is always driven
    [DIRECTION_FORWARD] and the inner one [DIRECTION_BACKWARD].  Without an
    IMU these distances are handed to the motors with
    [startGoDistanceMillimeter]; with an IMU a motor is started exactly when
    its distance is positive.  A negative angle has the same magnitude and
    distance as the positive angle and the two motors exchanged. *)
Theorem startRotate_distances (aRotationDegrees : Z) (aTurnDirection : TurnDirection)
    (aUseSlowSpeed : bool) (c : Car) :
  let outer := rotateOuterSide aRotationDegrees in
  let inner := other outer in
  let D := rotateDistanceMillimeter aRotationDegrees c in
  let dOuter :=
    match aTurnDirection with
    | TURN_FORWARD => D | TURN_BACKWARD => 0 | TURN_IN_PLACE => D / 2
    end in
  let dInner :=
    match aTurnDirection with
    | TURN_FORWARD => 0 | TURN_BACKWARD => D | TURN_IN_PLACE => D / 2
    end in
  let vOuter := rotateTurnSpeed aUseSlowSpeed (motor outer c) in
  let vInner := rotateTurnSpeed aUseSlowSpeed (motor inner c) in
  rotateDistances aTurnDirection D = (dOuter, dInner)
  /\ (USE_MPU6050_IMU = false ->
        Trace (startRotate aRotationDegrees aTurnDirection aUseSlowSpeed c)
        = Trace c
          ++ [MotorCall outer (startGoDistanceMillimeter_ vOuter dOuter DIRECTION_FORWARD);
              MotorCall inner (startGoDistanceMillimeter_ vInner dInner DIRECTION_BACKWARD)])
  /\ (USE_MPU6050_IMU = true ->
        Trace (startRotate aRotationDegrees aTurnDirection aUseSlowSpeed c)
        = Trace c
          ++ [IMUCall resetCarData_]
          ++ (if 0 <? dOuter
              then [MotorCall outer (setSpeedCompensated_ vOuter DIRECTION_FORWARD)]
              else [])
          ++ (if 0 <? dInner
              then [MotorCall inner (setSpeedCompensated_ vInner DIRECTION_BACKWARD)]
              else []))
  /\ (forall m : Z, 0 < m <= 32767 ->
        rotateOuterSide m = RightMotor
        /\ rotateOuterSide (- m) = LeftMotor
        /\ rotateMagnitude m = m
        /\ rotateMagnitude (- m) = m
        /\ rotateDistanceMillimeter (- m) c = rotateDistanceMillimeter m c).
Proof.
  intros outer inner D dOuter dInner vOuter vInner.
  split; [destruct aTurnDirection; reflexivity |].
  assert (Hd : rotateDistances aTurnDirection
                 (rotateDistanceMillimeter aRotationDegrees c) = (dOuter, dInner))
    by (destruct aTurnDirection; reflexivity).
  split; [| split].
  - intros Himu. unfold startRotate. rewrite Himu.
    rewrite Hd. rewrite !Trace_call, <- app_assoc.
    reflexivity.
  - intros Himu. unfold startRotate. rewrite Himu.
    assert (HD : rotateDistanceMillimeter aRotationDegrees
                   (set_CarRequestedRotationDegrees aRotationDegrees (IMUresetCarData c))
                 = D)
      by (unfold D, rotateDistanceMillimeter; rewrite Himu; reflexivity).
    rewrite HD. fold D in Hd. rewrite Hd.
    rewrite !motor_IMUresetCarData. fold outer inner vOuter vInner.
    destruct (0 <? dOuter), (0 <? dInner);
      rewrite ?Trace_call; cbn [Trace set_CarRequestedRotationDegrees];
      rewrite ?Trace_IMUresetCarData, <- ?app_assoc; reflexivity.
  - intros m Hm.
    assert (Hpos : rotateOuterSide m = RightMotor)
      by (unfold rotateOuterSide; destruct (Z.leb_spec 0 m); [reflexivity | lia]).
    assert (Hneg : rotateOuterSide (- m) = LeftMotor)
      by (unfold rotateOuterSide; destruct (Z.leb_spec 0 (- m)); [lia | reflexivity]).
    assert (Hmag : rotateMagnitude m = m)
      by (unfold rotateMagnitude; destruct (Z.leb_spec 0 m); [reflexivity | lia]).
    assert (Hmag' : rotateMagnitude (- m) = m).
    { unfold rotateMagnitude. destruct (Z.leb_spec 0 (- m)); [lia |].
      rewrite Z.opp_involutive. apply int_id. unfold CInt.is_int. lia. }
    repeat split; try assumption.
    unfold rotateDistanceMillimeter. rewrite Hmag, Hmag'. reflexivity.
Qed.

(** *** The update engine *)

Ltac case_ifs :=
  repeat match goal with
         | |- context [if ?b then _ else _] => destruct b
         end.

(** The IMU refresh writes the three cached readings and the sensor flag
    and nothing else of the car. *)
Lemma updateIMUData_frame (c : Car) :
  rightCarMotor (updateIMUData c) = rightCarMotor c
  /\ leftCarMotor (updateIMUData c) = leftCarMotor c
  /\ CarDirectionOrBrakeMode (updateIMUData c) = CarDirectionOrBrakeMode c
  /\ CarRequestedRotationDegrees (updateIMUData c) = CarRequestedRotationDegrees c
  /\ CarRequestedDistanceMillimeter (updateIMUData c) = CarRequestedDistanceMillimeter c
  /\ Millis (updateIMUData c) = Millis c
  /\ Trace (updateIMUData c) = Trace c ++ [IMUCall readCarDataFromMPU6050Fifo_].
Proof.
  unfold updateIMUData, IMUread.
  destruct (readCarDataFromMPU6050Fifo (IMUData c)) as [i tNewData].
  destruct tNewData; [| repeat split].
  case_ifs; repeat split.
Qed.

Lemma updateMotors_rotation_pending (c : Car) :
  USE_MPU6050_IMU = true ->
  CarRequestedRotationDegrees c <> 0 ->
  updateMotors c
  = let c1 := updateIMUData c in
    if CInt.abs (CInt.int (CarRequestedRotationDegrees c * 2))
       <=? CInt.int (CInt.abs (CarTurnAngleHalfDegreesFromIMU c1) + 2)
    then (false, set_CarRequestedRotationDegrees 0 (stop MOTOR_BRAKE c1))
    else if CInt.abs (CInt.int (CarRequestedRotationDegrees c * 2))
            <=? CInt.int (CInt.abs (CarTurnAngleHalfDegreesFromIMU c1) + 20)
    then (true, changeSpeedCompensated (StartSpeed (rightCarMotor c)) c1)
    else (true, c1).
Proof.
  intros Himu Hpending. unfold updateMotors. rewrite Himu.
  destruct (updateIMUData_frame c) as (Hr & _ & _ & Hrot & _).
  rewrite Hrot, Hr.
  destruct (Z.eqb_spec (CarRequestedRotationDegrees c) 0); [contradiction |].
  reflexivity.
Qed.

(** C1.  In the IMU build, on a tick with a pending rotation, with
    [target = |2 * CarRequestedRotationDegrees|] and [measured] the
    magnitude of the turn angle after the IMU refresh, both in half
    degrees: if [measured + 2 >= target] both units are stopped with
    [MOTOR_BRAKE], the pending rotation is cleared and the tick returns
    false; otherwise, if [measured + 20 >= target], the speed of both units
    is changed to the compensated start speed, nothing is stopped and the
    tick returns true; otherwise nothing but the IMU refresh happens and
    the tick returns true. *)
Theorem updateMotors_rotation (c : Car) :
  let c1 := updateIMUData c in
  let target := Z.abs (CarRequestedRotationDegrees c * 2) in
  let measured := Z.abs (CarTurnAngleHalfDegreesFromIMU c1) in
  USE_MPU6050_IMU = true ->
  CarRequestedRotationDegrees c <> 0 ->
  -16383 <= CarRequestedRotationDegrees c <= 16383 ->
  -32747 <= CarTurnAngleHalfDegreesFromIMU c1 <= 32747 ->
  (target <= measured + 2 ->
     updateMotors c = (false, set_CarRequestedRotationDegrees 0 (stop MOTOR_BRAKE c1))
     /\ Trace (snd (updateMotors c))
        = Trace c ++ [IMUCall readCarDataFromMPU6050Fifo_;
                      MotorCall RightMotor (stop_ MOTOR_BRAKE);
                      MotorCall LeftMotor (stop_ MOTOR_BRAKE)]
     /\ CarRequestedRotationDegrees (snd (updateMotors c)) = 0)
  /\ (measured + 2 < target <= measured + 20 ->
        updateMotors c
        = (true, changeSpeedCompensated (StartSpeed (rightCarMotor c)) c1)
        /\ Trace (snd (updateMotors c))
           = Trace c ++ [IMUCall readCarDataFromMPU6050Fifo_;
                         MotorCall RightMotor
                           (changeSpeedCompensated_ (StartSpeed (rightCarMotor c)));
                         MotorCall LeftMotor
                           (changeSpeedCompensated_ (StartSpeed (rightCarMotor c)))]
        /\ CarRequestedRotationDegrees (snd (updateMotors c))
           = CarRequestedRotationDegrees c)
  /\ (measured + 20 < target ->
        updateMotors c = (true, c1)
        /\ Trace (snd (updateMotors c)) = Trace c ++ [IMUCall readCarDataFromMPU6050Fifo_]).
Proof.
  intros c1 target measured Himu Hpending Hrot Hangle.
  rewrite updateMotors_rotation_pending by assumption. fold c1. cbv zeta.
  destruct (updateIMUData_frame c) as (_ & _ & _ & Hrot1 & _ & _ & Htrace). fold c1 in Hrot1, Htrace.
  assert (Ht : CInt.abs (CInt.int (CarRequestedRotationDegrees c * 2)) = target).
  { rewrite int_id by (unfold CInt.is_int; lia). apply abs_id. lia. }
  assert (Hm2 : CInt.int (CInt.abs (CarTurnAngleHalfDegreesFromIMU c1) + 2) = measured + 2).
  { rewrite abs_id by lia. apply int_id. unfold CInt.is_int, measured. lia. }
  assert (Hm20 : CInt.int (CInt.abs (CarTurnAngleHalfDegreesFromIMU c1) + 20) = measured + 20).
  { rewrite abs_id by lia. apply int_id. unfold CInt.is_int, measured. lia. }
  rewrite Ht, Hm2, Hm20.
  split; [| split]; intros Hcase.
  - destruct (Z.leb_spec target (measured + 2)); [| lia].
    split; [reflexivity |]. cbv [snd]. split; [| reflexivity].
    rewrite Trace_set_CarRequestedRotationDegrees, Trace_stop, Htrace, <- app_assoc.
    reflexivity.
  - destruct (Z.leb_spec target (measured + 2)); [lia |].
    destruct (Z.leb_spec target (measured + 20)); [| lia].
    split; [reflexivity |]. cbv [snd]. split.
    + rewrite Trace_changeSpeedCompensated, Htrace, <- app_assoc. reflexivity.
    + unfold changeSpeedCompensated.
      rewrite !CarRequestedRotationDegrees_call. exact Hrot1.
  - destruct (Z.leb_spec target (measured + 2)); [lia |].
    destruct (Z.leb_spec target (measured + 20)); [lia |].
    split; [reflexivity | exact Htrace].
Qed.

Lemma updateBothMotors_eq (c : Car) :
  updateBothMotors c
  = (motor_updateMotor_result (rightCarMotor c)
     || motor_updateMotor_result (leftCarMotor c),
     call LeftMotor updateMotor_ (call RightMotor updateMotor_ c)).
Proof. reflexivity. Qed.

Lemma Trace_updateBothMotors (c : Car) :
  Trace (snd (updateBothMotors c))
  = Trace c ++ [MotorCall RightMotor updateMotor_; MotorCall LeftMotor updateMotor_].
Proof.
  rewrite updateBothMotors_eq. cbv [snd]. rewrite !Trace_call, <- app_assoc. reflexivity.
Qed.

Lemma updateMotors_no_rotation (c : Car) :
  USE_MPU6050_IMU = true ->
  CarRequestedRotationDegrees c = 0 ->
  updateMotors c
  = updateBothMotors
      (if negb (CarRequestedDistanceMillimeter c =? 0) then
         if negb USE_ENCODER_MOTOR_CONTROL
         then updateDistanceDriving (updateIMUData c)
         else updateIMUData c
       else updateIMUData c).
Proof.
  intros Himu Hrot. unfold updateMotors. rewrite Himu.
  destruct (updateIMUData_frame c) as (_ & _ & _ & Hrot1 & Hdist1 & _).
  rewrite Hrot1, Hdist1, Hrot. reflexivity.
Qed.

(** C3 (as amended).  On a tick without a pending rotation, and on every
    tick of a build without IMU, [updateMotor] is called on the right and
    then on the left motor as the last thing the tick does, and the tick
    returns the disjunction of the two results.  On a tick with a pending
    rotation (IMU build) [updateMotor] is called on neither motor, and the
    tick returns false exactly when it has cleared the pending rotation,
    whatever the units would report. *)
Theorem updateMotors_advances_units (c : Car) :
  (USE_MPU6050_IMU = false \/ CarRequestedRotationDegrees c = 0 ->
     exists c1 : Car,
       (USE_MPU6050_IMU = false -> c1 = c)
       /\ updateMotors c
          = (motor_updateMotor_result (rightCarMotor c1)
             || motor_updateMotor_result (leftCarMotor c1),
             call LeftMotor updateMotor_ (call RightMotor updateMotor_ c1))
       /\ Trace (snd (updateMotors c))
          = Trace c1 ++ [MotorCall RightMotor updateMotor_;
                         MotorCall LeftMotor updateMotor_])
  /\ (USE_MPU6050_IMU = true -> CarRequestedRotationDegrees c <> 0 ->
        (exists evs : list Event,
           Trace (snd (updateMotors c)) = Trace c ++ evs
           /\ forall s : Side, ~ In (MotorCall s updateMotor_) evs)
        /\ fst (updateMotors c)
           = negb (CarRequestedRotationDegrees (snd (updateMotors c)) =? 0)).
Proof.
  split.
  - intros Hcase.
    destruct USE_MPU6050_IMU eqn:Himu.
    + destruct Hcase as [Hfalse | Hrot]; [discriminate |].
      eexists. split; [discriminate |].
      rewrite updateMotors_no_rotation by assumption.
      split; [apply updateBothMotors_eq | apply Trace_updateBothMotors].
    + exists c. split; [reflexivity |].
      assert (E : updateMotors c = updateBothMotors c)
        by (unfold updateMotors; rewrite Himu; reflexivity).
      rewrite E. split; [apply updateBothMotors_eq | apply Trace_updateBothMotors].
  - intros Himu Hpending.
    rewrite updateMotors_rotation_pending by assumption. cbv zeta.
    destruct (updateIMUData_frame c) as (_ & _ & _ & Hrot1 & _ & _ & Htrace).
    destruct (CInt.abs (CInt.int (CarRequestedRotationDegrees c * 2))
              <=? CInt.int (CInt.abs (CarTurnAngleHalfDegreesFromIMU (updateIMUData c)) + 2)).
    { cbv [fst snd]. split; [| reflexivity].
      eexists. split.
      - rewrite Trace_set_CarRequestedRotationDegrees, Trace_stop, Htrace, <- app_assoc.
        reflexivity.
      - intros s [H | [H | [H | []]]]; discriminate. }
    destruct (CInt.abs (CInt.int (CarRequestedRotationDegrees c * 2))
              <=? CInt.int (CInt.abs (CarTurnAngleHalfDegreesFromIMU (updateIMUData c)) + 20));
      cbv [fst snd].
    + split.
      * eexists. split.
        { rewrite Trace_changeSpeedCompensated, Htrace, <- app_assoc. reflexivity. }
        intros s [H | [H | [H | []]]]; discriminate.
      * unfold changeSpeedCompensated. rewrite !CarRequestedRotationDegrees_call, Hrot1.
        destruct (Z.eqb_spec (CarRequestedRotationDegrees c) 0); [contradiction | reflexivity].
    + split.
      * eexists. split; [exact Htrace |].
        intros s [H | []]; discriminate.
      * rewrite Hrot1.
        destruct (Z.eqb_spec (CarRequestedRotationDegrees c) 0); [contradiction | reflexivity].
Qed.

Lemma isStopped_stop (aStopMode : Mode) (c : Car) :
  (forall a m, CurrentSpeed (motor_exec (stop_ a) m) = 0) ->
  isStopped (stop aStopMode c) = true.
Proof.
  intros Hstop. unfold isStopped, stop. cbn.
  rewrite !Hstop. reflexivity.
Qed.

Lemma updateDistanceDriving_frame (c : Car) :
  isDrivingState (MotorRampState (rightCarMotor c)) = false ->
  updateDistanceDriving c = c.
Proof. intros H. unfold updateDistanceDriving. rewrite H. reflexivity. Qed.

Lemma updateDistanceDriving_reached (c : Car) :
  (forall a m, CurrentSpeed (motor_exec (stop_ a) m) = 0) ->
  isDrivingState (MotorRampState (rightCarMotor c)) = true ->
  CarRequestedDistanceMillimeter c <= CarDistanceMillimeterFromIMU c ->
  updateDistanceDriving c = stop MOTOR_BRAKE (set_CarRequestedDistanceMillimeter 0 c).
Proof.
  intros Hstop Hgate Hreached. unfold updateDistanceDriving. rewrite Hgate.
  destruct (Z.leb_spec (CarRequestedDistanceMillimeter c) (CarDistanceMillimeterFromIMU c));
    [| lia].
  cbv zeta.
  match goal with
  | |- (if ?b then _ else _) = _ => destruct b; [| reflexivity]
  end.
  unfold startRampDown. rewrite isStopped_stop by assumption. reflexivity.
Qed.

Lemma updateDistanceDriving_driving (c : Car) :
  isDrivingState (MotorRampState (rightCarMotor c)) = true ->
  CarDistanceMillimeterFromIMU c < CarRequestedDistanceMillimeter c ->
  updateDistanceDriving c
  = if negb (RampState_eqb (MotorRampState (rightCarMotor c)) MOTOR_STATE_RAMP_DOWN)
       && (CarRequestedDistanceMillimeter c
           <=? CInt.unsigned_int (CarDistanceMillimeterFromIMU c
                                  + getBrakingDistanceMillimeter c))
    then startRampDown c
    else c.
Proof.
  intros Hgate Hless. unfold updateDistanceDriving. rewrite Hgate.
  destruct (Z.leb_spec (CarRequestedDistanceMillimeter c) (CarDistanceMillimeterFromIMU c));
    [lia | reflexivity].
Qed.

(** C2 (as amended).  In the IMU build without encoder motors, on a tick
    with no pending rotation and a pending distance, everything is gated by
    the ramp state of the right unit: unless it is ramp-up, drive-speed or
    ramp-down, the tick only updates the two units.  Inside the gate: if
    the measured distance has reached the target, the pending distance is
    cleared and both units are stopped with [MOTOR_BRAKE] (and, for units
    that a stop brings to speed zero, nothing else precedes the update of
    the units).  Otherwise [startRampDown] is called on both units exactly
    when the right unit is not in ramp-down, measured distance plus braking
    distance has reached the target, and the car is not stopped; in
    particular never while the sum is below the target. *)
Theorem updateMotors_distance (c : Car) :
  let c1 := updateIMUData c in
  let target := CarRequestedDistanceMillimeter c in
  let measured := CarDistanceMillimeterFromIMU c1 in
  let braking := getBrakingDistanceMillimeter c1 in
  let state := MotorRampState (rightCarMotor c) in
  USE_MPU6050_IMU = true ->
  USE_ENCODER_MOTOR_CONTROL = false ->
  CarRequestedRotationDegrees c = 0 ->
  target <> 0 ->
  CInt.is_unsigned_int (measured + braking) ->
  (isDrivingState state = false -> updateMotors c = updateBothMotors c1)
  /\ (isDrivingState state = true -> target <= measured ->
        (forall a m, CurrentSpeed (motor_exec (stop_ a) m) = 0) ->
        updateMotors c
        = updateBothMotors (stop MOTOR_BRAKE (set_CarRequestedDistanceMillimeter 0 c1)))
  /\ (isDrivingState state = true -> measured < target ->
        (state <> MOTOR_STATE_RAMP_DOWN -> target <= measured + braking ->
         isStopped c = false ->
         updateMotors c
         = updateBothMotors
             (call LeftMotor startRampDown_ (call RightMotor startRampDown_ c1)))
        /\ (measured + braking < target -> updateMotors c = updateBothMotors c1)
        /\ (state = MOTOR_STATE_RAMP_DOWN -> updateMotors c = updateBothMotors c1)
        /\ (isStopped c = true -> updateMotors c = updateBothMotors c1)).
Proof.
  intros c1 target measured braking state Himu Henc Hrot Htarget Hsum.
  rewrite updateMotors_no_rotation by assumption.
  fold target c1. rewrite Henc.
  destruct (Z.eqb_spec target 0); [contradiction |]. cbv [negb].
  destruct (updateIMUData_frame c) as (Hr & Hl & _ & _ & Hdist1 & _).
  fold c1 in Hr, Hl, Hdist1.
  assert (Hstate : MotorRampState (rightCarMotor c1) = state)
    by (unfold state; rewrite Hr; reflexivity).
  assert (Hstopped : isStopped c1 = isStopped c)
    by (unfold isStopped; rewrite Hr, Hl; reflexivity).
  split; [| split].
  - intros Hgate. rewrite updateDistanceDriving_frame; [reflexivity |].
    rewrite Hstate. exact Hgate.
  - intros Hgate Hreached Hstop.
    rewrite updateDistanceDriving_reached; try assumption; [reflexivity | |].
    + rewrite Hstate. exact Hgate.
    + rewrite Hdist1. exact Hreached.
  - intros Hgate Hless.
    rewrite updateDistanceDriving_driving;
      [| rewrite Hstate; exact Hgate | rewrite Hdist1; exact Hless].
    rewrite Hstate, Hdist1. fold target measured braking.
    rewrite (unsigned_int_id Hsum).
    repeat split.
    + intros Hnot Hreach Hmoving.
      destruct (RampState_eqb_spec state MOTOR_STATE_RAMP_DOWN); [contradiction |].
      destruct (Z.leb_spec target (measured + braking)); [| lia].
      cbv [negb andb]. unfold startRampDown. rewrite Hstopped, Hmoving. reflexivity.
    + intros Hbelow.
      destruct (Z.leb_spec target (measured + braking)); [lia |].
      rewrite andb_false_r. reflexivity.
    + intros Hdown.
      destruct (RampState_eqb_spec state MOTOR_STATE_RAMP_DOWN); [| contradiction].
      reflexivity.
    + intros Hstill.
      match goal with
      | |- updateBothMotors (if ?b then _ else _) = _ => destruct b; [| reflexivity]
      end.
      unfold startRampDown. rewrite Hstopped, Hstill. reflexivity.
Qed.

(** *** Calibration on encoder motors *)

Lemma uint32_t_step (a b t : Z) :
  CInt.uint32_t (CInt.uint32_t (a + t) - b) = CInt.uint32_t (CInt.uint32_t (a - b) + t).
Proof.
  unfold CInt.uint32_t.
  rewrite Zminus_mod_idemp_l, Zplus_mod_idemp_l. f_equal. lia.
Qed.

Lemma motor_call_same (s : Side) (cmd : MotorCmd) (c : Car) :
  motor s (call s cmd c) = motor_exec cmd (motor s c).
Proof. destruct s; reflexivity. Qed.

Lemma motor_call_other (s : Side) (cmd : MotorCmd) (c : Car) :
  motor (other s) (call s cmd c) = motor (other s) c.
Proof. destruct s; reflexivity. Qed.

Lemma motor_delay (s : Side) (t : Z) (c : Car) :
  motor s (delay t c) = motor_elapse s t (motor s c).
Proof. destruct s; reflexivity. Qed.

Lemma isStopped_motors (c c' : Car) :
  (forall s, CurrentSpeed (motor s c') = CurrentSpeed (motor s c)) ->
  isStopped c' = isStopped c.
Proof.
  intros H. unfold isStopped.
  rewrite (H RightMotor : CurrentSpeed (rightCarMotor c') = _).
  rewrite (H LeftMotor : CurrentSpeed (leftCarMotor c') = _).
  reflexivity.
Qed.

Lemma callLoopCallback_passive (aLoopCallback : option (Car -> Car)) (c : Car) :
  passive aLoopCallback ->
  exists evs,
    callLoopCallback aLoopCallback c = set_Trace (Trace c ++ evs) c
    /\ (forall s, speedsOf s evs = [])
    /\ (forall s, latchesOf s evs = [])
    /\ holds evs = [].
Proof.
  intros Hcb. destruct aLoopCallback as [f |]; cbn.
  - exists [LoopCallbackCall]. rewrite (Hcb f eq_refl).
    repeat split.
  - exists []. rewrite app_nil_r. destruct c; repeat split.
Qed.

Lemma speedsOf_app (s : Side) (a b : list Event) :
  speedsOf s (a ++ b) = speedsOf s a ++ speedsOf s b.
Proof. apply flat_map_app. Qed.

Lemma latchesOf_app (s : Side) (a b : list Event) :
  latchesOf s (a ++ b) = latchesOf s a ++ latchesOf s b.
Proof. apply flat_map_app. Qed.

Lemma holds_app (a b : list Event) : holds (a ++ b) = holds a ++ holds b.
Proof. apply flat_map_app. Qed.

Section Sweep.

Variable tThreshold : Side -> Z.
Variable aLoopCallback : option (Car -> Car).
Hypothesis Hencoder : USE_ENCODER_MOTOR_CONTROL = true.
Hypothesis Hunits : SyntheticUnits tThreshold.
Hypothesis Hpassive : passive aLoopCallback.

Lemma held_trans (j k : Z) (c c' c'' : Car) :
  held tThreshold j c c' -> held tThreshold k c' c'' -> held tThreshold (j + k) c c''.
Proof.
  intros [H1 (e1 & Ht1 & Hs1 & Hl1 & Hh1)] [H2 (e2 & Ht2 & Hs2 & Hl2 & Hh2)].
  split.
  - intros s. destruct (H1 s) as (Ha1 & Hb1 & Hc1 & Hd1).
    destruct (H2 s) as (Ha2 & Hb2 & Hc2 & Hd2).
    rewrite Hb1 in Hc2, Hd2.
    repeat split; try congruence.
    + intros Hlow. rewrite Hc2, Hc1 by assumption. reflexivity.
    + intros Hhigh. specialize (Hd1 Hhigh). specialize (Hd2 Hhigh). lia.
  - exists (e1 ++ e2). repeat split.
    + rewrite Ht2, Ht1, app_assoc. reflexivity.
    + intros s. rewrite speedsOf_app, Hs1, Hs2. reflexivity.
    + intros s. rewrite latchesOf_app, Hl1, Hl2. reflexivity.
    + rewrite holds_app, length_app, Nat2Z.inj_add. lia.
Qed.

(** One round of the active delay. *)
Lemma held_round (c : Car) :
  let c' := delay 10 (callLoopCallback aLoopCallback c) in
  held tThreshold 1 c c'
  /\ Millis c' = CInt.uint32_t (Millis c + 10)
  /\ isStopped (callLoopCallback aLoopCallback c) = isStopped c.
Proof.
  destruct (callLoopCallback_passive c Hpassive) as (e & He & Hs & Hl & Hh).
  cbv zeta. rewrite He.
  split; [split |].
  - intros s. rewrite motor_delay.
    assert (Hm : motor s (set_Trace (Trace c ++ e) c) = motor s c)
      by (destruct s; reflexivity).
    rewrite Hm.
    rewrite (su_elapse_start Hunits), (su_elapse_speed Hunits).
    repeat split.
    + apply (su_elapse_still Hunits).
    + apply (su_elapse_moving Hunits).
  - exists (e ++ [DelayCall 10]). rewrite Trace_delay. cbn [Trace set_Trace].
    split; [symmetry; apply app_assoc |].
    repeat split.
    + intros s. rewrite speedsOf_app, Hs. reflexivity.
    + intros s. rewrite latchesOf_app, Hl. reflexivity.
    + rewrite holds_app, Hh. reflexivity.
  - split; [reflexivity |].
    apply isStopped_motors. intros s. destruct s; reflexivity.
Qed.

Lemma held_round_clock (tStartMillis j : Z) (c : Car) :
  CInt.uint32_t (Millis c - tStartMillis) = 10 * j ->
  0 <= j <= 20 ->
  CInt.uint32_t (Millis (delay 10 (callLoopCallback aLoopCallback c)) - tStartMillis)
  = 10 * (j + 1).
Proof.
  intros Helapsed Hj.
  destruct (held_round c) as (_ & Hmillis & _).
  rewrite Hmillis, uint32_t_step, Helapsed.
  unfold CInt.uint32_t. rewrite Z.mod_small by lia. lia.
Qed.

(** The active delay makes 21 rounds of 10 ms and does not return from
    [calibrate], provided the car is not stopped. *)
Lemma calibrate_activeDelay_rounds (r : nat) :
  forall (fuel : nat) (tStartMillis : Z) (c : Car),
    (S r <= fuel)%nat -> (r <= 20)%nat ->
    CInt.uint32_t (Millis c - tStartMillis) = 10 * (20 - Z.of_nat r) ->
    isStopped c = false ->
    exists c',
      calibrate_activeDelay fuel tStartMillis aLoopCallback c = Some (false, c')
      /\ held tThreshold (Z.of_nat r + 1) c c'.
Proof.
  induction r as [| r IH]; intros fuel tStartMillis c Hfuel Hr Helapsed Hmoving;
    (destruct fuel as [| fuel]; [lia |]);
    destruct (held_round c) as (Hheld & _ & Hstill);
    pose proof (@held_round_clock _ _ _ Helapsed) as Hnow;
    cbn [calibrate_activeDelay]; rewrite Hstill, Hmoving, Hencoder;
    rewrite Hnow by lia.
  - destruct (Z.leb_spec (10 * (20 - Z.of_nat 0 + 1)) 200); [lia |].
    eexists. split; [reflexivity | exact Hheld].
  - destruct (Z.leb_spec (10 * (20 - Z.of_nat (S r) + 1)) 200); [| lia].
    destruct (IH fuel tStartMillis (delay 10 (callLoopCallback aLoopCallback c)))
      as (c' & Hrun & Hheld').
    + lia.
    + lia.
    + rewrite Hnow by lia. lia.
    + destruct Hheld as [Hfields _].
      rewrite <- Hmoving, <- Hstill.
      transitivity (isStopped c); [| congruence].
      apply isStopped_motors. intros s. apply (Hfields s).
    + exists c'. split; [exact Hrun |].
      replace (Z.of_nat (S r) + 1) with (1 + (Z.of_nat r + 1)) by lia.
      eapply held_trans; eassumption.
Qed.

Variable fuel : nat.
Hypothesis Hfuel : (21 <= fuel)%nat.
Hypothesis Hthreshold : forall s, 20 <= tThreshold s.

Lemma adds_trans (c c' c'' : Car) (s1 s2 l1 l2 : Side -> list Z) (h1 h2 : Z) :
  adds c c' s1 l1 h1 -> adds c' c'' s2 l2 h2 ->
  adds c c'' (fun s => s1 s ++ s2 s) (fun s => l1 s ++ l2 s) (h1 + h2).
Proof.
  intros (e1 & Ht1 & Hs1 & Hl1 & Hh1) (e2 & Ht2 & Hs2 & Hl2 & Hh2).
  exists (e1 ++ e2). repeat split.
  - rewrite Ht2, Ht1, app_assoc. reflexivity.
  - intros s. rewrite speedsOf_app, Hs1, Hs2. reflexivity.
  - intros s. rewrite latchesOf_app, Hl1, Hl2. reflexivity.
  - rewrite holds_app, length_app, Nat2Z.inj_add. lia.
Qed.

(** [calibrate_applySpeed] on one unit. *)
Lemma calibrate_applySpeed_unit (s : Side) (tSpeed : Z) (c : Car) :
  20 <= tSpeed ->
  (tThreshold s < tSpeed ->
   StartSpeed (motor s c) = tThreshold s /\ CurrentSpeed (motor s c) = tThreshold s) ->
  (tSpeed <= tThreshold s -> StartSpeed (motor s c) = 0) ->
  let c' := calibrate_applySpeed s tSpeed c in
  StartSpeed (motor s c') = StartSpeed (motor s c)
  /\ EncoderCount (motor s c') = EncoderCount (motor s c)
  /\ CurrentSpeed (motor s c') = (if tThreshold s <? tSpeed then tThreshold s else tSpeed)
  /\ motor (other s) c' = motor (other s) c
  /\ adds c c'
       (fun x => if Side_eqb x s && (tSpeed <=? tThreshold s) then [tSpeed] else [])
       (fun _ => []) 0.
Proof.
  intros Hspeed Hlatched Hfree. cbv zeta. unfold calibrate_applySpeed.
  destruct (Z.ltb_spec (tThreshold s) tSpeed) as [Hlt | Hge].
  - destruct (Hlatched Hlt) as [Hstart Hcur].
    pose proof (Hthreshold s).
    destruct (Z.eqb_spec (StartSpeed (motor s c)) 0); [lia |].
    repeat split; try assumption.
    exists []. rewrite app_nil_r. repeat split.
    intros x. destruct (Z.leb_spec tSpeed (tThreshold s)); [lia |].
    rewrite andb_false_r. reflexivity.
  - rewrite (Hfree Hge). cbn [Z.eqb].
    rewrite motor_call_same, motor_call_other.
    rewrite (su_setSpeed_start Hunits), (su_setSpeed_count Hunits),
      (su_setSpeed_speed Hunits).
    repeat split; try apply Hfree; try assumption.
    exists [MotorCall s (setSpeed_ tSpeed DIRECTION_FORWARD)].
    rewrite Trace_call. repeat split.
    intros x. destruct (Z.leb_spec tSpeed (tThreshold s)); [| lia].
    rewrite andb_true_r. cbn. destruct (Side_eqb x s); reflexivity.
Qed.

(** [calibrate_checkMoved] on one unit, after the hold. *)
Lemma calibrate_checkMoved_unit (s : Side) (tSpeed n : Z) (c : Car) :
  0 <= n <= 2 ->
  20 <= tSpeed ->
  (tThreshold s < tSpeed -> StartSpeed (motor s c) = tThreshold s) ->
  (tSpeed <= tThreshold s -> StartSpeed (motor s c) = 0) ->
  (tSpeed < tThreshold s -> EncoderCount (motor s c) = 0) ->
  (tSpeed = tThreshold s -> 6 < EncoderCount (motor s c)) ->
  let '(n', c') := calibrate_checkMoved s tSpeed (n, c) in
  n' = n + (if tThreshold s =? tSpeed then 1 else 0)
  /\ StartSpeed (motor s c') = (if tThreshold s <? tSpeed + 1 then tThreshold s else 0)
  /\ CurrentSpeed (motor s c') = CurrentSpeed (motor s c)
  /\ EncoderCount (motor s c') = EncoderCount (motor s c)
  /\ motor (other s) c' = motor (other s) c
  /\ adds c c' (fun _ => [])
       (fun x => if Side_eqb x s && (tThreshold s =? tSpeed) then [tSpeed] else []) 0.
Proof.
  intros Hn Hspeed Hlatched Hfree Hstill Hmoved. unfold calibrate_checkMoved.
  pose proof (Hthreshold s) as Hth.
  destruct (Z.lt_trichotomy (tThreshold s) tSpeed) as [Hlt | [Heq | Hgt]].
  - rewrite (Hlatched Hlt).
    destruct (Z.eqb_spec (tThreshold s) 0); [lia |]. cbn [andb].
    destruct (Z.eqb_spec (tThreshold s) tSpeed); [lia |].
    destruct (Z.ltb_spec (tThreshold s) (tSpeed + 1)); [| lia].
    repeat split; try lia; try (apply Hlatched; assumption).
    exists []. rewrite app_nil_r. repeat split.
    intros x. rewrite andb_false_r. reflexivity.
  - rewrite (Hfree (Z.eq_le_incl _ _ (eq_sym Heq))). cbn [Z.eqb andb].
    destruct (Z.ltb_spec 6 (EncoderCount (motor s c))); [| symmetry in Heq; specialize (Hmoved Heq); lia].
    rewrite motor_call_same, motor_call_other.
    rewrite (su_setStartSpeed_start Hunits), (su_setStartSpeed_speed Hunits),
      (su_setStartSpeed_count Hunits).
    destruct (Z.eqb_spec (tThreshold s) tSpeed); [| lia].
    destruct (Z.ltb_spec (tThreshold s) (tSpeed + 1)); [| lia].
    repeat split; try lia.
    + apply uint8_t_id. unfold CInt.is_uint8_t. lia.
    + exists [MotorCall s (setStartSpeed_ tSpeed)].
      rewrite Trace_call. repeat split.
      intros x. rewrite andb_true_r. cbn. destruct (Side_eqb x s); reflexivity.
  - rewrite (Hfree (Z.lt_le_incl _ _ Hgt)), (Hstill Hgt). cbn [Z.eqb Z.ltb Z.compare andb].
    destruct (Z.eqb_spec (tThreshold s) tSpeed); [lia |].
    destruct (Z.ltb_spec (tThreshold s) (tSpeed + 1)); [lia |].
    repeat split; try lia; try (apply Hfree; lia); try (apply Hstill; lia).
    exists []. rewrite app_nil_r. repeat split.
    intros x. rewrite andb_false_r. reflexivity.
Qed.

Lemma adds_ext (c c' : Car) (s1 s2 l1 l2 : Side -> list Z) (h1 h2 : Z) :
  (forall s, s1 s = s2 s) -> (forall s, l1 s = l2 s) -> h1 = h2 ->
  adds c c' s1 l1 h1 -> adds c c' s2 l2 h2.
Proof.
  intros Hs Hl <- (e & Ht & Hse & Hle & Hh).
  exists e. repeat split; try assumption.
  - intros s. rewrite <- Hs. apply Hse.
  - intros s. rewrite <- Hl. apply Hle.
Qed.

Lemma held_adds (k : Z) (c c' : Car) :
  held tThreshold k c c' -> adds c c' (fun _ => []) (fun _ => []) k.
Proof. intros [_ H]. exact H. Qed.

(** Both units after the two [calibrate_applySpeed] of a step. *)
Lemma calibrate_applySpeed_both (tSpeed n : Z) (c : Car) :
  20 <= tSpeed ->
  sweepState tThreshold tSpeed n c ->
  let c1 := calibrate_applySpeed LeftMotor tSpeed
              (calibrate_applySpeed RightMotor tSpeed c) in
  (forall s, StartSpeed (motor s c1) = StartSpeed (motor s c)
             /\ EncoderCount (motor s c1) = EncoderCount (motor s c)
             /\ CurrentSpeed (motor s c1)
                = (if tThreshold s <? tSpeed then tThreshold s else tSpeed))
  /\ adds c c1 (fun s => if tSpeed <=? tThreshold s then [tSpeed] else [])
          (fun _ => []) 0.
Proof.
  intros Hspeed (Hlatched & Hfree & _ & _). cbv zeta.
  destruct (@calibrate_applySpeed_unit RightMotor tSpeed c Hspeed)
    as (Rs & Rc & Rv & Ro & Ra);
    [apply Hlatched | intros H; apply (Hfree _ H) |].
  set (ca := calibrate_applySpeed RightMotor tSpeed c) in *.
  destruct (@calibrate_applySpeed_unit LeftMotor tSpeed ca Hspeed)
    as (Ls & Lc & Lv & Lo & La).
  { change (motor LeftMotor ca) with (motor (other RightMotor) ca). rewrite Ro.
    apply Hlatched. }
  { change (motor LeftMotor ca) with (motor (other RightMotor) ca). rewrite Ro.
    intros H; apply (Hfree _ H). }
  set (c1 := calibrate_applySpeed LeftMotor tSpeed ca) in *.
  split.
  - intros [|].
    + change (motor RightMotor c1) with (motor (other LeftMotor) c1). rewrite Lo.
      repeat split; assumption.
    + rewrite Ls, Lc, Lv.
      change (motor LeftMotor ca) with (motor (other RightMotor) ca). rewrite Ro.
      repeat split.
  - eapply adds_ext; [| | | exact (adds_trans Ra La)]; try reflexivity.
    intros [|]; cbn [Side_eqb andb];
      destruct (tSpeed <=? tThreshold _); reflexivity.
Qed.

(** Both units after the two [calibrate_checkMoved] of a step. *)
Lemma calibrate_checkMoved_both (tSpeed n : Z) (c : Car) :
  0 <= n <= 1 ->
  20 <= tSpeed ->
  (forall s, tThreshold s < tSpeed ->
             StartSpeed (motor s c) = tThreshold s /\ CurrentSpeed (motor s c) = tThreshold s) ->
  (forall s, tSpeed <= tThreshold s -> StartSpeed (motor s c) = 0) ->
  (forall s, tSpeed < tThreshold s -> EncoderCount (motor s c) = 0) ->
  (forall s, tSpeed = tThreshold s ->
             6 < EncoderCount (motor s c) /\ CurrentSpeed (motor s c) = tSpeed) ->
  exists n' c',
    calibrate_checkMoved LeftMotor tSpeed
      (calibrate_checkMoved RightMotor tSpeed (n, c)) = (n', c')
    /\ n' = n + (if tThreshold RightMotor =? tSpeed then 1 else 0)
              + (if tThreshold LeftMotor =? tSpeed then 1 else 0)
    /\ (forall s, tThreshold s < tSpeed + 1 ->
                  StartSpeed (motor s c') = tThreshold s
                  /\ CurrentSpeed (motor s c') = tThreshold s)
    /\ (forall s, tSpeed + 1 <= tThreshold s ->
                  StartSpeed (motor s c') = 0 /\ EncoderCount (motor s c') = 0)
    /\ adds c c' (fun _ => [])
            (fun s => if tThreshold s =? tSpeed then [tSpeed] else []) 0.
Proof.
  intros Hn Hspeed Hlatched Hfree Hstill Hmoved.
  pose proof (@calibrate_checkMoved_unit RightMotor tSpeed n c) as HR.
  destruct (calibrate_checkMoved RightMotor tSpeed (n, c)) as [n1 cr].
  destruct HR as (Rn & Rs & Rv & Rc & Ro & Ra); try lia.
  { intros H. apply (Hlatched _ H). }
  { apply Hfree. }
  { apply Hstill. }
  { intros H. apply (Hmoved _ H). }
  assert (Hl : motor LeftMotor cr = motor LeftMotor c) by exact Ro.
  pose proof (@calibrate_checkMoved_unit LeftMotor tSpeed n1 cr) as HL.
  destruct (calibrate_checkMoved LeftMotor tSpeed (n1, cr)) as [n2 cl].
  rewrite Hl in HL.
  destruct HL as (Ln & Ls & Lv & Lc & Lo & La).
  { destruct (tThreshold RightMotor =? tSpeed); lia. }
  { lia. }
  { intros H. apply (Hlatched _ H). }
  { apply Hfree. }
  { apply Hstill. }
  { intros H. apply (Hmoved _ H). }
  assert (Hr : motor RightMotor cl = motor RightMotor cr) by exact Lo.
  exists n2, cl. split; [reflexivity |]. split; [lia |].
  split; [| split].
  - intros [|] Hlt.
    + rewrite Hr, Rs, Rv.
      destruct (Z.ltb_spec (tThreshold RightMotor) (tSpeed + 1)); [| lia].
      split; [reflexivity |].
      destruct (Z.eq_dec tSpeed (tThreshold RightMotor)) as [E | E].
      * rewrite <- E. apply (Hmoved _ E).
      * apply Hlatched. lia.
    + rewrite Ls, Lv.
      destruct (Z.ltb_spec (tThreshold LeftMotor) (tSpeed + 1)); [| lia].
      split; [reflexivity |].
      destruct (Z.eq_dec tSpeed (tThreshold LeftMotor)) as [E | E].
      * rewrite <- E. apply (Hmoved _ E).
      * apply Hlatched. lia.
  - intros [|] Hge.
    + rewrite Hr, Rs, Rc.
      destruct (Z.ltb_spec (tThreshold RightMotor) (tSpeed + 1)); [lia |].
      split; [reflexivity | apply Hstill; lia].
    + rewrite Ls, Lc.
      destruct (Z.ltb_spec (tThreshold LeftMotor) (tSpeed + 1)); [lia |].
      split; [reflexivity | apply Hstill; lia].
  - eapply adds_ext; [| | | exact (adds_trans Ra La)]; try reflexivity.
    intros [|]; cbn [Side_eqb andb];
      destruct (tThreshold _ =? tSpeed); reflexivity.
Qed.

Lemma upFrom_cons (s z : Z) :
  0 <= z -> upFrom s (Z.to_nat (z + 1)) = s :: upFrom (s + 1) (Z.to_nat z).
Proof.
  intros Hz. replace (z + 1) with (Z.succ z) by lia.
  rewrite Z2Nat.inj_succ by assumption. reflexivity.
Qed.

Lemma upFrom_nil (s z : Z) : z <= 0 -> upFrom s (Z.to_nat z) = [].
Proof.
  intros Hz. replace (Z.to_nat z) with O; [reflexivity |].
  destruct z; [reflexivity | lia | reflexivity].
Qed.

Lemma sweepState_count (tSpeed n : Z) (c : Car) :
  sweepState tThreshold tSpeed n c ->
  0 <= n <= 1 /\ tSpeed <= Z.max (tThreshold RightMotor) (tThreshold LeftMotor).
Proof.
  intros (_ & _ & Hn & Hlow).
  destruct (Z.ltb_spec (tThreshold RightMotor) tSpeed),
           (Z.ltb_spec (tThreshold LeftMotor) tSpeed); lia.
Qed.

(** One step of the sweep. *)
Lemma calibrate_step (tSpeed n : Z) (c : Car) :
  20 <= tSpeed ->
  sweepState tThreshold tSpeed n c ->
  exists c2 n' c3,
    calibrate_activeDelay fuel
      (Millis (calibrate_applySpeed LeftMotor tSpeed
                 (calibrate_applySpeed RightMotor tSpeed c)))
      aLoopCallback
      (calibrate_applySpeed LeftMotor tSpeed (calibrate_applySpeed RightMotor tSpeed c))
    = Some (false, c2)
    /\ calibrate_checkMoved LeftMotor tSpeed
         (calibrate_checkMoved RightMotor tSpeed (n, c2)) = (n', c3)
    /\ n' = (if tThreshold RightMotor <? tSpeed + 1 then 1 else 0)
            + (if tThreshold LeftMotor <? tSpeed + 1 then 1 else 0)
    /\ (forall s, tThreshold s < tSpeed + 1 ->
                  StartSpeed (motor s c3) = tThreshold s
                  /\ CurrentSpeed (motor s c3) = tThreshold s)
    /\ (forall s, tSpeed + 1 <= tThreshold s ->
                  StartSpeed (motor s c3) = 0 /\ EncoderCount (motor s c3) = 0)
    /\ adds c c3 (fun s => if tSpeed <=? tThreshold s then [tSpeed] else [])
            (fun s => if tThreshold s =? tSpeed then [tSpeed] else []) 21.
Proof.
  intros Hspeed Hstate.
  destruct (sweepState_count Hstate) as [Hn _].
  destruct (calibrate_applySpeed_both Hspeed Hstate) as [H1 A1].
  destruct Hstate as (Hlatched & Hfree & Hcount & _).
  set (c1 := calibrate_applySpeed LeftMotor tSpeed
               (calibrate_applySpeed RightMotor tSpeed c)) in *.
  assert (Hmoving : isStopped c1 = false).
  { unfold isStopped.
    destruct (H1 RightMotor) as (_ & _ & Hv). cbn [motor] in Hv. rewrite Hv.
    pose proof (Hthreshold RightMotor).
    destruct (tThreshold RightMotor <? tSpeed);
      match goal with
      | |- (?x =? 0) && _ = false => destruct (Z.eqb_spec x 0); [lia | reflexivity]
      end. }
  destruct (@calibrate_activeDelay_rounds 20 fuel (Millis c1) c1) as (c2 & Hrun & Hheld);
    [lia | lia | rewrite Z.sub_diag; reflexivity | exact Hmoving |].
  pose proof (held_adds Hheld) as A2.
  destruct Hheld as [H2 _].
  destruct (@calibrate_checkMoved_both tSpeed n c2) as (n' & c3 & Hcheck & Hn' & L3 & F3 & A3);
    try assumption.
  - intros s Hlt. destruct (H2 s) as (Hs & Hv & _). destruct (H1 s) as (Hs1 & _ & Hv1).
    rewrite Hs, Hv, Hs1, Hv1.
    destruct (Z.ltb_spec (tThreshold s) tSpeed); [| lia].
    split; [apply (Hlatched _ Hlt) | reflexivity].
  - intros s Hge. destruct (H2 s) as (Hs & _). destruct (H1 s) as (Hs1 & _).
    rewrite Hs, Hs1. apply (Hfree _ Hge).
  - intros s Hgt. destruct (H2 s) as (_ & _ & Hstill & _).
    destruct (H1 s) as (_ & Hc1 & Hv1).
    rewrite Hstill, Hc1; [apply Hfree; lia |].
    rewrite Hv1. destruct (Z.ltb_spec (tThreshold s) tSpeed); lia.
  - intros s Heq. destruct (H2 s) as (_ & Hv & _ & Hticks).
    destruct (H1 s) as (_ & Hc1 & Hv1).
    assert (Hv1' : CurrentSpeed (motor s c1) = tSpeed)
      by (rewrite Hv1; destruct (Z.ltb_spec (tThreshold s) tSpeed); lia).
    split; [| rewrite Hv; exact Hv1'].
    assert (Hzero : EncoderCount (motor s c) = 0) by (apply Hfree; lia).
    specialize (Hticks ltac:(lia)). lia.
  - exists c2, n', c3. split; [exact Hrun |]. split; [exact Hcheck |].
    split.
    { rewrite Hn', Hcount.
      destruct (Z.ltb_spec (tThreshold RightMotor) tSpeed),
               (Z.ltb_spec (tThreshold LeftMotor) tSpeed),
               (Z.eqb_spec (tThreshold RightMotor) tSpeed),
               (Z.eqb_spec (tThreshold LeftMotor) tSpeed),
               (Z.ltb_spec (tThreshold RightMotor) (tSpeed + 1)),
               (Z.ltb_spec (tThreshold LeftMotor) (tSpeed + 1)); lia. }
    split; [exact L3 |]. split; [exact F3 |].
    eapply adds_ext; [| | | exact (adds_trans (adds_trans A1 A2) A3)].
    + intros s. cbv beta. rewrite !app_nil_r. reflexivity.
    + intros s. reflexivity.
    + reflexivity.
Qed.

(** The [for] loop over [tSpeed], [tSpeed + 1], ... ([k] values): every
    unit with a threshold in the range is latched at its threshold, a unit
    is handed each speed of the range up to its threshold, and the loop is
    left after the step at which the second unit is latched, or at the end
    of the range. *)
Lemma calibrate_loop_sweep (k : nat) :
  forall (tSpeed n : Z) (c : Car),
    20 <= tSpeed ->
    sweepState tThreshold tSpeed n c ->
    exists c',
      calibrate_loop fuel (upFrom tSpeed k) n aLoopCallback c = Some (LeaveLoop c')
      /\ (forall s, StartSpeed (motor s c')
                    = if tThreshold s <? tSpeed + Z.of_nat k then tThreshold s else 0)
      /\ adds c c'
           (fun s => upFrom tSpeed
                       (Z.to_nat (Z.min (tThreshold s) (tSpeed + Z.of_nat k - 1)
                                  - tSpeed + 1)))
           (fun s => if (tSpeed <=? tThreshold s) && (tThreshold s <? tSpeed + Z.of_nat k)
                     then [tThreshold s] else [])
           (21 * (Z.min (Z.max (tThreshold RightMotor) (tThreshold LeftMotor))
                        (tSpeed + Z.of_nat k - 1) - tSpeed + 1)).
Proof.
  induction k as [| k IH]; intros tSpeed n c Hspeed Hstate.
  - exists c. split; [reflexivity |].
    destruct (sweepState_count Hstate) as [_ Hmax].
    destruct Hstate as (Hlatched & Hfree & _ & _).
    split.
    + intros s. rewrite Z.add_0_r.
      destruct (Z.ltb_spec (tThreshold s) tSpeed) as [Hlt | Hge].
      * apply (Hlatched _ Hlt).
      * apply (Hfree _ Hge).
    + exists []. rewrite app_nil_r. repeat split.
      * intros s. cbn [speedsOf flat_map]. symmetry. apply upFrom_nil. lia.
      * intros s. cbn [latchesOf flat_map]. rewrite Z.add_0_r.
        destruct (Z.leb_spec tSpeed (tThreshold s)), (Z.ltb_spec (tThreshold s) tSpeed);
          try reflexivity; lia.
      * cbn [holds flat_map length Z.of_nat]. lia.
  - destruct (sweepState_count Hstate) as [_ Hmax].
    destruct (calibrate_step Hspeed Hstate) as (c2 & n' & c3 & Hrun & Hcheck & Hn' & L3 & F3 & A3).
    cbn [upFrom calibrate_loop]. rewrite Hrun, Hencoder, Hcheck.
    assert (Hk : tSpeed + Z.of_nat (S k) = tSpeed + 1 + Z.of_nat k) by lia.
    destruct (Z.leb_spec 2 n') as [Hboth | Hnot].
    + (* both units are latched: break *)
      assert (Hr : tThreshold RightMotor < tSpeed + 1)
        by (destruct (Z.ltb_spec (tThreshold RightMotor) (tSpeed + 1)),
                     (Z.ltb_spec (tThreshold LeftMotor) (tSpeed + 1)); lia).
      assert (Hl : tThreshold LeftMotor < tSpeed + 1)
        by (destruct (Z.ltb_spec (tThreshold RightMotor) (tSpeed + 1)),
                     (Z.ltb_spec (tThreshold LeftMotor) (tSpeed + 1)); lia).
      assert (Hall : forall s, tThreshold s < tSpeed + 1) by (intros [|]; assumption).
      exists c3. split; [reflexivity |]. split.
      * intros s. specialize (Hall s).
        destruct (Z.ltb_spec (tThreshold s) (tSpeed + Z.of_nat (S k))); [| lia].
        apply (L3 _ Hall).
      * eapply adds_ext; [| | | exact A3].
        { intros s. specialize (Hall s). cbv beta.
          destruct (Z.leb_spec tSpeed (tThreshold s)).
          - replace (Z.min (tThreshold s) (tSpeed + Z.of_nat (S k) - 1) - tSpeed + 1)
              with 1 by lia.
            reflexivity.
          - symmetry. apply upFrom_nil. lia. }
        { intros s. specialize (Hall s). cbv beta.
          destruct (Z.eqb_spec (tThreshold s) tSpeed) as [E | E],
                   (Z.leb_spec tSpeed (tThreshold s)),
                   (Z.ltb_spec (tThreshold s) (tSpeed + Z.of_nat (S k)));
            cbn [andb]; try rewrite E; try reflexivity; lia. }
        { lia. }
    + (* go on with the next speed *)
      assert (Hnext : sweepState tThreshold (tSpeed + 1) n' c3).
      { split; [exact L3 |]. split; [exact F3 |]. split; [exact Hn' | exact Hnot]. }
      destruct (sweepState_count Hnext) as [_ Hmax'].
      destruct (IH (tSpeed + 1) n' c3 ltac:(lia) Hnext) as (c' & Hloop & Hstart & A').
      exists c'. split; [exact Hloop |]. split.
      * intros s. rewrite Hk. apply Hstart.
      * eapply adds_ext; [| | | exact (adds_trans A3 A')].
        { intros s. cbv beta.
          replace (tSpeed + 1 + Z.of_nat k - 1) with (tSpeed + Z.of_nat (S k) - 1) by lia.
          set (M := Z.min (tThreshold s) (tSpeed + Z.of_nat (S k) - 1)).
          destruct (Z.leb_spec tSpeed (tThreshold s)).
          - replace (M - tSpeed + 1) with ((M - tSpeed) + 1) by lia.
            rewrite (@upFrom_cons tSpeed (M - tSpeed)) by (unfold M; lia).
            replace (M - (tSpeed + 1) + 1) with (M - tSpeed) by lia.
            reflexivity.
          - rewrite !upFrom_nil by (unfold M; lia). reflexivity. }
        { intros s. cbv beta. rewrite Hk.
          destruct (Z.eqb_spec (tThreshold s) tSpeed) as [E | E],
                   (Z.leb_spec tSpeed (tThreshold s)),
                   (Z.leb_spec (tSpeed + 1) (tThreshold s)),
                   (Z.ltb_spec (tThreshold s) (tSpeed + 1 + Z.of_nat k));
            cbn [andb app]; try rewrite E; try reflexivity; lia. }
        { lia. }
Qed.

End Sweep.

Lemma motor_stop (s : Side) (aStopMode : Mode) (c : Car) :
  motor s (stop aStopMode c) = motor_exec (stop_ aStopMode) (motor s c).
Proof. destruct s; reflexivity. Qed.

(** [rightCarMotor.StartSpeed = 0; leftCarMotor.StartSpeed = 0;] *)
Lemma calibrate_clearStartSpeed (c : Car) :
  let c0 :=
    set_leftCarMotor
      (set_StartSpeed 0
         (leftCarMotor (set_rightCarMotor (set_StartSpeed 0 (rightCarMotor c)) c)))
      (set_rightCarMotor (set_StartSpeed 0 (rightCarMotor c)) c) in
  Trace c0 = Trace c
  /\ forall s, StartSpeed (motor s c0) = 0
               /\ EncoderCount (motor s c0) = EncoderCount (motor s c).
Proof. split; [reflexivity | intros [|]; split; reflexivity]. Qed.

Lemma calibrate_speeds_eq : calibrate_speeds = upFrom 20 235.
Proof. reflexivity. Qed.

(** C9.  Calibration on encoder motors, with a callback that leaves the car
    alone and units whose wheels stand still below a threshold speed of
    their own (at least 20) and tick from it on.  At the check after a hold
    a unit without start speed whose encoder count exceeds 6 is handed that
    step's speed as start speed, and no other unit is.  The sweep hands
    each unit the speeds 20,
    21, ... one by one up to the unit's threshold; each unit below
    [MAX_SPEED] is latched once, at exactly its threshold, and a unit that
    never moves keeps start speed 0.  The sweep makes one hold of 21 rounds
    of 10 ms per step and ends with the step at which the second unit is
    latched, or else with the step before [MAX_SPEED]; then [stop()], with
    its default argument, is called on both units. *)
Theorem calibrate_encoder (tThreshold : Side -> Z) (fuel : nat)
    (aLoopCallback : option (Car -> Car)) (c : Car) :
  USE_ENCODER_MOTOR_CONTROL = true ->
  SyntheticUnits tThreshold ->
  passive aLoopCallback ->
  (21 <= fuel)%nat ->
  (forall s, 20 <= tThreshold s) ->
  (forall s tSpeed n c0,
     StartSpeed (motor s c0) = 0 -> 6 < EncoderCount (motor s c0) ->
     StartSpeed (motor s (snd (calibrate_checkMoved s tSpeed (n, c0)))) = tSpeed
     /\ fst (calibrate_checkMoved s tSpeed (n, c0)) = CInt.uint8_t (n + 1)
     /\ Trace (snd (calibrate_checkMoved s tSpeed (n, c0)))
        = Trace c0 ++ [MotorCall s (setStartSpeed_ tSpeed)])
  /\ (forall s tSpeed n c0,
        StartSpeed (motor s c0) <> 0 \/ EncoderCount (motor s c0) <= 6 ->
        calibrate_checkMoved s tSpeed (n, c0) = (n, c0))
  /\ exists c' evs,
       calibrate fuel aLoopCallback c = Some c'
       /\ (forall s, StartSpeed (motor s c')
                     = if tThreshold s <? MAX_SPEED then tThreshold s else 0)
       /\ Trace c'
          = Trace c
            ++ [MotorCall RightMotor (stop_ stop_default);
                MotorCall LeftMotor (stop_ stop_default);
                MotorCall RightMotor resetEncoderControlValues_;
                MotorCall LeftMotor resetEncoderControlValues_]
            ++ evs
            ++ [MotorCall RightMotor (stop_ stop_default);
                MotorCall LeftMotor (stop_ stop_default)]
       /\ (forall s, speedsOf s evs
                     = upFrom 20 (Z.to_nat (Z.min (tThreshold s) (MAX_SPEED - 1) - 19)))
       /\ (forall s, latchesOf s evs
                     = if tThreshold s <? MAX_SPEED then [tThreshold s] else [])
       /\ Z.of_nat (length (holds evs))
          = 21 * (Z.min (Z.max (tThreshold RightMotor) (tThreshold LeftMotor))
                        (MAX_SPEED - 1) - 19).
Proof.
  intros Hencoder Hunits Hpassive Hfuel Hthreshold. split; [| split].
  - intros s tSpeed n c0 Hstart Hcount. unfold calibrate_checkMoved.
    rewrite Hstart. destruct (Z.ltb_spec 6 (EncoderCount (motor s c0))); [| lia].
    cbn [Z.eqb andb fst snd].
    rewrite motor_call_same, (su_setStartSpeed_start Hunits), Trace_call.
    repeat split.
  - intros s tSpeed n c0 Hnot. unfold calibrate_checkMoved.
    destruct (Z.eqb_spec (StartSpeed (motor s c0)) 0),
             (Z.ltb_spec 6 (EncoderCount (motor s c0)));
      try reflexivity.
    destruct Hnot; [contradiction | lia].
  - unfold calibrate. rewrite Hencoder, calibrate_speeds_eq.
    unfold resetControlValues. rewrite Hencoder.
    set (cr := call LeftMotor resetEncoderControlValues_
                 (call RightMotor resetEncoderControlValues_ (stop stop_default c))).
    destruct (calibrate_clearStartSpeed cr) as [Htrace0 Hfields0].
    set (c0 := set_leftCarMotor (set_StartSpeed 0 (leftCarMotor _)) _) in *.
    assert (Hcr : Trace cr
                  = Trace c ++ [MotorCall RightMotor (stop_ stop_default);
                                MotorCall LeftMotor (stop_ stop_default);
                                MotorCall RightMotor resetEncoderControlValues_;
                                MotorCall LeftMotor resetEncoderControlValues_]).
    { unfold cr. rewrite !Trace_call, Trace_stop, <- !app_assoc. reflexivity. }
    rewrite Hcr in Htrace0.
    assert (Hreset : forall s, EncoderCount (motor s cr) = 0).
    { intros [|]; unfold cr.
      - rewrite (motor_call_other LeftMotor), motor_call_same.
        apply (su_reset_count Hunits).
      - rewrite motor_call_same. apply (su_reset_count Hunits). }
    assert (Hstate : sweepState tThreshold 20 0 c0).
    { split; [| split; [| split]].
      - intros s Hlt. specialize (Hthreshold s). lia.
      - intros s _. destruct (Hfields0 s) as [Hs Hc].
        split; [exact Hs | rewrite Hc; apply Hreset].
      - pose proof (Hthreshold RightMotor). pose proof (Hthreshold LeftMotor).
        destruct (Z.ltb_spec (tThreshold RightMotor) 20),
                 (Z.ltb_spec (tThreshold LeftMotor) 20); lia.
      - lia. }
    destruct (@calibrate_loop_sweep tThreshold aLoopCallback Hencoder Hunits Hpassive
                fuel Hfuel Hthreshold 235 20 0 c0 ltac:(lia) Hstate)
      as (c' & Hloop & Hstart & evs & Htrace & Hspeeds & Hlatches & Hholds).
    rewrite Hloop. exists (stop stop_default c'), evs.
    split; [reflexivity |].
    change (20 + Z.of_nat 235) with MAX_SPEED in *.
    split; [| split; [| split; [| split]]].
    + intros s. rewrite motor_stop, (su_stop_start Hunits). apply Hstart.
    + rewrite Trace_stop, Htrace, Htrace0, <- !app_assoc. reflexivity.
    + intros s. rewrite Hspeeds. f_equal. f_equal. lia.
    + intros s. rewrite Hlatches.
      destruct (Z.leb_spec 20 (tThreshold s)); [reflexivity |].
      specialize (Hthreshold s). lia.
    + rewrite Hholds. lia.
Qed.

End Properties.

(** ** Concrete runs

    The theorems at concrete cars in the reference environment, and the
    inputs at which the specification and the code part. *)

Ltac compute_goal :=
  vm_compute; repeat split; try discriminate; try (intro; discriminate).

(** Rotation by 90 degrees, turn angle 178 half degrees in the next IMU
    sample: the tick stops.  With 160 half degrees it slows down. *)
Lemma updateMotors_rotation_witness :
  let at178 :=
    Reference.car Reference.cruising Reference.cruising DIRECTION_FORWARD
                  90 0 0 0 [(178, 0, 0)] in
  let at160 :=
    Reference.car Reference.cruising Reference.cruising DIRECTION_FORWARD
                  90 0 0 0 [(160, 0, 0)] in
  (@updateMotors Reference.still Reference.sensor Reference.imuOnly at178
   = (false,
      set_CarRequestedRotationDegrees 0
        (@stop Reference.still Reference.sensor MOTOR_BRAKE
           (@updateIMUData Reference.sensor at178)))
   /\ Trace (snd (@updateMotors Reference.still Reference.sensor Reference.imuOnly at178))
      = [IMUCall readCarDataFromMPU6050Fifo_;
         MotorCall RightMotor (stop_ MOTOR_BRAKE);
         MotorCall LeftMotor (stop_ MOTOR_BRAKE)]
   /\ CarRequestedRotationDegrees
        (snd (@updateMotors Reference.still Reference.sensor Reference.imuOnly at178)) = 0)
  /\ (fst (@updateMotors Reference.still Reference.sensor Reference.imuOnly at160) = true
      /\ Trace (snd (@updateMotors Reference.still Reference.sensor Reference.imuOnly at160))
         = [IMUCall readCarDataFromMPU6050Fifo_;
            MotorCall RightMotor (changeSpeedCompensated_ 40);
            MotorCall LeftMotor (changeSpeedCompensated_ 40)]
      /\ CarRequestedRotationDegrees
           (snd (@updateMotors Reference.still Reference.sensor Reference.imuOnly at160))
         = 90).
Proof.
  intros at178 at160. split.
  - destruct (@updateMotors_rotation Reference.still Reference.sensor Reference.imuOnly
                at178 ltac:(compute_goal) ltac:(compute_goal) ltac:(compute_goal)
                ltac:(compute_goal)) as (Hstop & _ & _).
    destruct (Hstop ltac:(compute_goal)) as (E & Ht & Hr).
    split; [exact E |]. split; [exact Ht | exact Hr].
  - destruct (@updateMotors_rotation Reference.still Reference.sensor Reference.imuOnly
                at160 ltac:(compute_goal) ltac:(compute_goal) ltac:(compute_goal)
                ltac:(compute_goal)) as (_ & Hslow & _).
    destruct (Hslow ltac:(compute_goal)) as (E & Ht & Hr).
    split; [rewrite E; reflexivity |]. split; [exact Ht | exact Hr].
Defined.

(** Distance 500 pending, cruising units, and an IMU sample with speed
    40 cm/s and distance 470 mm: the braking distance is 45 mm, the sum
    has reached the target, and the tick starts the ramp down. *)
Lemma updateMotors_distance_witness :
  let c :=
    Reference.car Reference.cruising Reference.cruising DIRECTION_FORWARD
                  0 500 0 0 [(0, 40, 470)] in
  @getBrakingDistanceMillimeter Reference.still Reference.sensor Reference.imuOnly
    (@updateIMUData Reference.sensor c) = 45
  /\ Trace (snd (@updateMotors Reference.still Reference.sensor Reference.imuOnly c))
     = [IMUCall readCarDataFromMPU6050Fifo_;
        MotorCall RightMotor startRampDown_;
        MotorCall LeftMotor startRampDown_;
        MotorCall RightMotor updateMotor_;
        MotorCall LeftMotor updateMotor_].
Proof.
  intros c. split; [reflexivity |].
  destruct (@updateMotors_distance Reference.still Reference.sensor Reference.imuOnly
              c ltac:(compute_goal) ltac:(compute_goal) ltac:(compute_goal)
              ltac:(compute_goal) ltac:(compute_goal)) as (_ & _ & Hdriving).
  destruct (Hdriving ltac:(compute_goal) ltac:(compute_goal)) as (Hdown & _).
  rewrite (Hdown ltac:(compute_goal) ltac:(compute_goal) ltac:(compute_goal)).
  reflexivity.
Defined.

(** C2, where the claim fails.  (1) The measured distance (600) has passed
    the target (500), but the right unit is in the stopped state: the tick
    neither stops nor clears the pending distance.  (2) The units are in
    the ramp-up state with current speed 0, and measured distance (470)
    plus braking distance (45) has reached the target (500): no ramp down
    is started. *)
Lemma updateMotors_distance_counterexample :
  let passed :=
    Reference.car Reference.standing Reference.standing MOTOR_BRAKE
                  0 500 0 600 [] in
  let halted :=
    Reference.car
      (Reference.motorUnit 0 0 100 0 MOTOR_STATE_RAMP_UP DIRECTION_FORWARD)
      (Reference.motorUnit 0 0 100 0 MOTOR_STATE_RAMP_UP DIRECTION_FORWARD)
      DIRECTION_FORWARD 0 500 0 0 [(0, 40, 470)] in
  (CarRequestedDistanceMillimeter passed <= CarDistanceMillimeterFromIMU passed
   /\ CarRequestedDistanceMillimeter
        (snd (@updateMotors Reference.still Reference.sensor Reference.imuOnly passed))
      = 500
   /\ Trace (snd (@updateMotors Reference.still Reference.sensor Reference.imuOnly passed))
      = [IMUCall readCarDataFromMPU6050Fifo_;
         MotorCall RightMotor updateMotor_;
         MotorCall LeftMotor updateMotor_])
  /\ (CarDistanceMillimeterFromIMU (@updateIMUData Reference.sensor halted) = 470
      /\ @getBrakingDistanceMillimeter Reference.still Reference.sensor Reference.imuOnly
           (@updateIMUData Reference.sensor halted) = 45
      /\ MotorRampState (rightCarMotor halted) = MOTOR_STATE_RAMP_UP
      /\ Trace (snd (@updateMotors Reference.still Reference.sensor Reference.imuOnly halted))
         = [IMUCall readCarDataFromMPU6050Fifo_;
            MotorCall RightMotor updateMotor_;
            MotorCall LeftMotor updateMotor_]).
Proof. compute_goal. Qed.

(** No IMU: the tick is the update of the two units.  IMU and a pending
    rotation: the units are not updated. *)
Lemma updateMotors_advances_units_witness :
  let c :=
    Reference.car Reference.cruising Reference.standing DIRECTION_FORWARD
                  0 0 0 0 [] in
  let turning :=
    Reference.car Reference.standing Reference.standing DIRECTION_FORWARD
                  90 0 0 0 [] in
  (@updateMotors Reference.still Reference.sensor Reference.plain c
   = (true,
      @call Reference.still Reference.sensor LeftMotor updateMotor_
        (@call Reference.still Reference.sensor RightMotor updateMotor_ c)))
  /\ fst (@updateMotors Reference.still Reference.sensor Reference.imuOnly turning) = true.
Proof.
  intros c turning.
  destruct (@updateMotors_advances_units Reference.still Reference.sensor Reference.plain c)
    as [Hupdate _].
  destruct (Hupdate (or_introl eq_refl)) as (c1 & Hc1 & E & _).
  rewrite (Hc1 eq_refl) in E.
  destruct (@updateMotors_advances_units Reference.still Reference.sensor
              Reference.imuOnly turning) as [_ Hturning].
  destruct (Hturning eq_refl ltac:(compute_goal)) as [_ Hresult].
  split; [rewrite E; reflexivity | rewrite Hresult; reflexivity].
Defined.

(** C3, where the claim fails.  IMU build, rotation of 90 degrees pending,
    both units standing: [updateMotor] would return false on both units,
    but the tick calls it on neither and returns true. *)
Lemma updateMotors_advances_units_counterexample :
  let turning :=
    Reference.car Reference.standing Reference.standing DIRECTION_FORWARD
                  90 0 0 0 [] in
  @USE_MPU6050_IMU Reference.imuOnly = true
  /\ CarRequestedRotationDegrees turning = 90
  /\ @motor_updateMotor_result Reference.still (rightCarMotor turning)
     || @motor_updateMotor_result Reference.still (leftCarMotor turning) = false
  /\ @updateMotors Reference.still Reference.sensor Reference.imuOnly turning
     = (true, @updateIMUData Reference.sensor turning)
  /\ Trace (snd (@updateMotors Reference.still Reference.sensor Reference.imuOnly turning))
     = [IMUCall readCarDataFromMPU6050Fifo_].
Proof. compute_goal. Qed.

(** A turn in place by -90 degrees without IMU, with 2 mm per degree: the
    left motor is the outer one and goes 90 mm forward, the right motor
    goes 90 mm backward; the slow turn speed is 40 + 40 / 2. *)
Lemma startRotate_distances_witness :
  let c :=
    Reference.car Reference.standing Reference.standing MOTOR_BRAKE 0 0 0 0 [] in
  Trace (@startRotate Reference.still Reference.sensor Reference.plain
           (-90) TURN_IN_PLACE true c)
  = [MotorCall LeftMotor (startGoDistanceMillimeter_ 60 90 DIRECTION_FORWARD);
     MotorCall RightMotor (startGoDistanceMillimeter_ 60 90 DIRECTION_BACKWARD)]
  /\ rotateOuterSide 90 = RightMotor
  /\ rotateOuterSide (-90) = LeftMotor
  /\ @rotateDistanceMillimeter Reference.sensor Reference.plain (-90) c
     = @rotateDistanceMillimeter Reference.sensor Reference.plain 90 c.
Proof.
  intros c.
  destruct (@startRotate_distances Reference.still Reference.sensor Reference.plain
              (-90) TURN_IN_PLACE true c) as (_ & Hplain & _ & Hswap).
  destruct (Hswap 90 ltac:(compute_goal)) as (Hpos & Hneg & _ & _ & Hdist).
  split; [rewrite (Hplain eq_refl); reflexivity |].
  split; [exact Hpos |]. split; [exact Hneg | exact Hdist].
Defined.

(** A request to go backward while both units run forward at speed 100:
    stop, stop, a wait of 50, then the new mode.  At speed 200 the wait is
    100. *)
Lemma checkAndHandleDirectionChange_witness :
  let c :=
    Reference.car Reference.cruising Reference.cruising DIRECTION_FORWARD
                  0 0 0 0 [] in
  let faster :=
    Reference.car
      (Reference.motorUnit 200 40 200 0 MOTOR_STATE_DRIVE_SPEED DIRECTION_FORWARD)
      Reference.cruising DIRECTION_FORWARD 0 0 0 0 [] in
  fst (@checkAndHandleDirectionChange Reference.still Reference.sensor
         DIRECTION_BACKWARD c) = true
  /\ Trace (snd (@checkAndHandleDirectionChange Reference.still Reference.sensor
                   DIRECTION_BACKWARD c))
     = [MotorCall RightMotor (stop_ MOTOR_BRAKE);
        MotorCall LeftMotor (stop_ MOTOR_BRAKE);
        DelayCall 50]
  /\ CarDirectionOrBrakeMode
       (snd (@checkAndHandleDirectionChange Reference.still Reference.sensor
               DIRECTION_BACKWARD c)) = DIRECTION_BACKWARD
  /\ exists w2,
       Trace (snd (@checkAndHandleDirectionChange Reference.still Reference.sensor
                     DIRECTION_BACKWARD faster))
       = [MotorCall RightMotor (stop_ MOTOR_BRAKE);
          MotorCall LeftMotor (stop_ MOTOR_BRAKE);
          DelayCall w2]
       /\ 50 <= w2.
Proof.
  intros c faster.
  destruct (@checkAndHandleDirectionChange_spec Reference.still Reference.sensor
              DIRECTION_BACKWARD c ltac:(compute_goal) ltac:(compute_goal))
    as (_ & _ & Hmoving).
  destruct (Hmoving ltac:(compute_goal) ltac:(left; compute_goal))
    as (E & Ht & Hm & Hmono).
  split; [rewrite E; reflexivity |]. split; [exact Ht |]. split; [exact Hm |].
  destruct (Hmono faster ltac:(compute_goal) ltac:(compute_goal)) as (w2 & Hw & Hle).
  exists w2. split; [exact Hw | exact Hle].
Defined.

(** Left compensation 5, right 0: [+3] then [-3] gives the motors back. *)
Lemma changeSpeedCompensation_roundtrip_witness :
  let c :=
    Reference.car (Reference.compensated 0) (Reference.compensated 5) MOTOR_BRAKE
                  0 0 0 0 [] in
  leftCarMotor (changeSpeedCompensation (- 3) (changeSpeedCompensation 3 c))
  = leftCarMotor c
  /\ rightCarMotor (changeSpeedCompensation (- 3) (changeSpeedCompensation 3 c))
     = rightCarMotor c
  /\ compensations (changeSpeedCompensation 3 c) = (2, 0).
Proof.
  intros c.
  destruct (@changeSpeedCompensation_roundtrip Reference.sensor 3 c
              ltac:(compute_goal) ltac:(compute_goal) ltac:(compute_goal)
              ltac:(compute_goal) ltac:(compute_goal))
    as ((Hl & Hr) & Htake & _).
  { vm_compute. intros [_ H]. apply H. reflexivity. }
  split; [exact Hl |]. split; [exact Hr |].
  exact (Htake ltac:(compute_goal) ltac:(compute_goal)).
Defined.

(** C6, where the claim fails.  From left 3, right 0, the change [+5]
    gives left 3, right 5.  There [+2] is taken from the left unit and the
    following [-2] from the right unit: left 1, right 3.  The delta 2
    exceeds neither compensation. *)
Lemma changeSpeedCompensation_roundtrip_counterexample :
  let c0 :=
    Reference.car (Reference.compensated 0) (Reference.compensated 3) MOTOR_BRAKE
                  0 0 0 0 [] in
  let c := changeSpeedCompensation 5 c0 in
  compensations c0 = (3, 0)
  /\ compensations c = (3, 5)
  /\ Z.abs 2 <= SpeedCompensation (leftCarMotor c)
  /\ Z.abs 2 <= SpeedCompensation (rightCarMotor c)
  /\ compensations (changeSpeedCompensation (- 2) (changeSpeedCompensation 2 c)) = (1, 3)
  /\ compensations (changeSpeedCompensation (- 2) (changeSpeedCompensation 2 c))
     <> compensations c.
Proof. compute_goal. Qed.

(** Both units forward at speed 100 in forward mode, [setSpeed(50,
    DIRECTION_FORWARD)]: the two motor calls and nothing else. *)
Lemma setSpeed_arbitrates_witness :
  let c :=
    Reference.car Reference.cruising Reference.cruising DIRECTION_FORWARD
                  0 0 0 0 [] in
  Trace (@setSpeed Reference.still Reference.sensor 50 DIRECTION_FORWARD c)
  = [MotorCall RightMotor (setSpeed_ 50 DIRECTION_FORWARD);
     MotorCall LeftMotor (setSpeed_ 50 DIRECTION_FORWARD)]
  /\ Trace (@setSpeed Reference.still Reference.sensor 50 DIRECTION_BACKWARD c)
     = [MotorCall RightMotor (stop_ MOTOR_BRAKE);
        MotorCall LeftMotor (stop_ MOTOR_BRAKE);
        DelayCall 50;
        MotorCall RightMotor (setSpeed_ 50 DIRECTION_BACKWARD);
        MotorCall LeftMotor (setSpeed_ 50 DIRECTION_BACKWARD)].
Proof.
  intros c. split.
  - destruct (@setSpeed_arbitrates Reference.still Reference.sensor 50 DIRECTION_FORWARD c
                ltac:(compute_goal) ltac:(compute_goal)) as (_ & Hquiet & _).
    exact (Hquiet (or_introl eq_refl)).
  - destruct (@setSpeed_arbitrates Reference.still Reference.sensor 50 DIRECTION_BACKWARD c
                ltac:(compute_goal) ltac:(compute_goal)) as (_ & _ & Hmoving).
    exact (Hmoving ltac:(compute_goal) ltac:(left; compute_goal)).
Defined.

(** C7, where the claim fails.  Both units forward at speed 100 in forward
    mode, [setSpeed(50, DIRECTION_BACKWARD)]: both units are stopped with
    [MOTOR_BRAKE] and 50 ms are waited before the speed is applied, and the
    commanded mode changes. *)
Lemma setSpeed_counterexample :
  let c :=
    Reference.car Reference.cruising Reference.cruising DIRECTION_FORWARD
                  0 0 0 0 [] in
  Trace (@setSpeed Reference.still Reference.sensor 50 DIRECTION_BACKWARD c)
  = [MotorCall RightMotor (stop_ MOTOR_BRAKE);
     MotorCall LeftMotor (stop_ MOTOR_BRAKE);
     DelayCall 50;
     MotorCall RightMotor (setSpeed_ 50 DIRECTION_BACKWARD);
     MotorCall LeftMotor (setSpeed_ 50 DIRECTION_BACKWARD)]
  /\ Millis (@setSpeed Reference.still Reference.sensor 50 DIRECTION_BACKWARD c)
     = Millis c + 50
  /\ CarDirectionOrBrakeMode c = DIRECTION_FORWARD
  /\ CarDirectionOrBrakeMode
       (@setSpeed Reference.still Reference.sensor 50 DIRECTION_BACKWARD c)
     = DIRECTION_BACKWARD.
Proof. compute_goal. Qed.

(** The reference units keep the contracts the theorems ask for. *)
Lemma Reference_storesZeroCompensation (tThreshold : Side -> Z) :
  @storesZeroCompensation (Reference.driver tThreshold).
Proof. intros s d m. reflexivity. Qed.

Lemma Reference_units (tThreshold : Side -> Z) :
  @SyntheticUnits (Reference.driver tThreshold) tThreshold.
Proof.
  constructor; intros; try reflexivity; cbn; unfold Reference.elapse.
  - destruct (tThreshold s <=? CurrentSpeed m); reflexivity.
  - destruct (tThreshold s <=? CurrentSpeed m); reflexivity.
  - destruct (Z.leb_spec (tThreshold s) (CurrentSpeed m)); [lia | reflexivity].
  - destruct (Z.leb_spec (tThreshold s) (CurrentSpeed m)); [cbn; lia | lia].
Qed.

(** Set the compensation to -3 (left 3), then change by +3, +2 and -1:
    every change is a whole transfer and one side stays at zero. *)
Lemma oneSided_preserved_witness :
  let c :=
    Reference.car Reference.standing Reference.standing MOTOR_BRAKE 0 0 0 0 [] in
  let ops := [SetValues 40 100 (-3); Change 3; Change 2; Change (-1)] in
  @oneSided Reference.sensor (@runOps Reference.still Reference.sensor ops c)
  /\ @compensations Reference.sensor (@runOps Reference.still Reference.sensor ops c)
     = (0, 1).
Proof.
  intros c ops. split; [| reflexivity].
  refine (proj1 (@oneSided_preserved Reference.still Reference.sensor ops c
                   (Reference_storesZeroCompensation _) _ _)).
  - left. reflexivity.
  - vm_compute. repeat split; intros; try discriminate;
      try (left; reflexivity); try (right; intro; discriminate).
Defined.

(** C8, where the claim fails.  Left 3, right 0, and a change by +5: the
    left unit holds less than 5, so 5 is added to the right unit and both
    sides are nonzero. *)
Lemma oneSided_counterexample :
  let c :=
    Reference.car (Reference.compensated 0) (Reference.compensated 3) MOTOR_BRAKE
                  0 0 0 0 [] in
  oneSided c
  /\ compensations (changeSpeedCompensation 5 c) = (3, 5)
  /\ ~ oneSided (changeSpeedCompensation 5 c).
Proof.
  intros c. split; [right; reflexivity |]. split; [reflexivity |].
  intros [H | H]; vm_compute in H; discriminate.
Qed.

(** Calibration with a right wheel that starts to turn at speed 27 and a
    left wheel that starts at 30: start speeds 27 and 30, the right unit is
    handed 20 to 27, the left unit 20 to 30, and the sweep makes 11 steps
    of 21 rounds. *)
Lemma calibrate_encoder_witness :
  let c :=
    Reference.car Reference.standing Reference.standing MOTOR_BRAKE 0 0 0 0 [] in
  exists c' evs,
    @calibrate (Reference.driver (Reference.thresholds 27 30)) Reference.sensor
      Reference.encoderOnly 21 None c = Some c'
    /\ StartSpeed (rightCarMotor c') = 27
    /\ StartSpeed (leftCarMotor c') = 30
    /\ Trace c'
       = [MotorCall RightMotor (stop_ STOP_MODE_KEEP);
          MotorCall LeftMotor (stop_ STOP_MODE_KEEP);
          MotorCall RightMotor resetEncoderControlValues_;
          MotorCall LeftMotor resetEncoderControlValues_]
         ++ evs
         ++ [MotorCall RightMotor (stop_ STOP_MODE_KEEP);
             MotorCall LeftMotor (stop_ STOP_MODE_KEEP)]
    /\ speedsOf RightMotor evs = [20; 21; 22; 23; 24; 25; 26; 27]
    /\ speedsOf LeftMotor evs = [20; 21; 22; 23; 24; 25; 26; 27; 28; 29; 30]
    /\ latchesOf RightMotor evs = [27]
    /\ latchesOf LeftMotor evs = [30]
    /\ length (holds evs) = (21 * 11)%nat.
Proof.
  intros c.
  destruct (@calibrate_encoder (Reference.driver (Reference.thresholds 27 30))
              Reference.sensor Reference.encoderOnly (Reference.thresholds 27 30)
              21%nat None c eq_refl (Reference_units _))
    as (_ & _ & c' & evs & Hrun & Hstart & Htrace & Hspeeds & Hlatches & Hholds).
  - intros f Hf. discriminate.
  - apply le_n.
  - intros [|]; compute_goal.
  - exists c', evs. split; [exact Hrun |].
    split; [exact (Hstart RightMotor) |]. split; [exact (Hstart LeftMotor) |].
    split; [exact Htrace |].
    split; [exact (Hspeeds RightMotor) |]. split; [exact (Hspeeds LeftMotor) |].
    split; [exact (Hlatches RightMotor) |]. split; [exact (Hlatches LeftMotor) |].
    apply Nat2Z.inj. rewrite Hholds. reflexivity.
Defined.

(** The same calibration, run. *)
Example calibrate_27_30 :
  let c :=
    Reference.car Reference.standing Reference.standing MOTOR_BRAKE 0 0 0 0 [] in
  match @calibrate (Reference.driver (Reference.thresholds 27 30)) Reference.sensor
          Reference.encoderOnly 21 None c with
  | Some c' =>
      StartSpeed (rightCarMotor c') = 27
      /\ StartSpeed (leftCarMotor c') = 30
      /\ speedsOf LeftMotor (Trace c')
         = [20; 21; 22; 23; 24; 25; 26; 27; 28; 29; 30]
      /\ Millis c' = 11 * 210
  | None => False
  end.
Proof. vm_compute. repeat split. Qed.

(** ** Further properties of the file *)

Section Further.

Context {drv : MotorDriver} {imu : IMUDriver} {cfg : BuildConfig}.

Ltac case_if :=
  match goal with
  | |- context [if ?b then _ else _] => destruct b
  end.

Lemma Trace_set_CarRequestedDistanceMillimeter (v : Z) (c : Car) :
  Trace (set_CarRequestedDistanceMillimeter v c) = Trace c.
Proof. reflexivity. Qed.

Lemma CarRequestedDistanceMillimeter_call (s : Side) (cmd : MotorCmd) (c : Car) :
  CarRequestedDistanceMillimeter (call s cmd c) = CarRequestedDistanceMillimeter c.
Proof. destruct s; reflexivity. Qed.

Lemma CarRequestedDistanceMillimeter_stop (aStopMode : Mode) (c : Car) :
  CarRequestedDistanceMillimeter (stop aStopMode c) = CarRequestedDistanceMillimeter c.
Proof. reflexivity. Qed.

Lemma CarRequestedRotationDegrees_stop (aStopMode : Mode) (c : Car) :
  CarRequestedRotationDegrees (stop aStopMode c) = CarRequestedRotationDegrees c.
Proof. reflexivity. Qed.

Lemma CarDirectionOrBrakeMode_stop (aStopMode : Mode) (c : Car) :
  CarDirectionOrBrakeMode (stop aStopMode c)
  = CurrentDirectionOrBrakeMode (rightCarMotor (stop aStopMode c)).
Proof. reflexivity. Qed.

(** *** Speed with a left/right difference *)


(** *** Compensation at the end of the [int8_t] range *)

(** X2.  [changeSpeedCompensation(-128)]: the negation of -128 does not
    fit an [int8_t] and stays -128, so the comparison with the right
    unit's compensation always succeeds: 128 is added (modulo 256) to the
    right unit's compensation and the left unit is not touched, whatever
    it holds. *)
Theorem changeSpeedCompensation_int8_min (c : Car) :
  0 <= SpeedCompensation (rightCarMotor c) ->
  leftCarMotor (changeSpeedCompensation (-128) c) = leftCarMotor c
  /\ SpeedCompensation (rightCarMotor (changeSpeedCompensation (-128) c))
     = (SpeedCompensation (rightCarMotor c) + 128) mod 256.
Proof.
  intros HR. unfold changeSpeedCompensation.
  change (0 <? -128) with false. cbv iota.
  change (CInt.int8_t (- -128)) with (-128).
  destruct (Z.leb_spec (-128) (SpeedCompensation (rightCarMotor c))); [| lia].
  split; [reflexivity |].
  cbn [rightCarMotor set_MotorControlValuesHaveChanged set_rightCarMotor
       SpeedCompensation set_SpeedCompensation].
  unfold CInt.uint8_t. reflexivity.
Qed.

(** X3.  [changeSpeedCompensation] calls no method of a motor and waits
    for nothing: it writes the compensation member itself.  It leaves one
    of the two motors as it was, changes nothing but the compensation of
    the other one, raises [MotorControlValuesHaveChanged], and leaves the
    commanded mode and the pending rotation and distance alone. *)
Theorem changeSpeedCompensation_frame (aSpeedCompensationRight : Z) (c : Car) :
  let c' := changeSpeedCompensation aSpeedCompensationRight c in
  Trace c' = Trace c
  /\ Millis c' = Millis c
  /\ MotorControlValuesHaveChanged c' = true
  /\ CarDirectionOrBrakeMode c' = CarDirectionOrBrakeMode c
  /\ CarRequestedRotationDegrees c' = CarRequestedRotationDegrees c
  /\ CarRequestedDistanceMillimeter c' = CarRequestedDistanceMillimeter c
  /\ (leftCarMotor c' = leftCarMotor c \/ rightCarMotor c' = rightCarMotor c)
  /\ forall s,
       set_SpeedCompensation (SpeedCompensation (motor s c)) (motor s c') = motor s c.
Proof.
  cbv zeta. unfold changeSpeedCompensation.
  destruct (0 <? aSpeedCompensationRight).
  - destruct (aSpeedCompensationRight <=? SpeedCompensation (leftCarMotor c)); cbn;
      repeat split; auto;
      intros [|]; cbn; try apply set_SpeedCompensation_back;
      destruct (rightCarMotor c), (leftCarMotor c); reflexivity.
  - destruct (CInt.int8_t (- aSpeedCompensationRight)
              <=? SpeedCompensation (rightCarMotor c)); cbn;
      repeat split; auto;
      intros [|]; cbn; try apply set_SpeedCompensation_back;
      destruct (rightCarMotor c), (leftCarMotor c); reflexivity.
Qed.

(** *** Arbitration and the operations around it *)

Lemma CarRequestedDistanceMillimeter_checkAndHandleDirectionChange
    (aRequestedDirection : Mode) (c : Car) :
  CarRequestedDistanceMillimeter (snd (checkAndHandleDirectionChange aRequestedDirection c))
  = CarRequestedDistanceMillimeter c.
Proof.
  unfold checkAndHandleDirectionChange.
  destruct (Mode_eqb_spec (CarDirectionOrBrakeMode c) aRequestedDirection) as [E | E].
  - reflexivity.
  - cbv [negb].
    destruct (0 <? Z.max (CurrentSpeed (rightCarMotor c)) (CurrentSpeed (leftCarMotor c)));
      reflexivity.
Qed.

Lemma checkAndHandleDirectionChange_twice (aRequestedDirection : Mode) (c : Car) :
  checkAndHandleDirectionChange aRequestedDirection
    (snd (checkAndHandleDirectionChange aRequestedDirection c))
  = (false, snd (checkAndHandleDirectionChange aRequestedDirection c)).
Proof.
  apply checkAndHandleDirectionChange_same.
  apply CarDirectionOrBrakeMode_checkAndHandleDirectionChange.
Qed.

(** X4.  [setSpeed(int)] goes past the arbitration: it calls [setSpeed] on
    the two motors and nothing else, and the commanded mode stays what it
    was, also when the sign of the speed reverses the motors.  A later
    request for the mode commanded before is therefore taken as no change
    of direction: nothing is stopped and nothing is waited for. *)
Theorem setSpeedSigned_leaves_mode (aRequestedSpeed : Z) (c : Car) :
  Trace (setSpeedSigned aRequestedSpeed c)
  = Trace c ++ [MotorCall RightMotor (setSpeedSigned_ aRequestedSpeed);
                MotorCall LeftMotor (setSpeedSigned_ aRequestedSpeed)]
  /\ Millis (setSpeedSigned aRequestedSpeed c) = Millis c
  /\ checkAndHandleDirectionChange (CarDirectionOrBrakeMode c)
       (setSpeedSigned aRequestedSpeed c)
     = (false, setSpeedSigned aRequestedSpeed c).
Proof.
  split; [| split].
  - unfold setSpeedSigned. rewrite !Trace_call, <- app_assoc. reflexivity.
  - reflexivity.
  - apply checkAndHandleDirectionChange_same.
    unfold setSpeedSigned. rewrite !CarDirectionOrBrakeMode_call. reflexivity.
Qed.

(** X5.  [stop] overwrites the commanded mode with the mode the right
    motor is in after its stop.  For motors that a stop brings to speed
    zero, a request for any direction after a [stop] is granted at once:
    the arbitration stops nothing, waits for nothing and returns false. *)
Theorem stop_then_direction (aStopMode aRequestedDirection : Mode) (c : Car) :
  (forall a m, CurrentSpeed (motor_exec (stop_ a) m) = 0) ->
  CarDirectionOrBrakeMode (stop aStopMode c)
  = CurrentDirectionOrBrakeMode (motor_exec (stop_ aStopMode) (rightCarMotor c))
  /\ fst (checkAndHandleDirectionChange aRequestedDirection (stop aStopMode c)) = false
  /\ Trace (snd (checkAndHandleDirectionChange aRequestedDirection (stop aStopMode c)))
     = Trace c ++ [MotorCall RightMotor (stop_ aStopMode);
                   MotorCall LeftMotor (stop_ aStopMode)]
  /\ Millis (snd (checkAndHandleDirectionChange aRequestedDirection (stop aStopMode c)))
     = Millis c.
Proof.
  intros Hstop. split; [reflexivity |].
  assert (Hmax : Z.max (CurrentSpeed (rightCarMotor (stop aStopMode c)))
                       (CurrentSpeed (leftCarMotor (stop aStopMode c))) <= 0).
  { rewrite (motor_stop RightMotor aStopMode c : rightCarMotor _ = _).
    rewrite (motor_stop LeftMotor aStopMode c : leftCarMotor _ = _).
    rewrite !Hstop. reflexivity. }
  destruct (Mode_eqb_spec (CarDirectionOrBrakeMode (stop aStopMode c)) aRequestedDirection)
    as [E | E].
  - rewrite checkAndHandleDirectionChange_same by exact E.
    cbv [fst snd]. rewrite Trace_stop. repeat split.
  - rewrite checkAndHandleDirectionChange_standing by assumption.
    cbv [fst snd]. rewrite Trace_set_CarDirectionOrBrakeMode, Trace_stop. repeat split.
Qed.

Lemma Trace_startRampUp (aRequestedSpeed : Z) (aRequestedDirection : Mode) (c : Car) :
  Trace (startRampUp aRequestedSpeed aRequestedDirection c)
  = Trace (snd (checkAndHandleDirectionChange aRequestedDirection c))
    ++ [MotorCall RightMotor (startRampUp_ aRequestedSpeed aRequestedDirection);
        MotorCall LeftMotor (startRampUp_ aRequestedSpeed aRequestedDirection)].
Proof. unfold startRampUp. rewrite !Trace_call, <- app_assoc. reflexivity. Qed.

(** X6.  [startGoDistanceMillimeter(aRequestedSpeed,
    aRequestedDistanceMillimeter, aRequestedDirection)] arbitrates the
    direction once, also in the build that goes on through [startRampUp],
    whose own arbitration then finds the mode already set.  With an IMU
    the IMU data is reset and the distance becomes the pending distance.
    With an IMU and no encoder motors the motors are only ramped up; in
    every other build they are handed the distance.  The commanded mode is
    the requested direction afterwards. *)
Theorem startGoDistanceMillimeter_calls (aRequestedSpeed aRequestedDistanceMillimeter : Z)
    (aRequestedDirection : Mode) (c : Car) :
  let c' := startGoDistanceMillimeter aRequestedSpeed aRequestedDistanceMillimeter
              aRequestedDirection c in
  CarDirectionOrBrakeMode c' = aRequestedDirection
  /\ Trace c'
     = Trace (snd (checkAndHandleDirectionChange aRequestedDirection c))
       ++ (if USE_MPU6050_IMU then [IMUCall resetCarData_] else [])
       ++ (if USE_MPU6050_IMU && negb USE_ENCODER_MOTOR_CONTROL
           then [MotorCall RightMotor (startRampUp_ aRequestedSpeed aRequestedDirection);
                 MotorCall LeftMotor (startRampUp_ aRequestedSpeed aRequestedDirection)]
           else [MotorCall RightMotor
                   (startGoDistanceMillimeter_ aRequestedSpeed
                      aRequestedDistanceMillimeter aRequestedDirection);
                 MotorCall LeftMotor
                   (startGoDistanceMillimeter_ aRequestedSpeed
                      aRequestedDistanceMillimeter aRequestedDirection)])
  /\ CarRequestedDistanceMillimeter c'
     = (if USE_MPU6050_IMU then aRequestedDistanceMillimeter
        else CarRequestedDistanceMillimeter c).
Proof.
  cbv zeta. unfold startGoDistanceMillimeter.
  pose proof (CarDirectionOrBrakeMode_checkAndHandleDirectionChange aRequestedDirection c)
    as Hmode.
  set (c1 := snd (checkAndHandleDirectionChange aRequestedDirection c)) in *.
  destruct USE_MPU6050_IMU, USE_ENCODER_MOTOR_CONTROL; cbn [andb negb].
  - rewrite !Trace_call, !CarDirectionOrBrakeMode_call,
      !CarRequestedDistanceMillimeter_call, Trace_set_CarRequestedDistanceMillimeter,
      Trace_IMUresetCarData, <- !app_assoc.
    repeat split. exact Hmode.
  - set (c2 := set_CarRequestedDistanceMillimeter aRequestedDistanceMillimeter
                 (IMUresetCarData c1)).
    assert (E : checkAndHandleDirectionChange aRequestedDirection c2 = (false, c2))
      by (apply checkAndHandleDirectionChange_same; exact Hmode).
    unfold startRampUp. rewrite E. cbv [snd].
    rewrite !Trace_call, !CarDirectionOrBrakeMode_call,
      !CarRequestedDistanceMillimeter_call.
    unfold c2. rewrite Trace_set_CarRequestedDistanceMillimeter,
      Trace_IMUresetCarData, <- !app_assoc.
    repeat split. exact Hmode.
  - rewrite !Trace_call, !CarDirectionOrBrakeMode_call,
      !CarRequestedDistanceMillimeter_call, <- !app_assoc.
    repeat split; [exact Hmode |].
    apply CarRequestedDistanceMillimeter_checkAndHandleDirectionChange.
  - rewrite !Trace_call, !CarDirectionOrBrakeMode_call,
      !CarRequestedDistanceMillimeter_call, <- !app_assoc.
    repeat split; [exact Hmode |].
    apply CarRequestedDistanceMillimeter_checkAndHandleDirectionChange.
Qed.

(** X7.  [startGoDistanceMillimeter(int)] is
    [startGoDistanceMillimeter(unsigned int, uint8_t)] at the magnitude and
    the direction of the signed distance: a negative distance goes
    backward, any other forward, the distance handed on is the absolute
    value, and the speed is the drive speed of the right motor for both
    motors.  The least [int], whose negation overflows, is left out. *)
Theorem startGoDistanceMillimeterSigned_magnitude (aRequestedDistanceMillimeter : Z)
    (c : Car) :
  -32767 <= aRequestedDistanceMillimeter <= 32767 ->
  startGoDistanceMillimeterSigned aRequestedDistanceMillimeter c
  = startGoDistanceMillimeterDrive (Z.abs aRequestedDistanceMillimeter)
      (if aRequestedDistanceMillimeter <? 0 then DIRECTION_BACKWARD else DIRECTION_FORWARD)
      c.
Proof.
  intros Hd. unfold startGoDistanceMillimeterSigned, startGoDistanceMillimeterDrive.
  destruct (Z.ltb_spec aRequestedDistanceMillimeter 0) as [Hneg | Hpos].
  - f_equal.
    rewrite int_id by (unfold CInt.is_int; lia).
    rewrite unsigned_int_id by (unfold CInt.is_unsigned_int; lia). lia.
  - f_equal. rewrite unsigned_int_id by (unfold CInt.is_unsigned_int; lia). lia.
Qed.

(** *** The cached sensor readings *)

Ltac readings_simpl :=
  cbn [negb andb IMUData CarTurnAngleHalfDegreesFromIMU CarSpeedCmPerSecondFromIMU
       CarDistanceMillimeterFromIMU SensorValuesHaveChanged log set_Trace set_IMUData
       set_SensorValuesHaveChanged set_CarTurnAngleHalfDegreesFromIMU
       set_CarSpeedCmPerSecondFromIMU set_CarDistanceMillimeterFromIMU].

(** X8.  [updateIMUData] takes the three readings over from the IMU exactly
    when the read reports new data and the forward offset of the
    accelerator is not zero; otherwise the cached readings and the sensor
    flag stay as they are.  After a takeover the cache holds the turn
    angle and the magnitudes of speed and distance as the IMU gives them,
    and the sensor flag is raised exactly when one of the three differs
    from what was cached; the function never clears the flag. *)
Theorem updateIMUData_change_detection (c : Car) :
  let i := fst (readCarDataFromMPU6050Fifo (IMUData c)) in
  let tNewData := snd (readCarDataFromMPU6050Fifo (IMUData c)) in
  let c' := updateIMUData c in
  IMUData c' = i
  /\ (if tNewData && negb (AcceleratorForwardOffset i =? 0) then
        cachedReadings c' = sensorReadings i
        /\ SensorValuesHaveChanged c'
           = SensorValuesHaveChanged c
             || negb (readings_eqb (cachedReadings c) (sensorReadings i))
      else
        cachedReadings c' = cachedReadings c
        /\ SensorValuesHaveChanged c' = SensorValuesHaveChanged c).
Proof.
  cbv zeta. unfold updateIMUData, IMUread, cachedReadings, sensorReadings, readings_eqb.
  destruct (readCarDataFromMPU6050Fifo (IMUData c)) as [i tNewData]. cbn [fst snd].
  destruct tNewData; [| repeat split].
  cbn [andb]. readings_simpl.
  destruct (AcceleratorForwardOffset i =? 0); [repeat split |].
  destruct (Z.eqb_spec (CarTurnAngleHalfDegreesFromIMU c) (getTurnAngleHalfDegree i))
    as [Ea | Ea];
    readings_simpl;
    (destruct (Z.eqb_spec (CarSpeedCmPerSecondFromIMU c)
                 (CInt.unsigned_int (CInt.abs (getSpeedCmPerSecond i)))) as [Ev | Ev];
     readings_simpl;
     (destruct (Z.eqb_spec (CarDistanceMillimeterFromIMU c)
                  (CInt.unsigned_int (CInt.abs (getDistanceMillimeter i)))) as [Ed | Ed];
      readings_simpl;
      (split; [reflexivity |]);
      (split; [try rewrite Ea; try rewrite Ev; try rewrite Ed; reflexivity |]);
      destruct (SensorValuesHaveChanged c); reflexivity)).
Qed.

(** *** Turn speed and braking distance *)

(** X9.  The turn speed [startRotate] computes for a motor is a [uint8_t]
    value without wrap-around: with the slow-speed flag and a start speed
    below 160 it is one and a half times the start speed, at most 238; in
    every other case it is the drive speed of the motor. *)
Theorem rotateTurnSpeed_range (aUseSlowSpeed : bool) (m : Motor) :
  CInt.is_uint8_t (StartSpeed m) ->
  CInt.is_uint8_t (DriveSpeed m) ->
  CInt.is_uint8_t (rotateTurnSpeed aUseSlowSpeed m)
  /\ (aUseSlowSpeed = true -> StartSpeed m < 160 ->
        rotateTurnSpeed aUseSlowSpeed m = StartSpeed m + StartSpeed m / 2
        /\ rotateTurnSpeed aUseSlowSpeed m <= 238)
  /\ (aUseSlowSpeed = false \/ 160 <= StartSpeed m ->
        rotateTurnSpeed aUseSlowSpeed m = DriveSpeed m).
Proof.
  unfold CInt.is_uint8_t. intros Hs Hd. unfold rotateTurnSpeed.
  assert (Hhalf : 0 <= StartSpeed m / 2 /\ 2 * (StartSpeed m / 2) <= StartSpeed m).
  { split; [apply Z.div_pos; lia | apply Z.mul_div_le; lia]. }
  destruct aUseSlowSpeed; cbn [andb].
  - destruct (Z.ltb_spec (StartSpeed m) 160) as [Hlt | Hge].
    + rewrite uint8_t_id by (unfold CInt.is_uint8_t; lia).
      split; [lia |]. split; [intros _ _; lia |].
      intros [Hf | Hf]; [discriminate | lia].
    + split; [exact Hd |]. split; [intros _ Hlt; lia | reflexivity].
  - split; [exact Hd |]. split; [discriminate | reflexivity].
Qed.

(** X10.  Without encoder motors the braking distance is computed from
    the cached IMU speed [v] as [v * v / (RAMP_DECELERATION_TIMES_2 / 100)]
    in [unsigned int].  For speeds up to 255 cm/s the square does not wrap:
    the result is the exact quotient and grows with the speed.  At
    256 cm/s the square wraps to 0 and so does the braking distance. *)
Theorem getBrakingDistanceMillimeter_IMU (c c2 : Car) :
  USE_ENCODER_MOTOR_CONTROL = false ->
  0 < RAMP_DECELERATION_TIMES_2 / 100 ->
  0 <= CarSpeedCmPerSecondFromIMU c <= CarSpeedCmPerSecondFromIMU c2 ->
  CarSpeedCmPerSecondFromIMU c2 <= 255 ->
  getBrakingDistanceMillimeter c
  = CarSpeedCmPerSecondFromIMU c * CarSpeedCmPerSecondFromIMU c
    / (RAMP_DECELERATION_TIMES_2 / 100)
  /\ 0 <= getBrakingDistanceMillimeter c <= getBrakingDistanceMillimeter c2
  /\ getBrakingDistanceMillimeter c2 <= 65025
  /\ forall c3 : Car,
       CarSpeedCmPerSecondFromIMU c3 = 256 -> getBrakingDistanceMillimeter c3 = 0.
Proof.
  intros Hbuild Hk Hv Hv2. unfold getBrakingDistanceMillimeter. rewrite Hbuild.
  set (k := RAMP_DECELERATION_TIMES_2 / 100) in *.
  set (v := CarSpeedCmPerSecondFromIMU c) in *.
  set (v2 := CarSpeedCmPerSecondFromIMU c2) in *.
  rewrite !unsigned_int_id by (unfold CInt.is_unsigned_int; nia).
  split; [reflexivity |]. split; [| split].
  - split; [apply Z.div_pos; nia | apply Z.div_le_mono; nia].
  - apply Z.div_le_upper_bound; nia.
  - intros c3 H3. rewrite H3. reflexivity.
Qed.

(** *** Pending targets *)

Lemma CarRequestedDistanceMillimeter_set_CarRequestedRotationDegrees (v : Z) (c : Car) :
  CarRequestedDistanceMillimeter (set_CarRequestedRotationDegrees v c)
  = CarRequestedDistanceMillimeter c.
Proof. reflexivity. Qed.

Lemma CarRequestedRotationDegrees_startRampDown (c : Car) :
  CarRequestedRotationDegrees (startRampDown c) = CarRequestedRotationDegrees c.
Proof.
  unfold startRampDown. destruct (isStopped c); [reflexivity |].
  rewrite !CarRequestedRotationDegrees_call. reflexivity.
Qed.

Lemma CarRequestedDistanceMillimeter_startRampDown (c : Car) :
  CarRequestedDistanceMillimeter (startRampDown c) = CarRequestedDistanceMillimeter c.
Proof.
  unfold startRampDown. destruct (isStopped c); [reflexivity |].
  rewrite !CarRequestedDistanceMillimeter_call. reflexivity.
Qed.

Lemma updateDistanceDriving_targets (c : Car) :
  CarRequestedRotationDegrees (updateDistanceDriving c) = CarRequestedRotationDegrees c
  /\ (CarRequestedDistanceMillimeter (updateDistanceDriving c)
      = CarRequestedDistanceMillimeter c
      \/ CarRequestedDistanceMillimeter (updateDistanceDriving c) = 0).
Proof.
  unfold updateDistanceDriving.
  destruct (isDrivingState (MotorRampState (rightCarMotor c))); [| split; [| left]; reflexivity].
  cbv zeta.
  destruct (CarRequestedDistanceMillimeter c <=? CarDistanceMillimeterFromIMU c).
  - case_if.
    + rewrite CarRequestedRotationDegrees_startRampDown,
        CarRequestedDistanceMillimeter_startRampDown, CarRequestedRotationDegrees_stop,
        CarRequestedDistanceMillimeter_stop.
      split; [| right]; reflexivity.
    + rewrite CarRequestedRotationDegrees_stop, CarRequestedDistanceMillimeter_stop.
      split; [| right]; reflexivity.
  - case_if.
    + rewrite CarRequestedRotationDegrees_startRampDown,
        CarRequestedDistanceMillimeter_startRampDown.
      split; [| left]; reflexivity.
    + split; [| left]; reflexivity.
Qed.

Lemma updateBothMotors_targets (c : Car) :
  CarRequestedRotationDegrees (snd (updateBothMotors c)) = CarRequestedRotationDegrees c
  /\ CarRequestedDistanceMillimeter (snd (updateBothMotors c))
     = CarRequestedDistanceMillimeter c.
Proof.
  rewrite updateBothMotors_eq. cbv [snd].
  rewrite !CarRequestedRotationDegrees_call, !CarRequestedDistanceMillimeter_call.
  split; reflexivity.
Qed.

(** X11.  A tick never sets a pending target, it only clears one: after
    [updateMotors] the pending rotation and the pending distance are what
    they were or zero.  The pending distance is left as it was whenever
    the build has no IMU, or has encoder motors, or a rotation is pending;
    so with an IMU and encoder motors the distance that
    [startGoDistanceMillimeter] stores stays pending through every tick.
    Without an IMU the pending rotation is left as it was. *)
Theorem updateMotors_targets (c : Car) :
  let c' := snd (updateMotors c) in
  (CarRequestedRotationDegrees c' = CarRequestedRotationDegrees c
   \/ CarRequestedRotationDegrees c' = 0)
  /\ (CarRequestedDistanceMillimeter c' = CarRequestedDistanceMillimeter c
      \/ CarRequestedDistanceMillimeter c' = 0)
  /\ (USE_MPU6050_IMU = false \/ USE_ENCODER_MOTOR_CONTROL = true
      \/ CarRequestedRotationDegrees c <> 0 ->
      CarRequestedDistanceMillimeter c' = CarRequestedDistanceMillimeter c)
  /\ (USE_MPU6050_IMU = false ->
      CarRequestedRotationDegrees c' = CarRequestedRotationDegrees c).
Proof.
  cbv zeta. unfold updateMotors.
  destruct (updateIMUData_frame c) as (_ & _ & _ & Hrot1 & Hdist1 & _).
  destruct USE_MPU6050_IMU.
  - set (c1 := updateIMUData c) in *.
    destruct (Z.eqb_spec (CarRequestedRotationDegrees c1) 0) as [Hzero | Hpending];
      cbn [negb].
    + match goal with
      | |- context [updateBothMotors ?x] => set (c2 := x)
      end.
      destruct (updateBothMotors_targets c2) as [Hr Hd]. rewrite Hr, Hd.
      assert (H2 : CarRequestedRotationDegrees c2 = CarRequestedRotationDegrees c1
                   /\ (CarRequestedDistanceMillimeter c2 = CarRequestedDistanceMillimeter c1
                       \/ CarRequestedDistanceMillimeter c2 = 0)
                   /\ (USE_ENCODER_MOTOR_CONTROL = true ->
                       CarRequestedDistanceMillimeter c2
                       = CarRequestedDistanceMillimeter c1)).
      { unfold c2.
        destruct (negb (CarRequestedDistanceMillimeter c1 =? 0));
          [| repeat split; left; reflexivity].
        destruct USE_ENCODER_MOTOR_CONTROL; cbn [negb];
          [repeat split; left; reflexivity |].
        destruct (updateDistanceDriving_targets c1) as [H1 H2].
        split; [exact H1 |]. split; [exact H2 | discriminate]. }
      destruct H2 as (H2r & H2d & H2e). rewrite H2r, Hrot1.
      split; [left; reflexivity |].
      split; [destruct H2d as [H2d | H2d]; rewrite H2d; [left; exact Hdist1 | right; reflexivity] |].
      split; [| discriminate].
      intros [Hf | [He | Hp]]; [discriminate | rewrite (H2e He); exact Hdist1 |].
      rewrite <- Hrot1 in Hp. contradiction.
    + repeat case_if; cbv [snd].
      * rewrite CarRequestedDistanceMillimeter_set_CarRequestedRotationDegrees,
          CarRequestedDistanceMillimeter_stop, Hdist1.
        split; [right; reflexivity |]. split; [left; reflexivity |].
        split; [reflexivity | discriminate].
      * unfold changeSpeedCompensated.
        rewrite !CarRequestedRotationDegrees_call, !CarRequestedDistanceMillimeter_call,
          Hrot1, Hdist1.
        split; [left; reflexivity |]. split; [left; reflexivity |].
        split; [reflexivity | discriminate].
      * rewrite Hrot1, Hdist1.
        split; [left; reflexivity |]. split; [left; reflexivity |].
        split; [reflexivity | discriminate].
  - destruct (updateBothMotors_targets c) as [Hr Hd]. rewrite Hr, Hd.
    split; [left; reflexivity |]. split; [left; reflexivity |].
    split; reflexivity.
Qed.

(** *** The blocking waits *)

Lemma waitUntilStopped_loop_fuel (fuel fuel' : nat) (aLoopCallback : option (Car -> Car))
    (c c' : Car) :
  waitUntilStopped_loop fuel aLoopCallback c = Some c' ->
  (fuel <= fuel')%nat ->
  waitUntilStopped_loop fuel' aLoopCallback c = Some c'.
Proof.
  revert fuel' c. induction fuel as [| fuel IH]; intros fuel' c H Hle; [discriminate |].
  destruct fuel' as [| fuel']; [lia |].
  cbn [waitUntilStopped_loop] in *.
  destruct (updateMotorsCallback aLoopCallback c) as [[|] c1]; [| exact H].
  apply IH; [exact H | lia].
Qed.

Lemma waitUntilStopped_loop_exit (fuel : nat) (aLoopCallback : option (Car -> Car))
    (c c' : Car) :
  waitUntilStopped_loop fuel aLoopCallback c = Some c' ->
  exists c1, updateMotorsCallback aLoopCallback c1 = (false, c').
Proof.
  revert c. induction fuel as [| fuel IH]; intros c H; [discriminate |].
  cbn [waitUntilStopped_loop] in H.
  destruct (updateMotorsCallback aLoopCallback c) as [[|] c1] eqn:E.
  - apply (IH c1 H).
  - exists c. injection H as <-. exact E.
Qed.

(** X12.  When [waitUntilStopped] returns, the last tick has returned
    false, the car is the one that tick left except for the commanded
    mode, and the commanded mode is the mode of the right motor.  The
    result does not depend on the bound on the number of rounds: every
    larger bound gives the same car. *)
Theorem waitUntilStopped_returns (fuel : nat) (aLoopCallback : option (Car -> Car))
    (c c' : Car) :
  waitUntilStopped fuel aLoopCallback c = Some c' ->
  CarDirectionOrBrakeMode c' = CurrentDirectionOrBrakeMode (rightCarMotor c')
  /\ (exists c1 c2,
        updateMotorsCallback aLoopCallback c1 = (false, c2)
        /\ c' = set_CarDirectionOrBrakeMode
                  (CurrentDirectionOrBrakeMode (rightCarMotor c2)) c2)
  /\ forall fuel', (fuel <= fuel')%nat -> waitUntilStopped fuel' aLoopCallback c = Some c'.
Proof.
  unfold waitUntilStopped. intros H.
  destruct (waitUntilStopped_loop fuel aLoopCallback c) as [c2 |] eqn:E; [| discriminate].
  injection H as <-.
  split; [reflexivity |]. split.
  - destruct (waitUntilStopped_loop_exit _ _ _ E) as [c1 H1].
    exists c1, c2. split; [exact H1 | reflexivity].
  - intros fuel' Hle. rewrite (waitUntilStopped_loop_fuel _ _ E Hle). reflexivity.
Qed.

(** X13.  When [waitForDriveSpeed] returns, the last tick has returned
    false or it has left both motors in the state
    [MOTOR_STATE_DRIVE_SPEED]; every larger bound on the number of rounds
    gives the same car.  The wait ends no later than [waitUntilStopped]
    would: whenever the ticks of [waitUntilStopped] come to an end within
    a bound, [waitForDriveSpeed] returns within the same bound. *)
Theorem waitForDriveSpeed_returns (fuel : nat) (aLoopCallback : option (Car -> Car))
    (c c' : Car) :
  waitForDriveSpeed fuel aLoopCallback c = Some c' ->
  (exists c1,
     snd (updateMotorsCallback aLoopCallback c1) = c'
     /\ (fst (updateMotorsCallback aLoopCallback c1) = false
         \/ isState MOTOR_STATE_DRIVE_SPEED c' = true))
  /\ (forall fuel', (fuel <= fuel')%nat ->
        waitForDriveSpeed fuel' aLoopCallback c = Some c')
  /\ (forall n c0 c2,
        waitUntilStopped n aLoopCallback c0 = Some c2 ->
        exists c3, waitForDriveSpeed n aLoopCallback c0 = Some c3).
Proof.
  intros H. split; [| split].
  - revert c H. induction fuel as [| fuel IH]; intros c H; [discriminate |].
    cbn [waitForDriveSpeed] in H.
    destruct (updateMotorsCallback aLoopCallback c) as [tMoving c1] eqn:E.
    destruct tMoving; cbn [andb] in H.
    + unfold isState in *.
      destruct (RampState_eqb (MotorRampState (rightCarMotor c1)) MOTOR_STATE_DRIVE_SPEED)
        eqn:Er;
        destruct (RampState_eqb (MotorRampState (leftCarMotor c1)) MOTOR_STATE_DRIVE_SPEED)
          eqn:El;
        cbn [negb orb] in H; try (apply (IH c1 H)).
      injection H as <-. exists c. rewrite E. cbn [fst snd].
      split; [reflexivity |]. right. rewrite Er, El. reflexivity.
    + injection H as <-. exists c. rewrite E. cbn [fst snd].
      split; [reflexivity | left; reflexivity].
  - revert c H. induction fuel as [| fuel IH]; intros c H fuel' Hle; [discriminate |].
    destruct fuel' as [| fuel']; [lia |].
    cbn [waitForDriveSpeed] in *.
    destruct (updateMotorsCallback aLoopCallback c) as [tMoving c1].
    match type of H with
    | (if ?b then _ else _) = _ => destruct b; [| exact H]
    end.
    apply IH; [exact H | lia].
  - clear. intros n c0 c2. unfold waitUntilStopped.
    destruct (waitUntilStopped_loop n aLoopCallback c0) as [c4 |] eqn:E; [| discriminate].
    intros _. revert c0 c4 E.
    induction n as [| n IH]; intros c0 c4 E; [discriminate |].
    cbn [waitUntilStopped_loop waitForDriveSpeed] in *.
    destruct (updateMotorsCallback aLoopCallback c0) as [[|] c1]; cbn [andb].
    + case_if.
      * apply (IH c1 c4 E).
      * eexists. reflexivity.
    + eexists. reflexivity.
Qed.


(** X15.  The two state queries agree: when [isState(aState)] holds, that
    is both motors are in the state [aState], [isStateRamp()] holds
    exactly when [aState] is one of the two ramp states. *)
Theorem isState_isStateRamp (aState : RampState) (c : Car) :
  isState aState c = true ->
  isStateRamp c
  = RampState_eqb aState MOTOR_STATE_RAMP_DOWN || RampState_eqb aState MOTOR_STATE_RAMP_UP.
Proof.
  unfold isState, isStateRamp.
  destruct (MotorRampState (rightCarMotor c)), (MotorRampState (leftCarMotor c)), aState;
    cbn; intros H; try discriminate H; reflexivity.
Qed.

(** *** Operations with and without arbitration *)

Lemma Millis_call (s : Side) (cmd : MotorCmd) (c : Car) : Millis (call s cmd c) = Millis c.
Proof. destruct s; reflexivity. Qed.

Lemma Trace_log (e : Event) (c : Car) : Trace (log e c) = Trace c ++ [e].
Proof. reflexivity. Qed.

Lemma Trace_set_IMUData (v : IMU) (c : Car) : Trace (set_IMUData v c) = Trace c.
Proof. reflexivity. Qed.


(** X17.  [startRampUp] and the two-argument [setSpeedCompensated] run the
    direction arbitration first and then call the motors, the right one
    first; afterwards the commanded mode is the requested direction.  A
    second call with the same direction therefore adds its two motor calls
    and nothing else: no stop and no wait, whatever the speeds. *)
Theorem startRampUp_setSpeedCompensated_arbitrate (aRequestedSpeed aSecondSpeed : Z)
    (aRequestedDirection : Mode) (c : Car) :
  let up := startRampUp aRequestedSpeed aRequestedDirection c in
  let set := setSpeedCompensated aRequestedSpeed aRequestedDirection c in
  (CarDirectionOrBrakeMode up = aRequestedDirection
   /\ Trace up
      = Trace (snd (checkAndHandleDirectionChange aRequestedDirection c))
        ++ [MotorCall RightMotor (startRampUp_ aRequestedSpeed aRequestedDirection);
            MotorCall LeftMotor (startRampUp_ aRequestedSpeed aRequestedDirection)]
   /\ Trace (startRampUp aSecondSpeed aRequestedDirection up)
      = Trace up
        ++ [MotorCall RightMotor (startRampUp_ aSecondSpeed aRequestedDirection);
            MotorCall LeftMotor (startRampUp_ aSecondSpeed aRequestedDirection)])
  /\ (CarDirectionOrBrakeMode set = aRequestedDirection
      /\ Trace set
         = Trace (snd (checkAndHandleDirectionChange aRequestedDirection c))
           ++ [MotorCall RightMotor (setSpeedCompensated_ aRequestedSpeed aRequestedDirection);
               MotorCall LeftMotor (setSpeedCompensated_ aRequestedSpeed aRequestedDirection)]
      /\ Trace (setSpeedCompensated aSecondSpeed aRequestedDirection set)
         = Trace set
           ++ [MotorCall RightMotor (setSpeedCompensated_ aSecondSpeed aRequestedDirection);
               MotorCall LeftMotor (setSpeedCompensated_ aSecondSpeed aRequestedDirection)]).
Proof.
  cbv zeta.
  pose proof (CarDirectionOrBrakeMode_checkAndHandleDirectionChange aRequestedDirection c)
    as Hmode.
  assert (Hup : CarDirectionOrBrakeMode (startRampUp aRequestedSpeed aRequestedDirection c)
                = aRequestedDirection).
  { unfold startRampUp. rewrite !CarDirectionOrBrakeMode_call. exact Hmode. }
  assert (Hset : CarDirectionOrBrakeMode
                   (setSpeedCompensated aRequestedSpeed aRequestedDirection c)
                 = aRequestedDirection).
  { unfold setSpeedCompensated. rewrite !CarDirectionOrBrakeMode_call. exact Hmode. }
  split; (split; [assumption |]); split.
  - apply Trace_startRampUp.
  - rewrite Trace_startRampUp.
    rewrite (checkAndHandleDirectionChange_same _ Hup). reflexivity.
  - unfold setSpeedCompensated. rewrite !Trace_call, <- app_assoc. reflexivity.
  - unfold setSpeedCompensated at 1.
    rewrite (checkAndHandleDirectionChange_same _ Hset). cbv [snd].
    rewrite !Trace_call, <- app_assoc. reflexivity.
Qed.

(** X18.  [startRotate] does not arbitrate and does not wait: it leaves the
    commanded mode, the clock and the pending distance as they are, also
    when it reverses a motor.  In the build with an IMU it stores the
    angle as the pending rotation, for every angle including zero; without
    an IMU the pending rotation is left as it is.  It stops no motor: all
    it sends out is the reset of the IMU data and speed or distance
    commands to the motors. *)
Theorem startRotate_frame (aRotationDegrees : Z) (aTurnDirection : TurnDirection)
    (aUseSlowSpeed : bool) (c : Car) :
  let c' := startRotate aRotationDegrees aTurnDirection aUseSlowSpeed c in
  CarDirectionOrBrakeMode c' = CarDirectionOrBrakeMode c
  /\ Millis c' = Millis c
  /\ CarRequestedDistanceMillimeter c' = CarRequestedDistanceMillimeter c
  /\ CarRequestedRotationDegrees c'
     = (if USE_MPU6050_IMU then aRotationDegrees else CarRequestedRotationDegrees c)
  /\ exists evs,
       Trace c' = Trace c ++ evs
       /\ Forall (fun e =>
                    match e with
                    | IMUCall resetCarData_
                    | MotorCall _ (setSpeedCompensated_ _ _)
                    | MotorCall _ (startGoDistanceMillimeter_ _ _ _) => True
                    | _ => False
                    end) evs.
Proof.
  cbv zeta. unfold startRotate.
  destruct (rotateDistances aTurnDirection _) as [tRight tLeft].
  destruct USE_MPU6050_IMU.
  - set (c1 := set_CarRequestedRotationDegrees aRotationDegrees (IMUresetCarData c)).
    assert (H1 : CarDirectionOrBrakeMode c1 = CarDirectionOrBrakeMode c
                 /\ Millis c1 = Millis c
                 /\ CarRequestedDistanceMillimeter c1 = CarRequestedDistanceMillimeter c
                 /\ CarRequestedRotationDegrees c1 = aRotationDegrees
                 /\ Trace c1 = Trace c ++ [IMUCall resetCarData_])
      by (repeat split).
    destruct H1 as (Hm & Ht & Hd & Hr & Htr).
    destruct (0 <? tRight), (0 <? tLeft);
      rewrite ?CarDirectionOrBrakeMode_call, ?Millis_call,
        ?CarRequestedDistanceMillimeter_call, ?CarRequestedRotationDegrees_call,
        ?Trace_call, Hm, Ht, Hd, Hr, Htr, <- ?app_assoc;
      (do 4 (split; [reflexivity |])); eexists; (split; [reflexivity |]);
      repeat constructor.
  - rewrite !CarDirectionOrBrakeMode_call, !Millis_call,
      !CarRequestedDistanceMillimeter_call, !CarRequestedRotationDegrees_call,
      !Trace_call, <- ?app_assoc.
    do 4 (split; [reflexivity |]). eexists. split; [reflexivity |].
    repeat constructor.
Qed.

(** X19.  [stop] leaves the pending rotation pending.  In the build with an
    IMU, as long as the measured turn angle is more than the overrun
    margin short of a pending rotation, the tick after a [stop] still
    returns true, calls [updateMotor] on neither motor and keeps the
    rotation pending. *)
Theorem stop_keeps_rotation (aStopMode : Mode) (c : Car) :
  let c1 := updateIMUData (stop aStopMode c) in
  USE_MPU6050_IMU = true ->
  CarRequestedRotationDegrees c <> 0 ->
  -16383 <= CarRequestedRotationDegrees c <= 16383 ->
  -32747 <= CarTurnAngleHalfDegreesFromIMU c1 <= 32747 ->
  Z.abs (CarTurnAngleHalfDegreesFromIMU c1) + 2 < Z.abs (CarRequestedRotationDegrees c * 2) ->
  CarRequestedRotationDegrees (stop aStopMode c) = CarRequestedRotationDegrees c
  /\ fst (updateMotors (stop aStopMode c)) = true
  /\ CarRequestedRotationDegrees (snd (updateMotors (stop aStopMode c)))
     = CarRequestedRotationDegrees c
  /\ exists evs,
       Trace (snd (updateMotors (stop aStopMode c)))
       = Trace c ++ [MotorCall RightMotor (stop_ aStopMode);
                     MotorCall LeftMotor (stop_ aStopMode);
                     IMUCall readCarDataFromMPU6050Fifo_] ++ evs
       /\ forall s, ~ In (MotorCall s updateMotor_) evs.
Proof.
  intros c1 Himu Hpending Hrange Hangle Hshort.
  split; [reflexivity |].
  rewrite updateMotors_rotation_pending;
    [| exact Himu | rewrite CarRequestedRotationDegrees_stop; exact Hpending].
  cbv zeta. fold c1. rewrite CarRequestedRotationDegrees_stop.
  destruct (updateIMUData_frame (stop aStopMode c)) as (_ & _ & _ & Hrot1 & _ & _ & Htrace).
  fold c1 in Hrot1, Htrace. rewrite CarRequestedRotationDegrees_stop in Hrot1.
  rewrite Trace_stop in Htrace.
  assert (Ht : CInt.abs (CInt.int (CarRequestedRotationDegrees c * 2))
               = Z.abs (CarRequestedRotationDegrees c * 2)).
  { rewrite int_id by (unfold CInt.is_int; lia). apply abs_id. lia. }
  assert (Hm2 : CInt.int (CInt.abs (CarTurnAngleHalfDegreesFromIMU c1) + 2)
                = Z.abs (CarTurnAngleHalfDegreesFromIMU c1) + 2).
  { rewrite abs_id by lia. apply int_id. unfold CInt.is_int. lia. }
  rewrite Ht, Hm2.
  destruct (Z.leb_spec (Z.abs (CarRequestedRotationDegrees c * 2))
              (Z.abs (CarTurnAngleHalfDegreesFromIMU c1) + 2)); [lia |].
  case_if; cbv [fst snd].
  - split; [reflexivity |].
    split; [unfold changeSpeedCompensated;
            rewrite !CarRequestedRotationDegrees_call; exact Hrot1 |].
    eexists. rewrite Trace_changeSpeedCompensated, Htrace, <- !app_assoc.
    split; [reflexivity |].
    intros s [Hin | [Hin | []]]; discriminate Hin.
  - split; [reflexivity |]. split; [exact Hrot1 |].
    exists []. rewrite Htrace, <- !app_assoc. split; [reflexivity |].
    intros s [].
Qed.

(** *** Calibration cut short *)

Lemma calibrate_speeds_cons : calibrate_speeds = 20 :: upFrom 21 234.
Proof. reflexivity. Qed.

Lemma calibrate_loop_cancelled (fuel : nat) (tSpeed : Z) (tSpeeds : list Z)
    (tMotorMovingCount : Z) (aLoopCallback : Car -> Car) (c : Car) :
  (forall s, StartSpeed (motor s c) = 0) ->
  (forall c1, isStopped (aLoopCallback c1) = true) ->
  calibrate_loop (S fuel) (tSpeed :: tSpeeds) tMotorMovingCount (Some aLoopCallback) c
  = Some (ReturnFromCalibrate
            (aLoopCallback
               (log LoopCallbackCall
                  (call LeftMotor (setSpeed_ tSpeed DIRECTION_FORWARD)
                     (call RightMotor (setSpeed_ tSpeed DIRECTION_FORWARD) c))))).
Proof.
  intros Hstart Hstops.
  assert (HR : calibrate_applySpeed RightMotor tSpeed c
               = call RightMotor (setSpeed_ tSpeed DIRECTION_FORWARD) c).
  { unfold calibrate_applySpeed. rewrite Hstart. reflexivity. }
  assert (HL : calibrate_applySpeed LeftMotor tSpeed
                 (call RightMotor (setSpeed_ tSpeed DIRECTION_FORWARD) c)
               = call LeftMotor (setSpeed_ tSpeed DIRECTION_FORWARD)
                   (call RightMotor (setSpeed_ tSpeed DIRECTION_FORWARD) c)).
  { unfold calibrate_applySpeed. rewrite (motor_call_other RightMotor), Hstart.
    reflexivity. }
  cbn [calibrate_loop]. rewrite HR, HL.
  cbn [calibrate_activeDelay callLoopCallback]. rewrite Hstops. reflexivity.
Qed.

(** X20.  When the loop callback leaves the car stopped, [calibrate] returns
    from inside its first active delay: after the preparation (stop,
    reset of the encoder values or of the IMU offsets) both motors are
    handed the speed 20 once, the callback is called once, and the car is
    returned as the callback leaves it.  No further speed is tried, no
    start speed is stored and the closing [stop()] is not called.  This
    holds in both builds and for every bound on the rounds of the active
    delay but zero. *)
Theorem calibrate_cancelled (fuel : nat) (aLoopCallback : Car -> Car) (c : Car) :
  (forall c1, isStopped (aLoopCallback c1) = true) ->
  exists c0,
    Trace c0
    = Trace c
      ++ [MotorCall RightMotor (stop_ stop_default);
          MotorCall LeftMotor (stop_ stop_default)]
      ++ (if USE_ENCODER_MOTOR_CONTROL
          then [MotorCall RightMotor resetEncoderControlValues_;
                MotorCall LeftMotor resetEncoderControlValues_]
          else [IMUCall resetOffsetDataAndWait_])
      ++ [MotorCall RightMotor (setSpeed_ 20 DIRECTION_FORWARD);
          MotorCall LeftMotor (setSpeed_ 20 DIRECTION_FORWARD);
          LoopCallbackCall]
    /\ calibrate (S fuel) (Some aLoopCallback) c = Some (aLoopCallback c0).
Proof.
  intros Hstops. unfold calibrate. rewrite calibrate_speeds_cons.
  set (cr := resetControlValues (stop stop_default c)).
  destruct (calibrate_clearStartSpeed cr) as [Htrace0 Hfields0].
  set (c0 := set_leftCarMotor (set_StartSpeed 0 (leftCarMotor _)) _) in *.
  set (c1 := if USE_ENCODER_MOTOR_CONTROL then c0 else IMUresetOffsetDataAndWait c0).
  assert (Hstart1 : forall s, StartSpeed (motor s c1) = 0).
  { intros s. destruct (Hfields0 s) as [Hs _]. unfold c1.
    destruct USE_ENCODER_MOTOR_CONTROL; [exact Hs |]. destruct s; exact Hs. }
  assert (Htrace1 : Trace c1
                    = Trace c
                      ++ [MotorCall RightMotor (stop_ stop_default);
                          MotorCall LeftMotor (stop_ stop_default)]
                      ++ (if USE_ENCODER_MOTOR_CONTROL
                          then [MotorCall RightMotor resetEncoderControlValues_;
                                MotorCall LeftMotor resetEncoderControlValues_]
                          else [IMUCall resetOffsetDataAndWait_])).
  { unfold c1, IMUresetOffsetDataAndWait. clearbody c0.
    unfold cr, resetControlValues in Htrace0.
    destruct USE_ENCODER_MOTOR_CONTROL.
    - rewrite Htrace0, !Trace_call, Trace_stop, <- !app_assoc. reflexivity.
    - rewrite Trace_log, Trace_set_IMUData, Htrace0, Trace_stop, <- !app_assoc.
      reflexivity. }
  clearbody c1.
  rewrite (calibrate_loop_cancelled fuel 20 (upFrom 21 234) 0 aLoopCallback c1 Hstart1 Hstops).
  eexists. split; [| reflexivity].
  rewrite Trace_log, !Trace_call, Htrace1, <- !app_assoc. reflexivity.
Qed.

(** *** Rotation to the end *)

Lemma updateMotors_false_rotation (c c' : Car) :
  USE_MPU6050_IMU = true ->
  updateMotors c = (false, c') ->
  CarRequestedRotationDegrees c' = 0.
Proof.
  intros Himu H.
  destruct (Z.eq_dec (CarRequestedRotationDegrees c) 0) as [Hzero | Hpending].
  - rewrite (updateMotors_no_rotation _ Himu Hzero) in H.
    match type of H with
    | updateBothMotors ?x = _ => set (c2 := x) in *
    end.
    destruct (updateBothMotors_targets c2) as [Hr _].
    rewrite H in Hr. cbv [snd] in Hr. rewrite Hr.
    destruct (updateIMUData_frame c) as (_ & _ & _ & Hrot1 & _).
    unfold c2. repeat case_if;
      rewrite ?(proj1 (updateDistanceDriving_targets _)), Hrot1; exact Hzero.
  - rewrite (updateMotors_rotation_pending _ Himu Hpending) in H. cbv zeta in H.
    revert H. repeat case_if; intros H; try discriminate H.
    injection H as <-. reflexivity.
Qed.

(** X21.  With an IMU, [rotate] by an angle other than zero does not
    return with a rotation pending: when it returns, whatever the loop
    callback did in between, the last tick has returned false, the pending
    rotation is zero and the commanded mode is the mode of the right
    motor. *)
Theorem rotate_done (fuel : nat) (aRotationDegrees : Z) (aTurnDirection : TurnDirection)
    (aUseSlowSpeed : bool) (aLoopCallback : option (Car -> Car)) (c c' : Car) :
  USE_MPU6050_IMU = true ->
  aRotationDegrees <> 0 ->
  rotate fuel aRotationDegrees aTurnDirection aUseSlowSpeed aLoopCallback c = Some c' ->
  CarRequestedRotationDegrees c' = 0
  /\ CarDirectionOrBrakeMode c' = CurrentDirectionOrBrakeMode (rightCarMotor c').
Proof.
  intros Himu Hdeg. unfold rotate, waitUntilStopped.
  destruct (Z.eqb_spec aRotationDegrees 0) as [| _]; [contradiction |]. cbn [negb].
  destruct (waitUntilStopped_loop fuel aLoopCallback _) as [c2 |] eqn:E; [| discriminate].
  intros H. injection H as <-.
  destruct (waitUntilStopped_loop_exit _ _ _ E) as [c1 H1].
  unfold updateMotorsCallback in H1.
  split; [| reflexivity].
  apply (updateMotors_false_rotation _ Himu H1).
Qed.

End Further.

(** ** Concrete runs of the further properties *)


(** Compensations (left 7, right 200): a change by -128 leaves the left
    one and takes the right one to (200 + 128) mod 256 = 72. *)
Lemma changeSpeedCompensation_int8_min_witness :
  let c :=
    Reference.car (Reference.compensated 200) (Reference.compensated 7) MOTOR_BRAKE
                  0 0 0 0 [] in
  compensations (changeSpeedCompensation (-128) c) = (7, 72).
Proof.
  intros c.
  destruct (changeSpeedCompensation_int8_min c ltac:(compute_goal)) as [Hl Hr].
  unfold compensations. rewrite Hl, Hr. reflexivity.
Defined.

(** Both units forward at 100: [stop(MOTOR_BRAKE)] and then a request for
    backward; the arbitration adds nothing to the two stop calls. *)
Lemma stop_then_direction_witness :
  let c :=
    Reference.car Reference.cruising Reference.cruising DIRECTION_FORWARD 0 0 0 0 [] in
  CarDirectionOrBrakeMode (stop (drv := Reference.still) MOTOR_BRAKE c) = MOTOR_BRAKE
  /\ checkAndHandleDirectionChange (drv := Reference.still) DIRECTION_BACKWARD
       (stop (drv := Reference.still) MOTOR_BRAKE c)
     = (false,
        set_CarDirectionOrBrakeMode DIRECTION_BACKWARD
          (stop (drv := Reference.still) MOTOR_BRAKE c))
  /\ Trace (snd (checkAndHandleDirectionChange (drv := Reference.still) DIRECTION_BACKWARD
                   (stop (drv := Reference.still) MOTOR_BRAKE c)))
     = [MotorCall RightMotor (stop_ MOTOR_BRAKE); MotorCall LeftMotor (stop_ MOTOR_BRAKE)].
Proof.
  intros c.
  destruct (stop_then_direction (drv := Reference.still) MOTOR_BRAKE DIRECTION_BACKWARD c
              (fun a m => eq_refl)) as (Hm & Hf & Ht & _).
  split; [rewrite Hm; reflexivity |].
  split; [reflexivity | exact Ht].
Defined.

(** A distance of -250 mm in the plain build: 250 mm backward at the drive
    speed 100 of the right unit. *)
Lemma startGoDistanceMillimeterSigned_magnitude_witness :
  let c := Reference.car Reference.standing Reference.standing MOTOR_BRAKE 0 0 0 0 [] in
  Trace (startGoDistanceMillimeterSigned (drv := Reference.still) (cfg := Reference.plain)
           (-250) c)
  = [MotorCall RightMotor (startGoDistanceMillimeter_ 100 250 DIRECTION_BACKWARD);
     MotorCall LeftMotor (startGoDistanceMillimeter_ 100 250 DIRECTION_BACKWARD)].
Proof.
  intros c.
  rewrite (startGoDistanceMillimeterSigned_magnitude (drv := Reference.still)
             (cfg := Reference.plain) (aRequestedDistanceMillimeter := -250) c ltac:(lia)).
  reflexivity.
Defined.

(** Start speed 40, drive speed 100: the slow turn speed is 60, the other
    one 100. *)
Lemma rotateTurnSpeed_range_witness :
  rotateTurnSpeed true Reference.standing = 60
  /\ rotateTurnSpeed false Reference.standing = 100.
Proof.
  destruct (rotateTurnSpeed_range true Reference.standing
              ltac:(compute_goal) ltac:(compute_goal)) as (_ & Hslow & _).
  destruct (rotateTurnSpeed_range false Reference.standing
              ltac:(compute_goal) ltac:(compute_goal)) as (_ & _ & Hdrive).
  destruct (Hslow eq_refl ltac:(compute_goal)) as [E _].
  split; [rewrite E; reflexivity | rewrite (Hdrive (or_introl eq_refl)); reflexivity].
Defined.

(** Cached speeds 40 and 100 cm/s with the deceleration constant 3500:
    braking distances 1600 / 35 = 45 and 10000 / 35 = 285 mm. *)
Lemma getBrakingDistanceMillimeter_IMU_witness :
  let c :=
    set_CarSpeedCmPerSecondFromIMU 40
      (Reference.car Reference.cruising Reference.cruising DIRECTION_FORWARD 0 0 0 0 []) in
  let c2 :=
    set_CarSpeedCmPerSecondFromIMU 100
      (Reference.car Reference.cruising Reference.cruising DIRECTION_FORWARD 0 0 0 0 []) in
  getBrakingDistanceMillimeter (drv := Reference.still) (cfg := Reference.imuOnly) c = 45
  /\ getBrakingDistanceMillimeter (drv := Reference.still) (cfg := Reference.imuOnly) c
     <= getBrakingDistanceMillimeter (drv := Reference.still) (cfg := Reference.imuOnly) c2.
Proof.
  intros c c2.
  destruct (getBrakingDistanceMillimeter_IMU (drv := Reference.still)
              (cfg := Reference.imuOnly) c c2
              ltac:(compute_goal) ltac:(compute_goal) ltac:(compute_goal)
              ltac:(compute_goal)) as (E & [_ Hle] & _).
  split; [rewrite E; reflexivity | exact Hle].
Defined.

(** IMU and encoder motors, distance 500 pending, measured distance 600:
    the pending distance is still 500 after the tick. *)
Lemma updateMotors_targets_witness :
  let c :=
    Reference.car Reference.cruising Reference.cruising DIRECTION_FORWARD
                  0 500 0 600 [] in
  CarRequestedDistanceMillimeter
    (snd (updateMotors (drv := Reference.still)
            (cfg := Build_BuildConfig true true STOP_MODE_KEEP) c)) = 500.
Proof.
  intros c.
  destruct (updateMotors_targets (drv := Reference.still)
              (cfg := Build_BuildConfig true true STOP_MODE_KEEP) c) as (_ & _ & Hkeep & _).
  rewrite (Hkeep (or_intror (or_introl eq_refl))). reflexivity.
Defined.

(** A standing car in the plain build: the first tick returns false, and
    the commanded mode becomes the brake mode of the right unit. *)
Lemma waitUntilStopped_returns_witness :
  let c := Reference.car Reference.standing Reference.standing MOTOR_RELEASE 0 0 0 0 [] in
  exists c',
    waitUntilStopped (drv := Reference.still) (cfg := Reference.plain) 1 None c = Some c'
    /\ CarDirectionOrBrakeMode c' = MOTOR_BRAKE
    /\ waitUntilStopped (drv := Reference.still) (cfg := Reference.plain) 5 None c = Some c'.
Proof.
  intros c. eexists. split; [vm_compute; reflexivity |].
  match goal with
  | |- CarDirectionOrBrakeMode ?x = _ /\ _ =>
      destruct (waitUntilStopped_returns (drv := Reference.still) (cfg := Reference.plain)
                  1 None c (c' := x) eq_refl) as (Hm & _ & Hfuel)
  end.
  split; [rewrite Hm; reflexivity | apply Hfuel; lia].
Defined.

(** Both units in the ramp-up state: one tick takes them to drive speed
    and the wait returns. *)
Lemma waitForDriveSpeed_returns_witness :
  let rampingUp :=
    Reference.motorUnit 40 40 100 0 MOTOR_STATE_RAMP_UP DIRECTION_FORWARD in
  let c := Reference.car rampingUp rampingUp DIRECTION_FORWARD 0 0 0 0 [] in
  exists c',
    waitForDriveSpeed (drv := Reference.still) (cfg := Reference.plain) 1 None c = Some c'
    /\ isState MOTOR_STATE_DRIVE_SPEED c' = true
    /\ waitForDriveSpeed (drv := Reference.still) (cfg := Reference.plain) 5 None c = Some c'.
Proof.
  intros rampingUp c. eexists. split; [vm_compute; reflexivity |].
  match goal with
  | |- isState _ ?x = _ /\ _ =>
      destruct (waitForDriveSpeed_returns (drv := Reference.still) (cfg := Reference.plain)
                  1 None c (c' := x) eq_refl) as (_ & Hfuel & _)
  end.
  split; [reflexivity | apply Hfuel; lia].
Defined.


(** Both units in the ramp-up state. *)
Lemma isState_isStateRamp_witness :
  let rampingUp :=
    Reference.motorUnit 40 40 100 0 MOTOR_STATE_RAMP_UP DIRECTION_FORWARD in
  let c := Reference.car rampingUp rampingUp DIRECTION_FORWARD 0 0 0 0 [] in
  isState MOTOR_STATE_RAMP_UP c = true /\ isStateRamp c = true.
Proof.
  intros rampingUp c. split; [reflexivity |].
  rewrite (isState_isStateRamp MOTOR_STATE_RAMP_UP c eq_refl). reflexivity.
Defined.


(** Rotation by 90 degrees pending, the next IMU sample at 100 half
    degrees: after [stop] the tick returns true and the rotation stays
    pending. *)
Lemma stop_keeps_rotation_witness :
  let c :=
    Reference.car Reference.cruising Reference.cruising DIRECTION_FORWARD
                  90 0 0 0 [(100, 0, 0)] in
  fst (updateMotors (drv := Reference.still) (cfg := Reference.imuOnly)
         (stop (drv := Reference.still) MOTOR_BRAKE c)) = true
  /\ CarRequestedRotationDegrees
       (snd (updateMotors (drv := Reference.still) (cfg := Reference.imuOnly)
               (stop (drv := Reference.still) MOTOR_BRAKE c))) = 90.
Proof.
  intros c.
  destruct (stop_keeps_rotation (drv := Reference.still) (cfg := Reference.imuOnly)
              MOTOR_BRAKE c
              ltac:(compute_goal) ltac:(compute_goal) ltac:(compute_goal)
              ltac:(compute_goal) ltac:(compute_goal)) as (_ & Hf & Hr & _).
  split; [exact Hf | exact Hr].
Defined.

(** Encoder build, a callback that stops the car: [calibrate] returns
    after the first callback. *)
Lemma calibrate_cancelled_witness :
  let c := Reference.car Reference.standing Reference.standing MOTOR_BRAKE 0 0 0 0 [] in
  let tStop := stop (drv := Reference.still) MOTOR_BRAKE in
  exists c0,
    Trace c0
    = [MotorCall RightMotor (stop_ STOP_MODE_KEEP);
       MotorCall LeftMotor (stop_ STOP_MODE_KEEP);
       MotorCall RightMotor resetEncoderControlValues_;
       MotorCall LeftMotor resetEncoderControlValues_;
       MotorCall RightMotor (setSpeed_ 20 DIRECTION_FORWARD);
       MotorCall LeftMotor (setSpeed_ 20 DIRECTION_FORWARD);
       LoopCallbackCall]
    /\ calibrate (drv := Reference.still) (cfg := Reference.encoderOnly) 1 (Some tStop) c
       = Some (tStop c0).
Proof.
  intros c tStop.
  destruct (calibrate_cancelled (drv := Reference.still) (cfg := Reference.encoderOnly)
              0 tStop c (fun c1 => eq_refl)) as (c0 & Ht & Hc).
  exists c0. split; [exact Ht | exact Hc].
Defined.

(** Rotation by 90 degrees in place, the next IMU sample at 178 half
    degrees: the first tick stops the car and [rotate] returns with no
    rotation pending. *)
Lemma rotate_done_witness :
  let c :=
    Reference.car Reference.standing Reference.standing MOTOR_BRAKE
                  0 0 0 0 [(178, 0, 0)] in
  exists c',
    rotate (drv := Reference.still) (cfg := Reference.imuOnly) 1 90 TURN_IN_PLACE true None c
    = Some c'
    /\ CarRequestedRotationDegrees c' = 0
    /\ CarDirectionOrBrakeMode c' = MOTOR_BRAKE.
Proof.
  intros c. eexists. split; [vm_compute; reflexivity |].
  match goal with
  | |- CarRequestedRotationDegrees ?x = _ /\ _ =>
      destruct (rotate_done (drv := Reference.still) (cfg := Reference.imuOnly)
                  1 (aRotationDegrees := 90) TURN_IN_PLACE true None c (c' := x)
                  eq_refl ltac:(discriminate) eq_refl) as [Hr Hm]
  end.
  split; [exact Hr | rewrite Hm; reflexivity].
Defined.
